(** * CRM Igreja: the permission check, the people register, the visitor
      follow-up workflow, the donation summary and the counselling notes.

    A shallow embedding of the data-access functions of the application
    (modules [auth], [pessoas], [visitantes], [financeiro],
    [aconselhamento], and [database.db]) together with the properties the
    design note states about them. *)

From Stdlib Require Import ZArith String Ascii List Bool Lia Sorted
  Permutation.
From stdpp Require Import base strings gmap list fin_maps pretty.
Import ListNotations.

Local Open Scope string_scope.
Local Open Scope Z_scope.

(** ** Values

    What travels between Python and SQLite: [None]/NULL, integers and text.
    Python strings are kept as their UTF-8 bytes; the split on ['.'] and the
    prefix test agree on bytes and on code points. *)

Inductive valor : Type :=
  | VNull : valor
  | VInt  : Z -> valor
  | VText : string -> valor.

#[global] Instance valor_eq_dec : EqDecision valor.
Proof. solve_decision. Defined.

(** Python truthiness ([if x:], [x or 0], [dict.get(k)] in a condition). *)
Definition verdadeiro (v : valor) : bool :=
  match v with
  | VNull => false
  | VInt n => negb (n =? 0)
  | VText s => negb (String.eqb s "")
  end.

(** SQL [a = b]: never true when a side is NULL. *)
Definition sql_eq (a b : valor) : bool :=
  match a, b with
  | VInt x, VInt y => x =? y
  | VText x, VText y => String.eqb x y
  | _, _ => false
  end.

(** A Python dict in insertion order. *)
Fixpoint dict_get {A : Type} (d : list (string * A)) (k : string) : option A :=
  match d with
  | [] => None
  | (k', v) :: r => if String.eqb k' k then Some v else dict_get r k
  end.

(** ** Strings *)

(** [s.startswith(pre)] *)
Definition startswith (s pre : string) : bool := String.prefix pre s.

(** [s.split('.')[0]]: the text before the first dot, all of [s] when it has
    none. *)
Fixpoint primeiro_segmento (s : string) : string :=
  match s with
  | EmptyString => EmptyString
  | String c r =>
      if Ascii.eqb c "."%char then EmptyString
      else String c (primeiro_segmento r)
  end.

(** [x in xs] for a list of strings. *)
Definition contem (x : string) (xs : list string) : bool :=
  existsb (String.eqb x) xs.

(** ** config/settings.py *)

Module Settings.

Record perfil : Type := Perfil { nome : string; permissoes : list string }.

Definition PERFIS : list (string * perfil) :=
  [ ("ADMIN", Perfil "Administrador" ["*"]);
    ("PASTOR", Perfil "Pastor"
       [ "pessoas.ver"; "pessoas.editar";
         "visitantes.ver"; "visitantes.editar";
         "ministerios.ver"; "ministerios.editar";
         "celulas.ver"; "celulas.editar";
         "eventos.ver"; "eventos.editar";
         "comunicacao.ver"; "comunicacao.enviar";
         "aconselhamento.ver"; "aconselhamento.editar";
         "dashboard.ver";
         "relatorios.ver";
         "configuracoes.usuarios"; "configuracoes.igreja"; "configuracoes.logs" ]);
    ("LIDER", Perfil "Líder de Ministério/Célula"
       [ "pessoas.ver";
         "visitantes.ver";
         "ministerios.ver";
         "celulas.ver"; "celulas.editar_proprio";
         "eventos.ver";
         "comunicacao.ver"; "comunicacao.enviar_grupo";
         "dashboard.ver_proprio" ]);
    ("SECRETARIA", Perfil "Secretaria"
       [ "pessoas.ver"; "pessoas.editar";
         "visitantes.ver"; "visitantes.editar";
         "ministerios.ver";
         "celulas.ver";
         "eventos.ver"; "eventos.editar";
         "comunicacao.ver"; "comunicacao.enviar";
         "relatorios.ver";
         "configuracoes.igreja" ]);
    ("FINANCEIRO", Perfil "Financeiro"
       [ "pessoas.ver";
         "doacoes.ver"; "doacoes.editar";
         "relatorios.financeiro";
         "dashboard.financeiro" ]) ].

(** The funnel stages, in order (the display name and colour of each entry
    play no part in what follows). *)
Definition STATUS_PESSOA : list string :=
  [ "visitante"; "novo_convertido"; "em_integracao"; "membro"; "dizimista";
    "lider"; "obreiro"; "diacono"; "presbitero"; "evangelista";
    "missionario"; "pastor_auxiliar"; "pastor"; "apostolo"; "inativo" ].

End Settings.

(** ** modules/auth.py *)

Module Auth.
Import Settings.

(** [PERFIS[perfil]] for the value found under ['perfil']: only a text that
    is a key of the table is [in PERFIS]. *)
Definition perfil_de (v : valor) : option perfil :=
  match v with
  | VText s => dict_get PERFIS s
  | _ => None
  end.

Definition tem_permissao (usuario : option (gmap string valor))
    (permissao : string) : bool :=
  match usuario with
  | None => false
  | Some u =>
      if decide (u = ∅) then false
      else
        let perfil := default (VText "") (u !! "perfil") in
        match perfil_de perfil with
        | None => false
        | Some pf =>
            let permissoes := permissoes pf in
            if contem "*" permissoes then true
            else if contem permissao permissoes then true
            else existsb (fun p => startswith p (primeiro_segmento permissao))
                         permissoes
        end
  end.

End Auth.

(** ** Dates

    A [datetime.date] is kept by its proleptic Gregorian ordinal
    ([date.toordinal()]); year, month and day are views of it, computed the
    way the standard library does. *)

Module Datas.

Definition MAXORDINAL : Z := 3652059.

Definition bissexto (y : Z) : bool :=
  (y mod 4 =? 0) && (negb (y mod 100 =? 0) || (y mod 400 =? 0)).

Definition dias_antes_do_ano (year : Z) : Z :=
  let y := year - 1 in y * 365 + y / 4 - y / 100 + y / 400.

Definition dias_no_mes (y m : Z) : Z :=
  if (m =? 2) && bissexto y then 29
  else nth (Z.to_nat m) [0; 31; 28; 31; 30; 31; 30; 31; 31; 30; 31; 30; 31] 0.

Definition DIAS_ANTES_DO_MES (m : Z) : Z :=
  nth (Z.to_nat m) [0; 0; 31; 59; 90; 120; 151; 181; 212; 243; 273; 304; 334] 0.

Definition dias_antes_do_mes (y m : Z) : Z :=
  DIAS_ANTES_DO_MES m + (if (2 <? m) && bissexto y then 1 else 0).

Definition ymd2ord (y m d : Z) : Z :=
  dias_antes_do_ano y + dias_antes_do_mes y m + d.

Definition DI400Y : Z := dias_antes_do_ano 401.
Definition DI100Y : Z := dias_antes_do_ano 101.
Definition DI4Y : Z := dias_antes_do_ano 5.

Definition ord2ymd (n0 : Z) : Z * Z * Z :=
  let n := n0 - 1 in
  let n400 := n / DI400Y in let n := n mod DI400Y in
  let year := n400 * 400 + 1 in
  let n100 := n / DI100Y in let n := n mod DI100Y in
  let n4 := n / DI4Y in let n := n mod DI4Y in
  let n1 := n / 365 in let n := n mod 365 in
  let year := year + n100 * 100 + n4 * 4 + n1 in
  if (n1 =? 4) || (n100 =? 4) then (year - 1, 12, 31)
  else
    let leapyear := (n1 =? 3) && (negb (n4 =? 24) || (n100 =? 3)) in
    let month := Z.shiftr (n + 50) 5 in
    let preceding :=
      DIAS_ANTES_DO_MES month + (if (2 <? month) && leapyear then 1 else 0) in
    if n <? preceding then
      let month := month - 1 in
      let preceding :=
        preceding
        - (nth (Z.to_nat month) [0; 31; 28; 31; 30; 31; 30; 31; 31; 30; 31; 30; 31] 0
           + (if (month =? 2) && leapyear then 1 else 0)) in
      (year, month, n - preceding + 1)
    else (year, month, n - preceding + 1).

(** [d.replace(day=1)] *)
Definition primeiro_do_mes (d : Z) : Z :=
  let '(y, m, _) := ord2ymd d in ymd2ord y m 1.

(** [d.replace(month=1, day=1)] *)
Definition primeiro_do_ano (d : Z) : Z :=
  let '(y, _, _) := ord2ymd d in ymd2ord y 1 1.

(** [d.weekday()], Monday is 0. *)
Definition weekday (d : Z) : Z := (d + 6) mod 7.

End Datas.

(** ** Exceptions, results and the state the functions run in *)

Inductive excecao : Type :=
  | TypeError | KeyError | AttributeError | OverflowError
  | IntegrityError | OperationalError.

Inductive resultado (A : Type) : Type :=
  | Ok : A -> resultado A
  | Erro : excecao -> resultado A.
Arguments Ok {A} _.
Arguments Erro {A} _.

(** A computation over a state [S] that returns or raises.  The state it
    leaves behind when it raises is the state at the [raise].  It runs
    knowing whether the write lock of the database is held, at that moment,
    by a connection other than the ones it opens itself. *)
Definition M (S A : Type) : Type := bool -> S -> resultado A * S.

(** No connection has a write pending: the situation of a call made by a
    page. *)
Abbreviation livre := false.

Definition ret {S A} (a : A) : M S A := fun _ s => (Ok a, s).
Definition bind {S A B} (m : M S A) (k : A -> M S B) : M S B :=
  fun ocupado s => match m ocupado s with
                   | (Ok a, s') => k a ocupado s'
                   | (Erro e, s') => (Erro e, s')
                   end.

Notation "'seja' x <- c ; k" := (bind c (fun x => k))
  (at level 10, x name, c at level 100, k at level 200,
   format "'[v' 'seja'  x  <-  c ; '/' k ']'").
Notation "'faca' c ; k" := (bind c (fun _ => k))
  (at level 10, c at level 100, k at level 200,
   format "'[v' 'faca'  c ; '/' k ']'").

(** [try: p except Exception as e: h e] *)
Definition tentar {S A} (p : M S A) (h : excecao -> M S A) : M S A :=
  fun ocupado s => match p ocupado s with
                   | (Erro e, s') => h e ocupado s'
                   | r => r
                   end.

(** A value computed by an expression that may raise. *)
Definition avaliar {S A} (r : resultado A) : M S A := fun _ s => (r, s).

(** [timedelta(days=v)]: the number of days, when [v] is a number in range. *)
Definition timedelta_days (v : valor) : resultado Z :=
  match v with
  | VInt n => if Z.abs n <=? 999999999 then Ok n else Erro OverflowError
  | _ => Erro TypeError
  end.

(** [d + timedelta(days=n)] *)
Definition date_add (d n : Z) : resultado Z :=
  let o := d + n in
  if (0 <? o) && (o <=? Datas.MAXORDINAL) then Ok o else Erro OverflowError.

(** ** The database (database/db.py)

    The tables the functions below touch.  A row of [pessoas] is kept as the
    dict [sqlite3.Row] gives, column name to value, because [salvar_pessoa]
    writes whichever columns its argument names; the other tables are read and
    written through fixed column lists and are records.  Dates are ordinals,
    timestamps the text the [sqlite3] adapter stores. *)

Abbreviation linha := (gmap string valor).

(** [row[k]] for a column of the table; a column without a value is NULL. *)
Definition coluna (r : linha) (k : string) : valor := default VNull (r !! k).

Record familia : Type := Familia { fam_id : Z; fam_nome : string }.

Record tag : Type := Tag { tag_id : Z; tag_nome : string }.

Record pessoa_tag : Type := PessoaTag { pt_pessoa_id : Z; pt_tag_id : Z }.

Record visita : Type := Visita {
  vi_id : Z;
  vi_pessoa_id : Z;
  vi_evento_id : valor;
  vi_data_visita : Z;
  vi_tipo_culto : valor;
  vi_como_conheceu : valor;
  vi_responsavel_recepcao_id : valor }.

Record linha_followup : Type := Followup {
  fu_id : Z;
  fu_pessoa_id : Z;
  fu_tipo : string;
  fu_status : string;
  fu_data_prevista : option Z;
  fu_data_realizada : valor;
  fu_responsavel_id : valor;
  fu_observacoes : valor;
  fu_resultado : valor }.

Record fluxo : Type := Fluxo {
  fl_id : Z;
  fl_igreja_id : Z;
  fl_nome : string;
  fl_trigger_evento : valor;
  fl_dias_apos_trigger : valor;
  fl_tipo_acao : valor;
  fl_template_mensagem : valor;
  fl_ativo : valor }.

Record aconselhamento : Type := Aconselhamento {
  ac_id : Z;
  ac_igreja_id : valor;
  ac_pessoa_id : valor;
  ac_conselheiro_id : valor;
  ac_data_atendimento : valor;
  ac_tipo : valor;
  ac_resumo_criptografado : valor;
  ac_notas_criptografadas : valor;
  ac_status : valor;
  ac_proximo_encontro : valor }.

Record log_acesso : Type := LogAcesso {
  lg_id : Z;
  lg_usuario_id : valor;
  lg_igreja_id : valor;
  lg_acao : string;
  lg_detalhes : string }.

(** [sqlite_sequence]: the largest id an AUTOINCREMENT table has handed out. *)
Record sequencias : Type := Sequencias {
  seq_pessoas : Z;
  seq_visitas : Z;
  seq_followup : Z;
  seq_aconselhamentos : Z;
  seq_logs_acesso : Z }.

Record BD : Type := MkBD {
  pessoas : list linha;
  familias : list familia;
  tags : list tag;
  pessoa_tags : list pessoa_tag;
  visitas : list visita;
  followup : list linha_followup;
  fluxos_followup : list fluxo;
  aconselhamentos : list aconselhamento;
  logs_acesso : list log_acesso;
  sqlite_sequence : sequencias }.

Definition com_pessoas (f : list linha -> list linha) (bd : BD) : BD :=
  MkBD (f (pessoas bd)) (familias bd) (tags bd) (pessoa_tags bd) (visitas bd)
       (followup bd) (fluxos_followup bd) (aconselhamentos bd) (logs_acesso bd)
       (sqlite_sequence bd).

Definition com_followup (f : list linha_followup -> list linha_followup)
    (bd : BD) : BD :=
  MkBD (pessoas bd) (familias bd) (tags bd) (pessoa_tags bd) (visitas bd)
       (f (followup bd)) (fluxos_followup bd) (aconselhamentos bd)
       (logs_acesso bd) (sqlite_sequence bd).

(** The id an AUTOINCREMENT table gives its next row: one more than the
    largest it holds or has ever handed out. *)
Definition proximo_id (ids : list Z) (seq : Z) : Z :=
  fold_right Z.max seq ids + 1.

Definition id_da_linha (r : linha) : Z :=
  match coluna r "id" with VInt n => n | _ => 0 end.

(** The session ([st.session_state]) and the clock. *)
Record sessao : Type := Sessao {
  usuario : option linha;      (* get_usuario_atual() *)
  igreja_id : valor }.         (* get_igreja_id() *)

Record relogio : Type := Relogio {
  hoje : Z;                    (* date.today() *)
  agora : string }.            (* datetime.now() *)

(** [usuario[k]] and [usuario.get(k)] on the session's user. *)
Definition usuario_item (s : sessao) (k : string) : resultado valor :=
  match usuario s with
  | None => Erro TypeError
  | Some u => match u !! k with Some v => Ok v | None => Erro KeyError end
  end.

Definition usuario_get (s : sessao) (k : string) : resultado valor :=
  match usuario s with
  | None => Erro AttributeError
  | Some u => Ok (coluna u k)
  end.

(** *** Connections

    [with get_connection() as conn:] opens a connection, commits when its
    body returns and rolls back and re-raises when the body raises.  The
    first statement of the connection that writes opens its transaction and
    takes the write lock of the database, which SQLite gives to one
    connection at a time: a connection that finds it taken waits for
    [busy_timeout] and raises [OperationalError] ('database is locked').  The
    lock is held until the commit or the rollback.  A function called from
    inside the body that opens a connection of its own reads the committed
    store, and what it commits stays when the enclosing connection rolls
    back. *)

Inductive transacao : Type :=
  | Limpa (bd : BD)                       (* nothing written yet *)
  | Suja (visivel confirmado : BD).       (* writes pending, lock held *)

Definition visivel (t : transacao) : BD :=
  match t with Limpa bd => bd | Suja v _ => v end.

Definition confirmado (t : transacao) : BD :=
  match t with Limpa bd => bd | Suja _ c => c end.

Definition Tx (A : Type) : Type := M transacao A.

(** A statement of this connection that writes: [w] gives its result and
    the store it leaves, or the exception the statement raises. *)
Definition escrever {A} (w : BD -> resultado (A * BD)) : Tx A :=
  fun ocupado t =>
    match t with
    | Limpa bd =>
        if ocupado then (Erro OperationalError, t)
        else match w bd with
             | Ok (a, v) => (Ok a, Suja v bd)
             | Erro e => (Erro e, Suja bd bd)
             end
    | Suja v c =>
        match w v with
        | Ok (a, v') => (Ok a, Suja v' c)
        | Erro e => (Erro e, t)
        end
    end.

Definition executar (w : BD -> BD) : Tx unit :=
  escrever (fun v => Ok (tt, w v)).

(** A query of this connection. *)
Definition consultar {A} (q : BD -> A) : Tx A :=
  fun _ t => (Ok (q (visivel t)), t).

(** A call to a function that manages a connection of its own. *)
Definition chamar {A} (f : M BD A) : Tx A :=
  fun ocupado t =>
    match t with
    | Limpa bd => let '(r, bd') := f ocupado bd in (r, Limpa bd')
    | Suja v c => let '(r, c') := f true c in (r, Suja v c')
    end.

Definition get_connection {A} (corpo : Tx A) : M BD A :=
  fun ocupado bd =>
    match corpo ocupado (Limpa bd) with
    | (Ok a, t) => (Ok a, visivel t)
    | (Erro e, t) => (Erro e, confirmado t)
    end.

(** A read through a function of the data layer. *)
Definition ler {A} (q : BD -> A) : M BD A := fun _ bd => (Ok (q bd), bd).

(** *** registrar_log (modules/auth.py) *)

Definition inserir_log (usuario_id igreja : valor) (acao detalhes : string)
    (bd : BD) : BD :=
  let n := proximo_id (map lg_id (logs_acesso bd))
                      (seq_logs_acesso (sqlite_sequence bd)) in
  let sq := sqlite_sequence bd in
  MkBD (pessoas bd) (familias bd) (tags bd) (pessoa_tags bd) (visitas bd)
       (followup bd) (fluxos_followup bd) (aconselhamentos bd)
       (logs_acesso bd ++ [LogAcesso n usuario_id igreja acao detalhes])
       (Sequencias (seq_pessoas sq) (seq_visitas sq) (seq_followup sq)
                   (seq_aconselhamentos sq) n).

(** The insert is wrapped in [try/except]: a failure is printed and
    dropped, the caller goes on. *)
Definition registrar_log (usuario_id igreja : valor) (acao detalhes : string)
    : M BD unit :=
  tentar (get_connection (executar (inserir_log usuario_id igreja acao detalhes)))
         (fun _ => ret tt).

(** ** SQL text operators *)

Definition minuscula (c : ascii) : ascii :=
  let n := nat_of_ascii c in
  if (65 <=? n)%nat && (n <=? 90)%nat then ascii_of_nat (n + 32) else c.

Fixpoint minusculas (s : string) : string :=
  match s with
  | EmptyString => EmptyString
  | String c r => String (minuscula c) (minusculas r)
  end.

(** The bytes that continue a UTF-8 character. *)
Definition continuacao (c : ascii) : bool :=
  let n := nat_of_ascii c in (128 <=? n)%nat && (n <? 192)%nat.

Fixpoint pular_continuacao (s : string) : string :=
  match s with
  | String c r => if continuacao c then pular_continuacao r else s
  | EmptyString => EmptyString
  end.

(** [s LIKE p]: [%] matches any run of characters, [_] one character, any
    other character itself, letters of ASCII without regard to case. *)
Fixpoint like (p s : string) : bool :=
  match p with
  | EmptyString => match s with EmptyString => true | _ => false end
  | String pc p' =>
      if Ascii.eqb pc "%"%char then
        (fix resto (s : string) : bool :=
           like p' s || match s with
                        | EmptyString => false
                        | String _ s' => resto s'
                        end) s
      else
        match s with
        | EmptyString => false
        | String sc s' =>
            if Ascii.eqb pc "_"%char then like p' (pular_continuacao s')
            else Ascii.eqb (minuscula pc) (minuscula sc) && like p' s'
        end
  end.

(** The text of a value, as an f-string and SQLite's text conversion give it
    for text and integers. *)
Definition texto_de (v : valor) : string :=
  match v with
  | VNull => "None"
  | VInt n => pretty n
  | VText s => s
  end.

Definition sql_like (v : valor) (padrao : string) : bool :=
  match v with
  | VNull => false
  | _ => like padrao (texto_de v)
  end.

(** The order of [ORDER BY] on a column: NULL first, then numbers, then text
    byte by byte. *)
Definition valor_leb (a b : valor) : bool :=
  match a, b with
  | VNull, _ => true
  | _, VNull => false
  | VInt x, VInt y => x <=? y
  | VInt _, VText _ => true
  | VText _, VInt _ => false
  | VText x, VText y => String.leb x y
  end.

Section Ordenar.
Context {A : Type} (leb : A -> A -> bool).

Fixpoint inserir_ordenado (x : A) (l : list A) : list A :=
  match l with
  | [] => [x]
  | y :: r => if leb x y then x :: l else y :: inserir_ordenado x r
  end.

Definition ordenar (l : list A) : list A :=
  fold_right inserir_ordenado [] l.
End Ordenar.

(** The distinct elements of a list, first occurrences kept. *)
Fixpoint distintos (l : list string) : list string :=
  match l with
  | [] => []
  | x :: r => x :: List.filter (fun y => negb (String.eqb x y)) (distintos r)
  end.

(** ** modules/pessoas.py *)

Module Pessoas.

(** The columns of [pessoas]: the CREATE TABLE list and the four columns the
    migrations add. *)
Definition COLUNAS : list string :=
  [ "id"; "igreja_id"; "nome"; "email"; "telefone"; "celular";
    "data_nascimento"; "genero"; "estado_civil"; "foto_url";
    "endereco"; "numero"; "complemento"; "bairro"; "cidade"; "estado"; "cep";
    "status"; "data_primeira_visita"; "data_conversao"; "data_batismo";
    "data_membresia"; "igreja_anterior"; "como_conheceu";
    "profissao"; "empresa"; "familia_id"; "papel_familia";
    "observacoes"; "dados_sensiveis_criptografados"; "ativo";
    "data_cadastro"; "data_atualizacao";
    "quem_convidou"; "batizado"; "aceita_whatsapp"; "sexo" ].

(** The column a key of [dados] names in the statement built from it; SQL
    reads column names without regard to case.  Keys are column identifiers,
    as every caller passes them. *)
Definition resolver_coluna (k : string) : option string :=
  let c := minusculas k in if contem c COLUNAS then Some c else None.

Fixpoint resolver_colunas (campos : list (string * valor))
    : resultado (list (string * valor)) :=
  match campos with
  | [] => Ok []
  | (k, v) :: r =>
      match resolver_coluna k, resolver_colunas r with
      | Some c, Ok r' => Ok ((c, v) :: r')
      | None, _ => Erro OperationalError
      | _, Erro e => Erro e
      end
  end.

(** [WHERE id = ? AND igreja_id = ?] *)
Definition alvo (pessoa_id igreja : valor) (p : linha) : bool :=
  sql_eq (coluna p "id") pessoa_id && sql_eq (coluna p "igreja_id") igreja.

(** [WHERE p.igreja_id = ? AND (p.ativo IS NULL OR p.ativo = 1)] *)
Definition ativa_na_igreja (igreja : valor) (p : linha) : bool :=
  sql_eq (coluna p "igreja_id") igreja
  && (if decide (coluna p "ativo" = VNull) then true
      else sql_eq (coluna p "ativo") (VInt 1)).

(** [LEFT JOIN familias f ON p.familia_id = f.id], column [f.nome]. *)
Definition familia_nome (bd : BD) (p : linha) : valor :=
  match List.find (fun f => sql_eq (coluna p "familia_id") (VInt (fam_id f)))
                  (familias bd) with
  | Some f => VText (fam_nome f)
  | None => VNull
  end.

(** The rows the two tag joins give for one person: one per tag link, with
    the tag when it exists, or a single row of NULLs. *)
Definition juncao_tags (bd : BD) (p : linha) : list (option pessoa_tag * option tag) :=
  let pts := List.filter (fun pt => sql_eq (coluna p "id") (VInt (pt_pessoa_id pt)))
                         (pessoa_tags bd) in
  match pts with
  | [] => [(None, None)]
  | _ => map (fun pt =>
                (Some pt,
                 List.find (fun t => pt_tag_id pt =? tag_id t) (tags bd))) pts
  end.

(** [GROUP_CONCAT(DISTINCT t.nome)] over the rows of a group. *)
Definition group_concat_tags (g : list (option pessoa_tag * option tag)) : valor :=
  let nomes := distintos (omap (fun '(_, t) => tag_nome <$> t) g) in
  match nomes with
  | [] => VNull
  | n :: r => VText (fold_left (fun acc x => acc ++ "," ++ x) r n)
  end.

Definition filtro (filtros : option (gmap string valor)) (k : string) : valor :=
  match filtros with
  | Some f => coluna f k
  | None => VNull
  end.

(** The conditions added for the filters that are set, on a joined row. *)
Definition passa_filtros (filtros : option (gmap string valor))
    (p : linha) (pt : option pessoa_tag) : bool :=
  (if verdadeiro (filtro filtros "status")
   then sql_eq (coluna p "status") (filtro filtros "status") else true)
  && (if verdadeiro (filtro filtros "busca")
      then let busca := "%" ++ texto_de (filtro filtros "busca") ++ "%" in
           sql_like (coluna p "nome") busca || sql_like (coluna p "email") busca
           || sql_like (coluna p "celular") busca
      else true)
  && (if verdadeiro (filtro filtros "tag_id")
      then match pt with
           | Some l => sql_eq (VInt (pt_tag_id l)) (filtro filtros "tag_id")
           | None => false
           end
      else true).

(** One result row per person that has a joined row left ([GROUP BY p.id];
    [id] is the primary key), ordered by name. *)
Definition get_pessoas (s : sessao) (filtros : option (gmap string valor))
    (bd : BD) : list linha :=
  let grupo p :=
    List.filter (fun '(pt, _) => passa_filtros filtros p pt) (juncao_tags bd p) in
  let selecionadas :=
    List.filter (fun p => ativa_na_igreja (igreja_id s) p
                          && negb (Nat.eqb (length (grupo p)) 0))
                (pessoas bd) in
  map (fun p => <["tags" := group_concat_tags (grupo p)]>
                  (<["familia_nome" := familia_nome bd p]> p))
      (ordenar (fun a b => valor_leb (coluna a "nome") (coluna b "nome"))
               selecionadas).

Definition get_pessoa (s : sessao) (pessoa_id : Z) (bd : BD) : option linha :=
  match List.find (alvo (VInt pessoa_id) (igreja_id s)) (pessoas bd) with
  | Some p => Some (<["familia_nome" := familia_nome bd p]> p)
  | None => None
  end.

(** [UPDATE pessoas SET c1 = ?, ..., cn = ? WHERE id = ? AND igreja_id = ?]
    on one row: when a column is named twice the rightmost value stays. *)
Definition atribuir (atrib : list (string * valor)) (p : linha) : linha :=
  fold_left (fun r '(c, v) => <[c := v]> r) atrib p.

(** What the table's constraints refuse in a row about to be written, among
    the columns the statement writes: no name, no church, or a key that is
    not an integer (keys are passed as integers or [None]). *)
Definition linha_recusada (escritas : list string) (p : linha) : bool :=
  existsb (fun c =>
             ((String.eqb c "nome" || String.eqb c "igreja_id")
              && bool_decide (coluna p c = VNull))
             || (String.eqb c "id"
                 && match coluna p "id" with VInt _ => false | _ => true end))
          escritas.

Fixpoint ids_repetidos (ids : list Z) : bool :=
  match ids with
  | [] => false
  | x :: r => existsb (Z.eqb x) r || ids_repetidos r
  end.

Definition atualizar_linhas (pessoa_id igreja : valor)
    (atrib : list (string * valor)) (ps : list linha) : list linha :=
  map (fun p => if alvo pessoa_id igreja p then atribuir atrib p else p) ps.

(** The UPDATE is refused when a row it writes would break a constraint,
    or when it writes the key and two rows would end with the same one. *)
Definition update_recusado (pessoa_id igreja : valor)
    (atrib : list (string * valor)) (ps : list linha) : bool :=
  existsb (fun p => alvo pessoa_id igreja p
                    && linha_recusada (map fst atrib) (atribuir atrib p)) ps
  || (existsb (alvo pessoa_id igreja) ps
      && existsb (fun '(k, _) => String.eqb k "id") atrib
      && ids_repetidos
           (map id_da_linha (atualizar_linhas pessoa_id igreja atrib ps))).

(** The UPDATE of [salvar_pessoa] as a statement: it raises and writes
    nothing when it is refused. *)
Definition update_pessoa (pessoa_id igreja : valor)
    (atrib : list (string * valor)) : Tx unit :=
  escrever (fun v =>
    if update_recusado pessoa_id igreja atrib (pessoas v)
    then Erro IntegrityError
    else Ok (tt, com_pessoas (atualizar_linhas pessoa_id igreja atrib) v)).

(** [dados[k] = v] *)
Fixpoint dict_set {A} (d : list (string * A)) (k : string) (v : A)
    : list (string * A) :=
  match d with
  | [] => [(k, v)]
  | (k', v') :: r =>
      if String.eqb k' k then (k', v) :: r else (k', v') :: dict_set r k v
  end.

(** The row an INSERT builds: the table's defaults, then the values given,
    the first one when a column is named twice. *)
Definition PADROES : linha :=
  {[ "status" := VText "visitante"; "ativo" := VInt 1;
     "batizado" := VInt 0; "aceita_whatsapp" := VInt 1 ]}.

(** The id and the row of an INSERT: the id given, or the next one of the
    table when none is. *)
Definition linha_nova (cols : list (string * valor)) (bd : BD) : Z * linha :=
  let dada := fold_right (fun '(k, x) r => <[k := x]> r) PADROES cols in
  match coluna dada "id" with
  | VNull =>
      let n := proximo_id (map id_da_linha (pessoas bd))
                          (seq_pessoas (sqlite_sequence bd)) in
      (n, <["id" := VInt n]> dada)
  | _ => (id_da_linha dada, dada)
  end.

Definition inserir_pessoa (n : Z) (nova : linha) (bd : BD) : BD :=
  let sq := sqlite_sequence bd in
  MkBD (pessoas bd ++ [nova]) (familias bd) (tags bd) (pessoa_tags bd)
       (visitas bd) (followup bd) (fluxos_followup bd) (aconselhamentos bd)
       (logs_acesso bd)
       (Sequencias (Z.max (seq_pessoas sq) n) (seq_visitas sq)
                   (seq_followup sq) (seq_aconselhamentos sq)
                   (seq_logs_acesso sq)).

(** The INSERT of [salvar_pessoa]; it returns [cursor.lastrowid]. *)
Definition insert_pessoa (cols : list (string * valor)) : Tx Z :=
  escrever (fun v =>
    let '(n, nova) := linha_nova cols v in
    if linha_recusada COLUNAS nova
       || existsb (Z.eqb n) (map id_da_linha (pessoas v))
    then Erro IntegrityError
    else Ok (n, inserir_pessoa n nova v)).

Definition salvar_pessoa (s : sessao) (r : relogio)
    (dados : list (string * valor)) : M BD valor :=
  get_connection
    (if verdadeiro (default VNull (dict_get dados "id")) then
       let pessoa_id := default VNull (dict_get dados "id") in
       let campos := List.filter (fun '(k, _) => negb (String.eqb k "id")) dados in
       seja atrib <- avaliar (match campos with
                              | [] => Erro OperationalError
                              | _ => resolver_colunas campos
                              end);
       faca update_pessoa pessoa_id (igreja_id s)
              (atrib ++ [("data_atualizacao", VText (agora r))]);
       seja uid <- avaliar (usuario_item s "id");
       faca chamar (registrar_log uid (igreja_id s) "pessoa.atualizar"
                      ("Pessoa ID " ++ texto_de pessoa_id ++ " atualizada"));
       ret pessoa_id
     else
       let dados := dict_set (dict_set dados "igreja_id" (igreja_id s))
                             "data_cadastro" (VText (agora r)) in
       seja cols <- avaliar (resolver_colunas dados);
       seja pessoa_id <- insert_pessoa cols;
       seja uid <- avaliar (usuario_item s "id");
       faca chamar (registrar_log uid (igreja_id s) "pessoa.criar"
                      ("Pessoa ID " ++ pretty pessoa_id ++ " criada"));
       ret (VInt pessoa_id)).

(** The soft delete: [UPDATE pessoas SET ativo = 0, data_atualizacao = ?
    WHERE id = ? AND igreja_id = ?]. *)
Definition marcar_inativa (r : relogio) (p : linha) : linha :=
  <["data_atualizacao" := VText (agora r)]> (<["ativo" := VInt 0]> p).

Definition excluir_linha (s : sessao) (r : relogio) (pessoa_id : Z) (p : linha)
    : linha :=
  if alvo (VInt pessoa_id) (igreja_id s) p then marcar_inativa r p else p.

Definition excluir_pessoa (s : sessao) (r : relogio) (pessoa_id : Z)
    : M BD bool :=
  tentar
    (get_connection
       (seja existe <- consultar (fun bd =>
            existsb (alvo (VInt pessoa_id) (igreja_id s)) (pessoas bd));
        if negb existe then ret false
        else
          faca executar (com_pessoas (map (excluir_linha s r pessoa_id)));
          seja uid <- avaliar (usuario_item s "id");
          faca chamar (registrar_log uid (igreja_id s) "pessoa.excluir"
                         ("Pessoa ID " ++ pretty pessoa_id ++ " excluída"));
          ret true))
    (fun _ => ret false).

End Pessoas.

(** ** modules/visitantes.py *)

Module Visitantes.

Definition inserir_visita (pessoa_id : Z) (evento_id : valor) (data : Z)
    (tipo_culto como_conheceu responsavel : valor) (bd : BD) : BD :=
  let sq := sqlite_sequence bd in
  let n := proximo_id (map vi_id (visitas bd)) (seq_visitas sq) in
  MkBD (pessoas bd) (familias bd) (tags bd) (pessoa_tags bd)
       (visitas bd ++ [Visita n pessoa_id evento_id data tipo_culto
                              como_conheceu responsavel])
       (followup bd) (fluxos_followup bd) (aconselhamentos bd) (logs_acesso bd)
       (Sequencias (seq_pessoas sq) n (seq_followup sq)
                   (seq_aconselhamentos sq) (seq_logs_acesso sq)).

(** [INSERT INTO followup (pessoa_id, tipo, data_prevista, observacoes)]:
    the other columns take their defaults, [status] the text 'pendente'. *)
Definition inserir_followup (pessoa_id : Z) (tipo : string) (data_prevista : Z)
    (observacoes : valor) (bd : BD) : BD :=
  let sq := sqlite_sequence bd in
  let n := proximo_id (map fu_id (followup bd)) (seq_followup sq) in
  MkBD (pessoas bd) (familias bd) (tags bd) (pessoa_tags bd) (visitas bd)
       (followup bd ++ [Followup n pessoa_id tipo "pendente" (Some data_prevista)
                                 VNull VNull observacoes VNull])
       (fluxos_followup bd) (aconselhamentos bd) (logs_acesso bd)
       (Sequencias (seq_pessoas sq) (seq_visitas sq) n
                   (seq_aconselhamentos sq) (seq_logs_acesso sq)).

(** [WHERE igreja_id = ? AND ativo = 1 AND trigger_evento = 'primeira_visita'] *)
Definition fluxo_ativo (igreja : valor) (fl : fluxo) : bool :=
  sql_eq (VInt (fl_igreja_id fl)) igreja
  && sql_eq (fl_ativo fl) (VInt 1)
  && sql_eq (fl_trigger_evento fl) (VText "primeira_visita").

(** [for x in xs: corpo x] *)
Fixpoint para_cada {S A} (xs : list A) (corpo : A -> M S unit) : M S unit :=
  match xs with
  | [] => ret tt
  | x :: r => faca corpo x; para_cada r corpo
  end.

(** The body of the loop over the flows. *)
Definition agendar_followup (r : relogio) (pessoa_id : Z) (fl : fluxo)
    : Tx unit :=
  seja dias <- avaliar (timedelta_days (fl_dias_apos_trigger fl));
  seja data_prevista <- avaliar (date_add (hoje r) dias);
  executar (inserir_followup pessoa_id (fl_nome fl) data_prevista
                             (fl_template_mensagem fl)).

Definition criar_followups_automaticos (s : sessao) (r : relogio)
    (pessoa_id : Z) : M BD unit :=
  get_connection
    (seja fluxos <- consultar (fun bd =>
         List.filter (fluxo_ativo (igreja_id s)) (fluxos_followup bd));
     para_cada fluxos (agendar_followup r pessoa_id)).

Definition registrar_visita (s : sessao) (r : relogio) (pessoa_id : Z)
    (evento_id tipo_culto como_conheceu : valor) : M BD unit :=
  get_connection
    (seja responsavel <- avaliar (usuario_get s "pessoa_id");
     faca executar (inserir_visita pessoa_id evento_id (hoje r) tipo_culto
                                   como_conheceu responsavel);
     faca chamar (criar_followups_automaticos s r pessoa_id);
     seja uid <- avaliar (usuario_item s "id");
     faca chamar (registrar_log uid (igreja_id s) "visita.registrar"
                    ("Visita registrada para pessoa " ++ pretty pessoa_id));
     ret tt).

(** A row of [get_followups_pendentes]: the follow-up and the joined columns. *)
Record pendente : Type := Pendente {
  pe_followup : linha_followup;
  pe_pessoa_nome : valor;
  pe_celular : valor;
  pe_email : valor;
  pe_responsavel_nome : valor }.

Definition data_leb (a b : option Z) : bool :=
  match a, b with
  | None, _ => true
  | Some _, None => false
  | Some x, Some y => x <=? y
  end.

Definition get_followups_pendentes (s : sessao) (bd : BD) : list pendente :=
  let juntar (f : linha_followup) : list pendente :=
    flat_map (fun p =>
      if sql_eq (VInt (fu_pessoa_id f)) (coluna p "id")
         && sql_eq (coluna p "igreja_id") (igreja_id s)
         && String.eqb (fu_status f) "pendente"
      then
        match List.filter (fun q => sql_eq (fu_responsavel_id f) (coluna q "id"))
                          (pessoas bd) with
        | [] => [Pendente f (coluna p "nome") (coluna p "celular")
                          (coluna p "email") VNull]
        | qs => map (fun q => Pendente f (coluna p "nome") (coluna p "celular")
                                       (coluna p "email") (coluna q "nome")) qs
        end
      else []) (pessoas bd) in
  ordenar (fun a b => data_leb (fu_data_prevista (pe_followup a))
                               (fu_data_prevista (pe_followup b)))
          (flat_map juntar (followup bd)).

(** [UPDATE followup SET status = ?, resultado = ?, data_realizada = ?,
    responsavel_id = ? WHERE id = ?] *)
Definition marcar_followup (followup_id : Z) (status : string)
    (resultado data_realizada responsavel : valor) (f : linha_followup)
    : linha_followup :=
  if fu_id f =? followup_id
  then Followup (fu_id f) (fu_pessoa_id f) (fu_tipo f) status
                (fu_data_prevista f) data_realizada responsavel
                (fu_observacoes f) resultado
  else f.

Definition atualizar_followup (s : sessao) (r : relogio) (followup_id : Z)
    (status : string) (resultado : valor) : M BD unit :=
  get_connection
    (seja responsavel <- avaliar (usuario_get s "pessoa_id");
     faca executar (com_followup (map (marcar_followup followup_id status
                      resultado (VText (agora r)) responsavel)));
     seja uid <- avaliar (usuario_item s "id");
     faca chamar (registrar_log uid (igreja_id s) "followup.atualizar"
                    ("Follow-up " ++ pretty followup_id ++ " atualizado para "
                     ++ status));
     ret tt).

(** *** The follow-up screen

    [render_followups] lists the pending follow-ups as cards, each with the
    buttons Realizado, Remarcar and Cancelar.  A run of the script sees at
    most one button pressed, named by its widget key; [st.rerun()] ends the
    run. *)

Inductive botao : Type := BotaoRealizado | BotaoRemarcar | BotaoCancelar.

Definition pressionado (clique : option (botao * Z)) (b : botao) (id : Z) : bool :=
  match clique with
  | Some (b', id') =>
      (id' =? id) && match b, b' with
                     | BotaoRealizado, BotaoRealizado
                     | BotaoRemarcar, BotaoRemarcar
                     | BotaoCancelar, BotaoCancelar => true
                     | _, _ => false
                     end
  | None => false
  end.

(** The card returns [true] when it called [st.rerun()]. *)
Definition render_followup_card (s : sessao) (r : relogio)
    (clique : option (botao * Z)) (f : pendente) : M BD bool :=
  let id := fu_id (pe_followup f) in
  if pressionado clique BotaoRealizado id then
    faca atualizar_followup s r id "realizado" VNull; ret true
  else if pressionado clique BotaoRemarcar id then ret false
  else if pressionado clique BotaoCancelar id then
    faca atualizar_followup s r id "cancelado" VNull; ret true
  else ret false.

Fixpoint render_cards (s : sessao) (r : relogio) (clique : option (botao * Z))
    (fs : list pendente) : M BD unit :=
  match fs with
  | [] => ret tt
  | f :: resto =>
      seja rerun <- render_followup_card s r clique f;
      if rerun then ret tt else render_cards s r clique resto
  end.

Definition render_followups (s : sessao) (r : relogio)
    (clique : option (botao * Z)) : M BD unit :=
  seja followups <- ler (get_followups_pendentes s);
  let com_data (cmp : Z -> Z -> bool) :=
    List.filter (fun f => match fu_data_prevista (pe_followup f) with
                          | Some d => cmp d (hoje r)
                          | None => false
                          end) followups in
  let atrasados := com_data Z.ltb in
  let para_hoje := com_data Z.eqb in
  let proximos := com_data Z.gtb in
  render_cards s r clique (atrasados ++ para_hoje ++ firstn 10 proximos).

End Visitantes.

(** ** modules/financeiro.py *)

Module Financeiro.

(** The arithmetic the summary does on amounts ([valor REAL]). *)
Class Numero (V : Type) : Type := {
  zero : V;
  soma : V -> V -> V;
  subtrai : V -> V -> V;
  vezes : V -> V -> V;
  divide : V -> V -> V;
  de_inteiro : Z -> V;
  positivo : V -> bool }.

Section Resumo.
Context {V : Type} `{Numero V}.

Record doacao : Type := Doacao {
  do_id : Z;
  do_igreja_id : Z;
  do_pessoa_id : valor;
  do_tipo : string;
  do_valor : V;
  do_data : Z;
  do_anonimo : valor }.

(** [{'total': row['total'], 'qtd': row['quantidade']}] *)
Record entrada : Type := Entrada { total : option V; qtd : nat }.

(** The dict returned, without the list of top contributors, which comes
    from a further query joined with [pessoas]. *)
Record resumo : Type := Resumo {
  total_geral : V;
  quantidade : nat;
  por_tipo : list (string * entrada);
  variacao : V;
  data_inicio : Z }.

(** The sum of a list of amounts, from zero. *)
Definition somatorio (l : list V) : V := fold_right soma zero l.

(** [SUM(valor)]: NULL over no rows. *)
Definition sql_sum (vs : list V) : option V :=
  match vs with
  | [] => None
  | x :: r => Some (fold_left soma r x)
  end.

Definition inicio_do_periodo (hoje : Z) (periodo : string) : resultado Z :=
  if String.eqb periodo "mes" then Ok (Datas.primeiro_do_mes hoje)
  else if String.eqb periodo "ano" then Ok (Datas.primeiro_do_ano hoje)
  else if String.eqb periodo "semana"
       then date_add hoje (- Datas.weekday hoje)
  else date_add hoje (- 30).

(** [WHERE igreja_id = ? AND data >= ?] *)
Definition no_periodo (igreja : valor) (inicio : Z) (d : doacao) : bool :=
  sql_eq (VInt (do_igreja_id d)) igreja && (inicio <=? do_data d).

(** [GROUP BY tipo]: one row per type among the rows selected, with the sum
    and the count of the rows of that type.  The query has no ORDER BY and
    the dict built from it is read by key; the entries are listed here by
    first appearance of their type. *)
Definition totais_por_tipo (sel : list doacao) : list (string * entrada) :=
  map (fun t =>
         let g := List.filter (fun d => String.eqb (do_tipo d) t) sel in
         (t, Entrada (sql_sum (map do_valor g)) (length g)))
      (distintos (map do_tipo sel)).

Definition get_resumo_financeiro (s : sessao) (r : relogio)
    (periodo : string) (doacoes : list doacao) : resultado resumo :=
  match inicio_do_periodo (hoje r) periodo with
  | Erro e => Erro e
  | Ok data_inicio =>
      let sel := List.filter (no_periodo (igreja_id s) data_inicio) doacoes in
      let por_tipo := totais_por_tipo sel in
      let total_geral := default zero (sql_sum (map do_valor sel)) in
      let qtd_geral := length sel in
      let dias_periodo := hoje r - data_inicio + 1 in
      match date_add data_inicio (- dias_periodo) with
      | Erro e => Erro e
      | Ok data_anterior =>
          let total_anterior :=
            default zero
              (sql_sum (map do_valor
                 (List.filter (fun d => no_periodo (igreja_id s) data_anterior d
                                        && (do_data d <? data_inicio))
                              doacoes))) in
          let variacao :=
            if positivo total_anterior
            then vezes (divide (subtrai total_geral total_anterior)
                               total_anterior) (de_inteiro 100)
            else zero in
          Ok (Resumo total_geral qtd_geral por_tipo variacao data_inicio)
      end
  end.
End Resumo.

Arguments doacao V : clear implicits.
Arguments entrada V : clear implicits.
Arguments resumo V : clear implicits.

(** Amounts in whole cents. *)
#[global] Instance numero_Z : Numero Z := {|
  zero := 0; soma := Z.add; subtrai := Z.sub; vezes := Z.mul;
  divide := Z.div; de_inteiro := fun n => n; positivo := fun v => 0 <? v |}.

End Financeiro.

(** ** Encryption of sensitive data (database/db.py) *)

Module Cripto.

(** What the code takes from [hashlib], [base64] and [cryptography.fernet].
    Encrypting draws a fresh initialisation vector and reads the clock; both
    are the argument [sorte]. *)
Class Biblioteca : Type := {
  sha256 : string -> string;
  urlsafe_b64encode : string -> string;
  fernet_encrypt : string -> string -> string -> string;
  fernet_decrypt : string -> string -> option string }.

Section ComBiblioteca.
Context `{Biblioteca} (SECRET_KEY : string).

Definition get_encryption_key : string :=
  urlsafe_b64encode (sha256 SECRET_KEY).

Definition encrypt_data (sorte : string) (data : string) : string :=
  if String.eqb data "" then data
  else fernet_encrypt get_encryption_key sorte data.

(** Whatever goes wrong while decrypting, the text is returned as it is. *)
Definition decrypt_data (data : string) : string :=
  if String.eqb data "" then data
  else match fernet_decrypt get_encryption_key data with
       | Some claro => claro
       | None => data
       end.
End ComBiblioteca.

End Cripto.

(** ** modules/aconselhamento.py *)

Module Aconselhamento.
Import Cripto.

Section ComBiblioteca.
Context `{Biblioteca} (SECRET_KEY : string).

(** [encrypt_data(dados.get(k, '')) if dados.get(k) else None] *)
Definition cifrar_campo (sorte : string) (v : valor) : resultado valor :=
  if verdadeiro v then
    match v with
    | VText t => Ok (VText (encrypt_data SECRET_KEY sorte t))
    | _ => Erro AttributeError
    end
  else Ok VNull.

(** A stored value that is empty or the output of [encrypt_data] on a text
    that is not empty. *)
Definition cifrado_ou_nulo (v : valor) : Prop :=
  v = VNull
  \/ exists sorte x, x <> "" /\ v = VText (encrypt_data SECRET_KEY sorte x).

(** [dados[k]] *)
Definition item (dados : gmap string valor) (k : string) : resultado valor :=
  match dados !! k with Some v => Ok v | None => Erro KeyError end.

(** The columns declared NOT NULL. *)
Definition aconselhamento_recusado (a : aconselhamento) : bool :=
  bool_decide (ac_igreja_id a = VNull)
  || bool_decide (ac_pessoa_id a = VNull)
  || bool_decide (ac_conselheiro_id a = VNull)
  || bool_decide (ac_data_atendimento a = VNull).

Definition inserir_aconselhamento (a : aconselhamento) (bd : BD) : BD :=
  let sq := sqlite_sequence bd in
  MkBD (pessoas bd) (familias bd) (tags bd) (pessoa_tags bd) (visitas bd)
       (followup bd) (fluxos_followup bd) (aconselhamentos bd ++ [a])
       (logs_acesso bd)
       (Sequencias (seq_pessoas sq) (seq_visitas sq) (seq_followup sq)
                   (ac_id a) (seq_logs_acesso sq)).

(** The INSERT; it returns [cursor.lastrowid]. *)
Definition insert_aconselhamento (a : Z -> aconselhamento) : Tx Z :=
  escrever (fun v =>
    let n := proximo_id (map ac_id (aconselhamentos v))
                        (seq_aconselhamentos (sqlite_sequence v)) in
    if aconselhamento_recusado (a n) then Erro IntegrityError
    else Ok (n, inserir_aconselhamento (a n) v)).

Definition registrar_aconselhamento (s : sessao) (sorte_resumo sorte_notas : string)
    (dados : gmap string valor) : M BD Z :=
  seja resumo_cripto <- avaliar (cifrar_campo sorte_resumo (coluna dados "resumo"));
  seja notas_cripto <- avaliar (cifrar_campo sorte_notas (coluna dados "notas"));
  get_connection
    (seja pessoa_id <- avaliar (item dados "pessoa_id");
     seja conselheiro_id <- avaliar (item dados "conselheiro_id");
     seja data_atendimento <- avaliar (item dados "data_atendimento");
     seja aconselhamento_id <- insert_aconselhamento (fun n =>
         Aconselhamento n (igreja_id s) pessoa_id conselheiro_id
           data_atendimento (coluna dados "tipo") resumo_cripto notas_cripto
           (default (VText "em_andamento") (dados !! "status"))
           (coluna dados "proximo_encontro"));
     seja uid <- avaliar (usuario_item s "id");
     faca chamar (registrar_log uid (igreja_id s) "aconselhamento.criar"
                    ("Aconselhamento " ++ pretty aconselhamento_id
                     ++ " criado para pessoa " ++ texto_de pessoa_id));
     ret aconselhamento_id).

Definition atualizar_aconselhamento (s : sessao)
    (sorte_resumo sorte_notas : string) (aconselhamento_id : Z)
    (dados : gmap string valor) : M BD unit :=
  seja resumo_cripto <- avaliar (cifrar_campo sorte_resumo (coluna dados "resumo"));
  seja notas_cripto <- avaliar (cifrar_campo sorte_notas (coluna dados "notas"));
  get_connection
    (faca executar (fun bd =>
       MkBD (pessoas bd) (familias bd) (tags bd) (pessoa_tags bd) (visitas bd)
            (followup bd) (fluxos_followup bd)
            (map (fun a =>
                    if (ac_id a =? aconselhamento_id)
                       && sql_eq (ac_igreja_id a) (igreja_id s)
                    then Aconselhamento (ac_id a) (ac_igreja_id a)
                           (ac_pessoa_id a) (ac_conselheiro_id a)
                           (ac_data_atendimento a) (coluna dados "tipo")
                           resumo_cripto notas_cripto (coluna dados "status")
                           (coluna dados "proximo_encontro")
                    else a) (aconselhamentos bd))
            (logs_acesso bd) (sqlite_sequence bd));
     seja uid <- avaliar (usuario_item s "id");
     faca chamar (registrar_log uid (igreja_id s) "aconselhamento.atualizar"
                    ("Aconselhamento " ++ pretty aconselhamento_id
                     ++ " atualizado"));
     ret tt).

(** The dict [get_aconselhamento_detalhes] returns: the record, the two
    joined names, and the keys ['resumo'] and ['notas'] when the stored
    columns are not empty. *)
Record detalhes : Type := Detalhes {
  de_registro : aconselhamento;
  de_pessoa_nome : valor;
  de_conselheiro_nome : valor;
  de_resumo : option valor;
  de_notas : option valor }.

(** [decrypt_data] on a stored value; a value that is not text makes the
    call fail inside its [try] and comes back as it is. *)
Definition decifrar_campo (v : valor) : option valor :=
  if verdadeiro v then
    Some (match v with
          | VText t => VText (decrypt_data SECRET_KEY t)
          | _ => v
          end)
  else None.

(** The first row of the join of the record with its person and its
    counsellor. *)
Definition buscar_registro (s : sessao) (aconselhamento_id : Z) (bd : BD)
    : option (aconselhamento * linha * linha) :=
  head (flat_map (fun a =>
          if (ac_id a =? aconselhamento_id)
             && sql_eq (ac_igreja_id a) (igreja_id s)
          then flat_map (fun p =>
                 if sql_eq (ac_pessoa_id a) (coluna p "id")
                 then omap (fun c =>
                        if sql_eq (ac_conselheiro_id a) (coluna c "id")
                        then Some (a, p, c) else None) (pessoas bd)
                 else []) (pessoas bd)
          else []) (aconselhamentos bd)).

Definition get_aconselhamento_detalhes (s : sessao) (aconselhamento_id : Z)
    : M BD (option detalhes) :=
  get_connection
    (seja row <- consultar (buscar_registro s aconselhamento_id);
     match row with
     | None => ret None
     | Some (a, p, c) =>
         seja perfil <- avaliar (usuario_item s "perfil");
         seja pessoa_do_usuario <- avaliar (usuario_get s "pessoa_id");
         if bool_decide (perfil = VText "LIDER")
            && negb (bool_decide (ac_conselheiro_id a = pessoa_do_usuario))
         then ret None
         else
           seja uid <- avaliar (usuario_item s "id");
           faca chamar (registrar_log uid (igreja_id s)
                          "aconselhamento.visualizar"
                          ("Acesso ao aconselhamento "
                           ++ pretty aconselhamento_id));
           ret (Some (Detalhes a (coluna p "nome") (coluna c "nome")
                        (decifrar_campo (ac_resumo_criptografado a))
                        (decifrar_campo (ac_notas_criptografadas a))))
     end).
End ComBiblioteca.

End Aconselhamento.

(** ** The functions of modules [pessoas] and [visitantes] that write to
       the tables [pessoas], [visitas] and [followup], and the follow-up
       screen *)

Inductive operacao : Type :=
  | OpSalvarPessoa (dados : list (string * valor))
  | OpExcluirPessoa (pessoa_id : Z)
  | OpRegistrarVisita (pessoa_id : Z) (evento_id tipo_culto como_conheceu : valor)
  | OpCriarFollowups (pessoa_id : Z)
  | OpAtualizarFollowup (followup_id : Z) (status : string) (resultado : valor)
  | OpRenderFollowups (clique : option (Visitantes.botao * Z)).

(** The store an operation leaves, whether it returns or raises, when it is
    called with no write pending. *)
Definition efeito (s : sessao) (r : relogio) (op : operacao) (bd : BD) : BD :=
  match op with
  | OpSalvarPessoa dados => snd (Pessoas.salvar_pessoa s r dados livre bd)
  | OpExcluirPessoa pessoa_id =>
      snd (Pessoas.excluir_pessoa s r pessoa_id livre bd)
  | OpRegistrarVisita pessoa_id e t c =>
      snd (Visitantes.registrar_visita s r pessoa_id e t c livre bd)
  | OpCriarFollowups pessoa_id =>
      snd (Visitantes.criar_followups_automaticos s r pessoa_id livre bd)
  | OpAtualizarFollowup id st res =>
      snd (Visitantes.atualizar_followup s r id st res livre bd)
  | OpRenderFollowups clique =>
      snd (Visitantes.render_followups s r clique livre bd)
  end.

(** The place of a stage in the funnel, [None] for a text that is no stage. *)
Fixpoint indice (x : string) (l : list string) : option nat :=
  match l with
  | [] => None
  | y :: r => if String.eqb x y then Some O else S <$> indice x r
  end.

Definition etapa (v : valor) : option nat :=
  match v with
  | VText s => indice s Settings.STATUS_PESSOA
  | _ => None
  end.

(** ** The loop of [criar_followups_automaticos] and the assignments of an
       UPDATE, as functions *)

(** The due date the loop computes for a flow. *)
Definition data_do_fluxo (r : relogio) (fl : fluxo) : resultado Z :=
  match timedelta_days (fl_dias_apos_trigger fl) with
  | Ok dias => date_add (hoje r) dias
  | Erro e => Erro e
  end.

(** The store after the loop has gone through the flows, or the exception
    that stopped it. *)
Fixpoint inserir_todos (r : relogio) (pessoa_id : Z) (fls : list fluxo)
    (bd : BD) : resultado BD :=
  match fls with
  | [] => Ok bd
  | fl :: resto =>
      match data_do_fluxo r fl with
      | Ok d =>
          inserir_todos r pessoa_id resto
            (Visitantes.inserir_followup pessoa_id (fl_nome fl) d
               (fl_template_mensagem fl) bd)
      | Erro e => Erro e
      end
  end.

(** What a follow-up row created for a flow holds. *)
Definition criado_para (r : relogio) (pessoa_id : Z) (fl : fluxo)
    (fu : linha_followup) : Prop :=
  fu_pessoa_id fu = pessoa_id
  /\ fu_tipo fu = fl_nome fl
  /\ fu_observacoes fu = fl_template_mensagem fl
  /\ fu_status fu = "pendente"
  /\ exists dias, fl_dias_apos_trigger fl = VInt dias
                  /\ fu_data_prevista fu = Some (hoje r + dias).

(** The value a list of assignments leaves in a column: that of the
    rightmost assignment to it. *)
Fixpoint ultima (c : string) (atrib : list (string * valor)) : option valor :=
  match atrib with
  | [] => None
  | (k, v) :: r =>
      match ultima c r with
      | Some w => Some w
      | None => if String.eqb k c then Some v else None
      end
  end.

(** The status an update through [salvar_pessoa] asks for: the rightmost
    value its argument gives for the column [status], if any. *)
Definition status_pedido (dados : list (string * valor)) : option valor :=
  match Pessoas.resolver_colunas
          (List.filter (fun '(k, _) => negb (String.eqb k "id")) dados) with
  | Ok atrib => ultima "status" atrib
  | Erro _ => None
  end.

(** A follow-up table that only gained rows, all of them pending. *)
Definition pendentes_novos (l l' : list linha_followup) : Prop :=
  exists novos, l' = (l ++ novos)%list
                /\ List.Forall (fun f => fu_status f = "pendente") novos.

(** ** A small database to run the functions on *)

Module Exemplo.

Definition admin : linha :=
  {[ "id" := VInt 1; "perfil" := VText "ADMIN"; "igreja_id" := VInt 1;
     "pessoa_id" := VInt 10 ]}.

Definition lider : linha :=
  {[ "id" := VInt 2; "perfil" := VText "LIDER"; "igreja_id" := VInt 1 ]}.

Definition financeiro : linha :=
  {[ "id" := VInt 3; "perfil" := VText "FINANCEIRO"; "igreja_id" := VInt 1 ]}.

Definition sessao_admin : sessao := Sessao (Some admin) (VInt 1).

(** Wednesday 4 November 2026. *)
Definition relogio0 : relogio := Relogio 739924 "2026-11-04 10:00:00".

Definition maria : linha :=
  {[ "id" := VInt 10; "igreja_id" := VInt 1; "nome" := VText "Maria";
     "status" := VText "membro"; "ativo" := VInt 1 ]}.

Definition joao : linha :=
  {[ "id" := VInt 11; "igreja_id" := VInt 1; "nome" := VText "Joao";
     "status" := VText "visitante"; "ativo" := VInt 1 ]}.

(** The three flows the demonstration church is created with. *)
Definition fluxos_demo : list fluxo :=
  [ Fluxo 1 1 "Boas-vindas 24h" (VText "primeira_visita") (VInt 1)
      (VText "mensagem")
      (VText "Olá {nome}! Foi uma alegria ter você conosco ontem!") (VInt 1);
    Fluxo 2 1 "Convite Célula 7 dias" (VText "primeira_visita") (VInt 7)
      (VText "mensagem")
      (VText "Olá {nome}! Que tal participar de uma de nossas células?")
      (VInt 1);
    Fluxo 3 1 "Follow-up 30 dias" (VText "primeira_visita") (VInt 30)
      (VText "tarefa")
      (VText "Ligar para {nome} e verificar interesse em continuar") (VInt 1) ].

Definition bd0 : BD :=
  MkBD [maria; joao] [] [] [] []
       [ Followup 1 11 "ligacao" "realizado" (Some 739920)
           (VText "2026-11-01 09:00:00") (VInt 10) (VText "Contato com Joao")
           VNull;
         Followup 2 11 "mensagem" "pendente" (Some 739930) VNull VNull
           (VText "Contato com Joao") VNull ]
       fluxos_demo [] [] (Sequencias 11 0 2 0 0).

(** The same database with a flow whose day offset was left empty. *)
Definition bd_fluxo_sem_dias : BD :=
  MkBD [maria; joao] [] [] [] [] []
       [ Fluxo 1 1 "Boas-vindas 24h" (VText "primeira_visita") VNull
           (VText "mensagem") (VText "Olá {nome}!") (VInt 1) ]
       [] [] (Sequencias 11 0 0 0 0).

(** Donations of November 2026 and one of October, in cents; the last one
    belongs to another church. *)
Definition doacoes_demo : list (Financeiro.doacao Z) :=
  [ Financeiro.Doacao 1 1 (VInt 10) "Dízimo" 10000 739922 (VInt 0);
    Financeiro.Doacao 2 1 VNull "Oferta" 2500 739923 (VInt 1);
    Financeiro.Doacao 3 1 (VInt 10) "Dízimo" 5000 739924 (VInt 0);
    Financeiro.Doacao 4 1 (VInt 10) "Dízimo" 7000 739900 (VInt 0);
    Financeiro.Doacao 5 2 VNull "Oferta" 999 739923 (VInt 1) ].

(** A stand-in for the cryptographic library, to run the counselling
    functions on: a token is the message behind a version mark. *)
Definition biblioteca_de_teste : Cripto.Biblioteca := {|
  Cripto.sha256 := fun x => x;
  Cripto.urlsafe_b64encode := fun x => x;
  Cripto.fernet_encrypt := fun _ _ m => String "g" m;
  Cripto.fernet_decrypt := fun _ token =>
    match token with
    | String _ m => Some m
    | EmptyString => None
    end |}.

Definition atendimento_demo : gmap string valor :=
  {[ "pessoa_id" := VInt 11; "conselheiro_id" := VInt 10;
     "data_atendimento" := VText "2026-11-04 10:00:00";
     "tipo" := VText "Pastoral";
     "resumo" := VText "Conversa sobre luto";
     "notas" := VText "Retornar em duas semanas" ]}.

End Exemplo.

(** * Further functions of the application *)

(** ** formatar_data_br (config/settings.py) *)

Module Formato.

(** [s.split(sep)] for a separator of one character. *)
Fixpoint split (sep : ascii) (s : string) : list string :=
  match s with
  | EmptyString => [EmptyString]
  | String c r =>
      if Ascii.eqb c sep then EmptyString :: split sep r
      else match split sep r with
           | p :: ps => String c p :: ps
           | [] => [String c EmptyString]
           end
  end.

(** [c in s] for a character. *)
Fixpoint ocorre (c : ascii) (s : string) : bool :=
  match s with
  | EmptyString => false
  | String d r => Ascii.eqb d c || ocorre c r
  end.

(** The argument is a value of the kinds above: [None], a text (a column
    read from the database, or [str] of a date), or a number, which goes
    through [str].  Nothing inside the [try] can raise on a text. *)
Definition formatar_data_br (data : valor) : string :=
  match data with
  | VNull => ""
  | VText s =>
      if String.eqb s "" then ""
      else if ocorre "-" s then
        match split "-" (hd "" (split " " s)) with
        | [a; m; d] => d ++ "/" ++ m ++ "/" ++ a
        | _ => s
        end
      else s
  | VInt n => pretty n
  end.

End Formato.

(** ** verificar_pessoa_duplicada (modules/pessoas.py) *)

Module Duplicados.
Import Pessoas.

(** SQL [TRIM(x)]: the text without the spaces at its two ends. *)
Fixpoint sem_espacos_a_esquerda (s : string) : string :=
  match s with
  | String c r => if Ascii.eqb c " " then sem_espacos_a_esquerda r else s
  | EmptyString => EmptyString
  end.

Fixpoint sem_espacos_a_direita (s : string) : string :=
  match s with
  | EmptyString => EmptyString
  | String c r =>
      match sem_espacos_a_direita r with
      | EmptyString => if Ascii.eqb c " " then EmptyString
                       else String c EmptyString
      | r' => String c r'
      end
  end.

Definition trim (s : string) : string :=
  sem_espacos_a_direita (sem_espacos_a_esquerda s).

Definition sql_trim (v : valor) : valor :=
  match v with
  | VNull => VNull
  | _ => VText (trim (texto_de v))
  end.

(** SQL [LOWER(x)]: the letters of ASCII in lower case. *)
Definition sql_lower (v : valor) : valor :=
  match v with
  | VNull => VNull
  | _ => VText (minusculas (texto_de v))
  end.

(** SQL [a != b]: never true when a side is NULL. *)
Definition sql_ne (a b : valor) : bool :=
  match a, b with
  | VNull, _ | _, VNull => false
  | _, _ => negb (sql_eq a b)
  end.

(** Whether a text holds nothing but the characters [str.strip()] removes:
    the white space of ASCII (tab to carriage return, the four separators
    U+001C to U+001F, the space) and, in UTF-8, U+0085, U+00A0, U+1680,
    U+2000 to U+200A, U+2028, U+2029, U+202F, U+205F and U+3000. *)
Definition espaco_ascii (c : ascii) : bool :=
  let n := nat_of_ascii c in
  ((9 <=? n)%nat && (n <=? 13)%nat) || ((28 <=? n)%nat && (n <=? 32)%nat).

Definition espaco_de_2 (c d : ascii) : bool :=
  (nat_of_ascii c =? 194)%nat
  && ((nat_of_ascii d =? 133)%nat || (nat_of_ascii d =? 160)%nat).

Definition espaco_de_3 (c d e : ascii) : bool :=
  let '(c, d, e) := (nat_of_ascii c, nat_of_ascii d, nat_of_ascii e) in
  ((c =? 225) && (d =? 154) && (e =? 128))%nat
  || ((c =? 226) && (d =? 128)
      && (((128 <=? e) && (e <=? 138)) || (e =? 168) || (e =? 169)
          || (e =? 175)))%nat
  || ((c =? 226) && (d =? 129) && (e =? 159))%nat
  || ((c =? 227) && (d =? 128) && (e =? 128))%nat.

Fixpoint so_espacos (s : string) : bool :=
  match s with
  | EmptyString => true
  | String c r =>
      if espaco_ascii c then so_espacos r
      else match r with
           | String d r2 =>
               if espaco_de_2 c d then so_espacos r2
               else match r2 with
                    | String e r3 =>
                        if espaco_de_3 c d e then so_espacos r3 else false
                    | EmptyString => false
                    end
           | EmptyString => false
           end
  end.

(** [x and x.strip()] in a condition, for an argument that is a text or
    [None]. *)
Definition preenchido (x : option string) : bool :=
  match x with
  | Some t => negb (so_espacos t)
  | None => false
  end.

(** One of the three queries: an active row of the church that meets the
    criterion, other than the row of [pessoa_id] when one is given
    ([if pessoa_id:]). *)
Definition existe_outra (igreja : valor) (pessoa_id : option Z)
    (criterio : linha -> bool) (bd : BD) : bool :=
  existsb (fun p =>
             ativa_na_igreja igreja p && criterio p
             && match pessoa_id with
                | Some n => if n =? 0 then true
                            else sql_ne (coluna p "id") (VInt n)
                | None => true
                end)
          (pessoas bd).

(** The name is looked for first, then the e-mail and the mobile number when
    they are given and not blank. *)
Definition verificar_pessoa_duplicada (s : sessao) (nome : string)
    (email celular : option string) (pessoa_id : option Z) (bd : BD) : bool :=
  if existe_outra (igreja_id s) pessoa_id
       (fun p => sql_eq (sql_lower (sql_trim (coluna p "nome")))
                        (sql_lower (sql_trim (VText nome)))) bd
  then true
  else if preenchido email
          && existe_outra (igreja_id s) pessoa_id
               (fun p => sql_eq (sql_trim (coluna p "email"))
                                (sql_trim (VText (default "" email)))) bd
  then true
  else if preenchido celular
          && existe_outra (igreja_id s) pessoa_id
               (fun p => sql_eq (sql_trim (coluna p "celular"))
                                (sql_trim (VText (default "" celular)))) bd
  then true
  else false.

End Duplicados.

(** ** The counselling lists (modules/aconselhamento.py) *)

Module Atendimentos.
Import Pessoas.

(** [dict(row)] for the eight columns the list selects. *)
Definition linha_da_lista (a : aconselhamento) (p c : linha) : linha :=
  {[ "id" := VInt (ac_id a);
     "data_atendimento" := ac_data_atendimento a;
     "tipo" := ac_tipo a;
     "status" := ac_status a;
     "proximo_encontro" := ac_proximo_encontro a;
     "pessoa_id" := coluna p "id";
     "pessoa_nome" := coluna p "nome";
     "conselheiro_nome" := coluna c "nome" ]}.

(** The WHERE clause: the church, the counsellor when the user is a LIDER,
    and the filters that are set. *)
Definition condicao (igreja : valor) (do_lider : option valor)
    (filtros : option (gmap string valor)) (a : aconselhamento) : bool :=
  sql_eq (ac_igreja_id a) igreja
  && match do_lider with
     | Some pessoa_id => sql_eq (ac_conselheiro_id a) pessoa_id
     | None => true
     end
  && (if verdadeiro (filtro filtros "pessoa_id")
      then sql_eq (ac_pessoa_id a) (filtro filtros "pessoa_id") else true)
  && (if verdadeiro (filtro filtros "status")
      then sql_eq (ac_status a) (filtro filtros "status") else true)
  && (if verdadeiro (filtro filtros "conselheiro_id")
      then sql_eq (ac_conselheiro_id a) (filtro filtros "conselheiro_id")
      else true).

(** The two joins with [pessoas], for the person and for the counsellor. *)
Definition juncao (bd : BD) (a : aconselhamento) : list linha :=
  flat_map (fun p =>
    if sql_eq (ac_pessoa_id a) (coluna p "id")
    then omap (fun c =>
           if sql_eq (ac_conselheiro_id a) (coluna c "id")
           then Some (linha_da_lista a p c) else None) (pessoas bd)
    else []) (pessoas bd).

(** The rows come latest appointment first. *)
Definition get_aconselhamentos (s : sessao)
    (filtros : option (gmap string valor)) (bd : BD)
    : resultado (list linha) :=
  match usuario_item s "perfil" with
  | Erro e => Erro e
  | Ok perfil =>
      match (if bool_decide (perfil = VText "LIDER")
             then match usuario_get s "pessoa_id" with
                  | Ok v => Ok (Some v)
                  | Erro e => Erro e
                  end
             else Ok None) with
      | Erro e => Erro e
      | Ok do_lider =>
          Ok (ordenar (fun x y => valor_leb (coluna y "data_atendimento")
                                            (coluna x "data_atendimento"))
                (flat_map (fun a =>
                   if condicao (igreja_id s) do_lider filtros a
                   then juncao bd a else [])
                   (aconselhamentos bd)))
      end
  end.

(** [SELECT id, nome FROM pessoas WHERE igreja_id = ? AND ativo = 1
    ORDER BY nome] *)
Definition get_pessoas_para_aconselhamento (s : sessao) (bd : BD)
    : list linha :=
  map (fun p => ({[ "id" := coluna p "id"; "nome" := coluna p "nome" ]} : linha))
      (ordenar (fun a b => valor_leb (coluna a "nome") (coluna b "nome"))
         (List.filter (fun p => sql_eq (coluna p "igreja_id") (igreja_id s)
                                && sql_eq (coluna p "ativo") (VInt 1))
                      (pessoas bd))).

End Atendimentos.

(** ** The WhatsApp links (modules/visitantes.py) *)

Module WhatsApp.

(** The characters of a text in UTF-8: a byte that is not a continuation
    byte, with the continuation bytes that follow it. *)
Fixpoint caracteres (s : string) : list string :=
  match s with
  | EmptyString => []
  | String c r =>
      let cs := caracteres r in
      match r with
      | String d _ =>
          if continuacao d
          then match cs with
               | p :: ps => String c p :: ps
               | [] => [String c EmptyString]
               end
          else String c EmptyString :: cs
      | EmptyString => String c EmptyString :: cs
      end
  end.

(** [''.join(xs)] *)
Definition juntar (xs : list string) : string :=
  fold_right String.append EmptyString xs.

(** [urllib.parse.quote(s)]: the bytes of the UTF-8 text, the letters and
    digits of ASCII and the characters [_.-~/] as they are, any other byte as
    [%XX] with upper-case hexadecimal digits. *)
Definition sempre_seguro (c : ascii) : bool :=
  let n := nat_of_ascii c in
  ((65 <=? n) && (n <=? 90) || (97 <=? n) && (n <=? 122)
   || (48 <=? n) && (n <=? 57)
   || (n =? 95) || (n =? 46) || (n =? 45) || (n =? 126))%nat.

Definition seguro (c : ascii) : bool :=
  sempre_seguro c || Ascii.eqb c "/".

Definition hexa (n : nat) : ascii :=
  match String.get n "0123456789ABCDEF" with
  | Some c => c
  | None => "0"%char
  end.

Fixpoint quote (s : string) : string :=
  match s with
  | EmptyString => EmptyString
  | String c r =>
      if seguro c then String c (quote r)
      else
        let n := nat_of_ascii c in
        String "%" (String (hexa (n / 16)) (String (hexa (n mod 16)) (quote r)))
  end.

(** [old in s] *)
Fixpoint ocorre_texto (old s : string) : bool :=
  String.prefix old s
  || match s with
     | EmptyString => false
     | String _ r => ocorre_texto old r
     end.

(** [s.replace(old, new)] for an [old] that is not empty: the occurrences
    of [old] from left to right, none overlapping another. *)
Fixpoint replace_desde (old new : string) (pular : nat) (s : string) : string :=
  match s with
  | EmptyString => EmptyString
  | String c r =>
      match pular with
      | S k => replace_desde old new k r
      | O =>
          if String.prefix old s
          then new ++ replace_desde old new (String.length old - 1) r
          else String c (replace_desde old new 0 r)
      end
  end.

Definition replace (old new s : string) : string := replace_desde old new 0 s.

Section Unicode.
(** [str.isdigit] on a character outside ASCII, as the Unicode database
    decides it. *)
Variable digito_unicode : string -> bool.

Definition isdigit (ch : string) : bool :=
  match ch with
  | String c EmptyString =>
      let n := nat_of_ascii c in
      if (n <? 128)%nat then (48 <=? n)%nat && (n <=? 57)%nat
      else digito_unicode ch
  | _ => digito_unicode ch
  end.

Definition gerar_link_whatsapp (telefone mensagem : string) : string :=
  let digitos := List.filter isdigit (caracteres telefone) in
  let telefone_limpo := juntar digitos in
  let telefone_limpo :=
    if (length digitos <=? 11)%nat then "55" ++ telefone_limpo
    else telefone_limpo in
  let mensagem_encoded := quote mensagem in
  "https://wa.me/" ++ telefone_limpo ++ "?text=" ++ mensagem_encoded.

Definition enviar_whatsapp (telefone mensagem nome_pessoa : string) : string :=
  let mensagem :=
    if negb (String.eqb nome_pessoa "") && ocorre_texto "{nome}" mensagem
    then replace "{nome}" nome_pessoa mensagem
    else mensagem in
  gerar_link_whatsapp telefone mensagem.
End Unicode.

End WhatsApp.

(** ** get_doacoes (modules/financeiro.py) and anonimizar_pessoa
       (modules/configuracoes.py) *)

(** A connection whose body calls no function that opens another, over any
    store: a statement that writes raises when the write lock is taken, and
    the body's writes are committed when it returns and undone when it
    raises. *)
Definition escrita {S} (w : S -> S) : M S unit :=
  fun ocupado s => if ocupado then (Erro OperationalError, s) else (Ok tt, w s).

Definition em_conexao {S A} (corpo : M S A) : M S A :=
  fun ocupado s =>
    match corpo ocupado s with
    | (Ok a, s') => (Ok a, s')
    | (Erro e, _) => (Erro e, s)
    end.

Module Doacoes.
Import Pessoas Financeiro.

(** The filters of [get_doacoes]: the two dates are [datetime.date] values or
    absent, the type and the person any value. *)
Record filtros_doacoes : Type := FiltrosDoacoes {
  fd_data_inicio : option Z;
  fd_data_fim : option Z;
  fd_tipo : valor;
  fd_pessoa_id : valor }.

Section ComValores.
Context {V : Type}.

Definition passa (igreja : valor) (filtros : option filtros_doacoes)
    (d : doacao V) : bool :=
  sql_eq (VInt (do_igreja_id d)) igreja
  && match filtros with
     | None => true
     | Some f =>
         match fd_data_inicio f with
         | Some ini => ini <=? do_data d
         | None => true
         end
         && match fd_data_fim f with
            | Some fim => do_data d <=? fim
            | None => true
            end
         && (if verdadeiro (fd_tipo f)
             then sql_eq (VText (do_tipo d)) (fd_tipo f) else true)
         && (if verdadeiro (fd_pessoa_id f)
             then sql_eq (do_pessoa_id d) (fd_pessoa_id f) else true)
     end.

(** [LEFT JOIN pessoas p ON d.pessoa_id = p.id], column [p.nome]. *)
Definition com_nome (bd : BD) (d : doacao V) : list (doacao V * valor) :=
  match List.filter (fun p => sql_eq (do_pessoa_id d) (coluna p "id"))
                    (pessoas bd) with
  | [] => [(d, VNull)]
  | ps => map (fun p => (d, coluna p "nome")) ps
  end.

(** The rows are the columns of the donation and [pessoa_nome], latest
    first. *)
Definition get_doacoes (s : sessao) (filtros : option filtros_doacoes)
    (bd : BD) (doacoes : list (doacao V)) : list (doacao V * valor) :=
  ordenar (fun x y => do_data (fst y) <=? do_data (fst x))
          (flat_map (com_nome bd)
                    (List.filter (passa (igreja_id s) filtros) doacoes)).

(** [UPDATE pessoas SET nome = 'Usuário Anonimizado', email = NULL, ...,
    ativo = 0 WHERE id = ? AND igreja_id = ?] *)
Definition ANONIMO : list (string * valor) :=
  [ ("nome", VText "Usuário Anonimizado"); ("email", VNull);
    ("telefone", VNull); ("celular", VNull); ("data_nascimento", VNull);
    ("endereco", VNull); ("numero", VNull); ("complemento", VNull);
    ("bairro", VNull); ("cidade", VNull); ("estado", VNull); ("cep", VNull);
    ("observacoes", VNull); ("ativo", VInt 0) ].

(** [UPDATE doacoes SET pessoa_id = NULL, anonimo = 1 WHERE pessoa_id = ?] *)
Definition anonimizar_doacao (pessoa_id : Z) (d : doacao V) : doacao V :=
  if sql_eq (do_pessoa_id d) (VInt pessoa_id)
  then Doacao (do_id d) (do_igreja_id d) VNull (do_tipo d) (do_valor d)
              (do_data d) (VInt 1)
  else d.

(** The store of this function is the tables of [BD] and the donations. *)
Definition anonimizar_pessoa (s : sessao) (pessoa_id : Z)
    : M (BD * list (doacao V)) bool :=
  if negb (verdadeiro (igreja_id s)) then ret false
  else
    em_conexao
      (faca escrita (fun '(bd, doacoes) =>
              (com_pessoas
                 (atualizar_linhas (VInt pessoa_id) (igreja_id s) ANONIMO) bd,
               doacoes));
       faca escrita (fun '(bd, doacoes) =>
              (bd, map (anonimizar_doacao pessoa_id) doacoes));
       ret true).
End ComValores.

End Doacoes.

(** ** Notions the further properties are stated with *)

(** A run of [n] spaces. *)
Fixpoint espacos (n : nat) : string :=
  match n with
  | O => EmptyString
  | S k => String " " (espacos k)
  end.

(** The store without the content of the counselling records. *)
Definition sem_conteudo (bd : BD) : BD :=
  MkBD (pessoas bd) (familias bd) (tags bd) (pessoa_tags bd) (visitas bd)
       (followup bd) (fluxos_followup bd)
       (map (fun a => Aconselhamento (ac_id a) (ac_igreja_id a) (ac_pessoa_id a)
                        (ac_conselheiro_id a) (ac_data_atendimento a)
                        (ac_tipo a) VNull VNull (ac_status a)
                        (ac_proximo_encontro a))
            (aconselhamentos bd))
       (logs_acesso bd) (sqlite_sequence bd).

(** Every byte of a text passes a test. *)
Fixpoint todos (t : ascii -> bool) (s : string) : bool :=
  match s with
  | EmptyString => true
  | String c r => t c && todos t r
  end.

(** The characters a link is made of: those [quote] leaves as they are, the
    escape sign, and the punctuation of the fixed parts. *)
Definition de_url (c : ascii) : bool :=
  WhatsApp.seguro c || Ascii.eqb c "%" || Ascii.eqb c ":" || Ascii.eqb c "?"
  || Ascii.eqb c "=".

(** A text of ASCII. *)
Definition ascii_puro (s : string) : bool :=
  todos (fun c => (nat_of_ascii c <? 128)%nat) s.

(** The value of a hexadecimal digit. *)
Definition valor_hexa (c : ascii) : nat :=
  let n := nat_of_ascii c in
  if (n <=? 57)%nat then (n - 48)%nat else (n - 55)%nat.

(** ** More data to run the functions on *)

Module ExemploMais.
Import Exemplo.

(** A church without follow-up flows. *)
Definition bd_sem_fluxos : BD :=
  MkBD [maria; joao] [] [] [] [] [] [] [] [] (Sequencias 11 0 0 0 0).

(** A flow that can be scheduled followed by one whose day offset is empty. *)
Definition bd_fluxo_invalido : BD :=
  MkBD [maria; joao] [] [] [] [] []
       [ Fluxo 1 1 "Boas-vindas 24h" (VText "primeira_visita") (VInt 1)
           (VText "mensagem") (VText "Olá {nome}!") (VInt 1);
         Fluxo 2 1 "Convite" (VText "primeira_visita") VNull
           (VText "mensagem") (VText "Olá {nome}!") (VInt 1) ]
       [] [] (Sequencias 11 0 0 0 0).

(** Two counselling records, one by Maria and one by Joao. *)
Definition atendimento_de_maria : aconselhamento :=
  Aconselhamento 1 (VInt 1) (VInt 11) (VInt 10)
    (VText "2026-11-03 15:00:00") (VText "Pastoral")
    (VText "gConversa sobre luto") VNull (VText "em_andamento") VNull.

Definition atendimento_de_joao : aconselhamento :=
  Aconselhamento 2 (VInt 1) (VInt 10) (VInt 11)
    (VText "2026-11-02 09:00:00") (VText "Familiar") VNull VNull
    (VText "em_andamento") VNull.

Definition bd_atendimentos : BD :=
  MkBD [maria; joao] [] [] [] [] [] []
       [atendimento_de_maria; atendimento_de_joao] []
       (Sequencias 11 0 0 2 0).

(** A leader whose person is Maria. *)
Definition sessao_lider : sessao :=
  Sessao (Some (<["pessoa_id" := VInt 10]> lider)) (VInt 1).

(** The administrator of another church. *)
Definition sessao_outra_igreja : sessao := Sessao (Some admin) (VInt 2).

(** A reading of phone numbers that have ASCII digits only. *)
Definition sem_digitos_unicode (_ : string) : bool := false.

End ExemploMais.

(** * Properties *)

(** ** The permission check *)

Section Permissoes.
Import Settings Auth Exemplo.

Lemma contem_In x xs : contem x xs = true <-> In x xs.
Proof.
  unfold contem. rewrite existsb_exists. split.
  - intros (y & Hy & Heq). apply String.eqb_eq in Heq. now subst.
  - intros Hin. exists x. split; [assumption | apply String.eqb_refl].
Qed.

Lemma startswith_app s pre :
  startswith s pre = true <-> exists resto, s = pre ++ resto.
Proof.
  unfold startswith. revert s. induction pre as [| c pre IH]; intros s.
  - split; [exists s; reflexivity | intros _; now destruct s].
  - destruct s as [| d s]; simpl.
    + split; [discriminate | intros (r & Hr); discriminate].
    + destruct (ascii_dec c d) as [-> | Hne].
      * rewrite IH. split; intros (r & Hr); exists r; [now subst | now injection Hr].
      * split; [discriminate | intros (r & Hr); injection Hr; congruence].
Qed.

Lemma primeiro_segmento_prefixo s : startswith s (primeiro_segmento s) = true.
Proof.
  unfold startswith. induction s as [| c s IH]; simpl; [reflexivity |].
  destruct (Ascii.eqb c "."); simpl; [reflexivity |].
  destruct (ascii_dec c c); [assumption | congruence].
Qed.

(** With a profile of the table the check is the disjunction of its three
    tests. *)
Lemma tem_permissao_perfil (u : gmap string valor) n pf p :
  u !! "perfil" = Some (VText n) ->
  dict_get PERFIS n = Some pf ->
  tem_permissao (Some u) p =
    contem "*" (permissoes pf) || contem p (permissoes pf)
    || existsb (fun e => startswith e (primeiro_segmento p)) (permissoes pf).
Proof.
  intros Hu Hpf. unfold tem_permissao.
  destruct (decide (u = ∅)) as [-> | _].
  - rewrite lookup_empty in Hu. discriminate.
  - rewrite Hu. cbn [default from_option]. unfold perfil_de, id.
    rewrite Hpf. cbv zeta.
    destruct (contem "*" (permissoes pf)); [reflexivity |].
    destruct (contem p (permissoes pf)); reflexivity.
Qed.

(** C1, as stated, fails: a LIDER asking for 'evento.criar' is granted it,
    though the profile has no wildcard, no such entry, and no entry whose
    first dot-segment is 'evento' (it has 'eventos.ver', which merely starts
    with it). *)
Lemma tem_permissao_segmento_contra :
  lider !! "perfil" = Some (VText "LIDER")
  /\ (exists pf, dict_get PERFIS "LIDER" = Some pf
      /\ tem_permissao (Some lider) "evento.criar" = true
      /\ ~ (In "*" (permissoes pf) \/ In "evento.criar" (permissoes pf)
            \/ exists e, In e (permissoes pf)
                 /\ primeiro_segmento e = primeiro_segmento "evento.criar")).
Proof.
  split; [reflexivity |].
  eexists. split; [reflexivity |]. split; [vm_compute; reflexivity |].
  simpl. intros [Hw | [Hp | (e & He & Hseg)]].
  - repeat (destruct Hw as [Hw | Hw]; [discriminate |]). exact Hw.
  - repeat (destruct Hp as [Hp | Hp]; [discriminate |]). exact Hp.
  - repeat (destruct He as [<- | He]; [discriminate |]). exact He.
Qed.

(** C1, amended: for a user whose profile is in the table, access is granted
    exactly when the profile's list has the wildcard, has the permission
    itself, or has an entry that starts with the first dot-segment of the
    permission asked for. *)
Theorem tem_permissao_caracterizacao (u : gmap string valor) n pf p
    (Hu : u !! "perfil" = Some (VText n))
    (Hpf : dict_get PERFIS n = Some pf) :
  tem_permissao (Some u) p = true <->
  In "*" (permissoes pf) \/ In p (permissoes pf)
  \/ exists e resto, In e (permissoes pf) /\ e = primeiro_segmento p ++ resto.
Proof.
  rewrite (tem_permissao_perfil u n pf p Hu Hpf).
  rewrite !orb_true_iff, !contem_In, existsb_exists.
  split.
  - intros [[Hw | Hp] | (e & He & Hs)]; [now left | now right; left |].
    right; right. apply startswith_app in Hs as (resto & ->). eauto.
  - intros [Hw | [Hp | (e & resto & He & ->)]]; [now left; left | now left; right |].
    right. exists (primeiro_segmento p ++ resto). split; [assumption |].
    apply startswith_app. eauto.
Qed.

Lemma tem_permissao_caracterizacao_witness :
  tem_permissao (Some lider) "evento.criar" = true.
Proof.
  apply (proj2 (tem_permissao_caracterizacao lider "LIDER"
           (Perfil "Líder de Ministério/Célula"
              [ "pessoas.ver"; "visitantes.ver"; "ministerios.ver";
                "celulas.ver"; "celulas.editar_proprio"; "eventos.ver";
                "comunicacao.ver"; "comunicacao.enviar_grupo";
                "dashboard.ver_proprio" ]) "evento.criar" eq_refl eq_refl)).
  right; right. exists "eventos.ver", "s.ver".
  split; [simpl; tauto | reflexivity].
Defined.

(** C2: when an entry of the profile's list starts with the first
    dot-segment of the request, access is granted; so FINANCEIRO, whose only
    'doacoes' entries are 'doacoes.ver' and 'doacoes.editar', is granted
    'doacoes.excluir' and every other request of the form 'doacoes.<action>'. *)
Theorem tem_permissao_prefixo (u : gmap string valor) n pf p
    (Hu : u !! "perfil" = Some (VText n))
    (Hpf : dict_get PERFIS n = Some pf) :
  ((exists e, In e (permissoes pf)
              /\ startswith e (primeiro_segmento p) = true) ->
   tem_permissao (Some u) p = true)
  /\ (n = "FINANCEIRO" ->
      List.filter (fun e => String.eqb (primeiro_segmento e) "doacoes")
                  (permissoes pf) = ["doacoes.ver"; "doacoes.editar"]
      /\ tem_permissao (Some u) "doacoes.excluir" = true
      /\ forall acao, tem_permissao (Some u) ("doacoes." ++ acao) = true).
Proof.
  assert (Hgeral : forall q, (exists e, In e (permissoes pf)
              /\ startswith e (primeiro_segmento q) = true) ->
            tem_permissao (Some u) q = true).
  { intros q (e & He & Hs). rewrite (tem_permissao_perfil u n pf q Hu Hpf).
    rewrite !orb_true_iff. right. apply existsb_exists. eauto. }
  split; [apply Hgeral |].
  intros ->. simpl in Hpf. injection Hpf as <-.
  split; [reflexivity |].
  split.
  - apply Hgeral. exists "doacoes.ver". split; [simpl; tauto | reflexivity].
  - intros acao. apply Hgeral. exists "doacoes.ver".
    split; [simpl; tauto | reflexivity].
Qed.

Lemma tem_permissao_prefixo_witness :
  tem_permissao (Some financeiro) "doacoes.excluir" = true
  /\ tem_permissao (Some financeiro) "doacoes.aprovar" = true.
Proof.
  pose proof (tem_permissao_prefixo financeiro "FINANCEIRO"
                (Perfil "Financeiro" [ "pessoas.ver"; "doacoes.ver";
                   "doacoes.editar"; "relatorios.financeiro";
                   "dashboard.financeiro" ]) "doacoes.excluir"
                eq_refl eq_refl) as [_ Hfin].
  destruct (Hfin eq_refl) as (_ & Hexcluir & Htodas).
  split; [exact Hexcluir | exact (Htodas "aprovar")].
Defined.

End Permissoes.

(** ** How the programs run *)

Lemma In_inserir_ordenado {A} (leb : A -> A -> bool) x y l :
  In y (inserir_ordenado leb x l) <-> y = x \/ In y l.
Proof.
  induction l as [| z l IH]; simpl.
  - intuition congruence.
  - destruct (leb x z); simpl; [intuition congruence |].
    rewrite IH. intuition congruence.
Qed.

Lemma In_ordenar {A} (leb : A -> A -> bool) y l :
  In y (ordenar leb l) <-> In y l.
Proof.
  induction l as [| x l IH]; simpl; [reflexivity |].
  unfold ordenar in *. simpl. rewrite In_inserir_ordenado, IH.
  intuition congruence.
Qed.

Lemma In_firstn {A} (x : A) n : forall l, In x (firstn n l) -> In x l.
Proof.
  induction n as [| n IH]; intros [| y l]; simpl; try tauto.
  intros [-> | Hin]; [now left | right; auto].
Qed.

(** The log entry is written when the write lock is free; when another
    connection holds it the insert fails and the failure is dropped. *)
Lemma registrar_log_run uid ig acao det ocupado bd :
  registrar_log uid ig acao det ocupado bd =
    (Ok tt, if ocupado then bd else inserir_log uid ig acao det bd).
Proof. destruct ocupado; reflexivity. Qed.

Section ExcluirPessoa.
Import Pessoas.

(** The soft delete, step by step: nothing when no row matches, when the
    write lock is taken, or when the session has no user to log for;
    otherwise the rows are marked.  The log entry is asked for while the
    delete is still pending, and is lost. *)
Lemma excluir_pessoa_run s r pessoa_id ocupado bd :
  excluir_pessoa s r pessoa_id ocupado bd =
    if existsb (alvo (VInt pessoa_id) (igreja_id s)) (pessoas bd) then
      if ocupado then (Ok false, bd)
      else
        match usuario_item s "id" with
        | Ok uid =>
            (Ok true, com_pessoas (map (excluir_linha s r pessoa_id)) bd)
        | Erro _ => (Ok false, bd)
        end
    else (Ok false, bd).
Proof.
  unfold excluir_pessoa, tentar, get_connection, bind, consultar, executar,
    escrever, chamar, avaliar, ret.
  cbn [visivel].
  destruct (existsb _ (pessoas bd)); cbn; [| reflexivity].
  destruct ocupado; [reflexivity |].
  destruct (usuario_item s "id"); reflexivity.
Qed.

Lemma coluna_insert_ne (p : linha) k k' v :
  k <> k' -> coluna (<[k := v]> p) k' = coluna p k'.
Proof. intros Hne. unfold coluna. now rewrite lookup_insert_ne. Qed.

Lemma coluna_insert_eq (p : linha) k v : coluna (<[k := v]> p) k = v.
Proof. unfold coluna. now rewrite lookup_insert_eq. Qed.

Lemma alvo_marcar_inativa r pid ig p :
  alvo pid ig (marcar_inativa r p) = alvo pid ig p.
Proof.
  unfold alvo, marcar_inativa. now rewrite !coluna_insert_ne by discriminate.
Qed.

Lemma alvo_excluir_linha s r pessoa_id pid ig p :
  alvo pid ig (excluir_linha s r pessoa_id p) = alvo pid ig p.
Proof.
  unfold excluir_linha. destruct (alvo (VInt pessoa_id) _ p); [| reflexivity].
  apply alvo_marcar_inativa.
Qed.

Lemma find_map_preserva {A} (f : A -> A) (t : A -> bool) (l : list A) :
  (forall x, t (f x) = t x) ->
  List.find t (map f l) = f <$> List.find t l.
Proof.
  intros Hf. induction l as [| x l IH]; simpl; [reflexivity |].
  rewrite Hf. destruct (t x); [reflexivity | exact IH].
Qed.

End ExcluirPessoa.

(** ** The soft delete *)

Section SoftDelete.
Import Pessoas.

(** C10: for a person of the caller's church, [excluir_pessoa] returns
    [True]; in the person's row it sets [ativo] to 0 and [data_atualizacao]
    to the current time and leaves every other column as it was; every other
    row of [pessoas] and every other table is unchanged; [get_pessoa] still
    returns the person.  For an id that is not in the church it returns
    [False] and the database is unchanged. *)
Theorem excluir_pessoa_quadro s r pessoa_id bd (u : linha) uid
    (Hu : usuario s = Some u) (Huid : u !! "id" = Some uid) :
  let res := fst (excluir_pessoa s r pessoa_id livre bd) in
  let bd' := snd (excluir_pessoa s r pessoa_id livre bd) in
  (existsb (alvo (VInt pessoa_id) (igreja_id s)) (pessoas bd) = true ->
     res = Ok true
     /\ length (pessoas bd') = length (pessoas bd)
     /\ (forall (i : nat) p, pessoas bd !! i = Some p ->
           exists p', pessoas bd' !! i = Some p'
             /\ if alvo (VInt pessoa_id) (igreja_id s) p
                then p' !! "ativo" = Some (VInt 0)
                     /\ p' !! "data_atualizacao" = Some (VText (agora r))
                     /\ forall k, k <> "ativo" -> k <> "data_atualizacao" ->
                                  p' !! k = p !! k
                else p' = p)
     /\ familias bd' = familias bd /\ tags bd' = tags bd
     /\ pessoa_tags bd' = pessoa_tags bd /\ visitas bd' = visitas bd
     /\ followup bd' = followup bd
     /\ fluxos_followup bd' = fluxos_followup bd
     /\ aconselhamentos bd' = aconselhamentos bd
     /\ logs_acesso bd' = logs_acesso bd
     /\ sqlite_sequence bd' = sqlite_sequence bd
     /\ (exists p', get_pessoa s pessoa_id bd' = Some p'
                    /\ coluna p' "id" = VInt pessoa_id
                    /\ coluna p' "ativo" = VInt 0))
  /\ (existsb (alvo (VInt pessoa_id) (igreja_id s)) (pessoas bd) = false ->
        res = Ok false /\ bd' = bd).
Proof.
  intros res bd'. subst res bd'. rewrite excluir_pessoa_run.
  assert (Hitem : usuario_item s "id" = Ok uid).
  { unfold usuario_item. now rewrite Hu, Huid. }
  rewrite Hitem.
  split; intros Hex; rewrite Hex; [| split; reflexivity].
  cbn [fst snd].
  split; [reflexivity |].
  split; [simpl; apply length_map |].
  split.
  { intros i p Hp. simpl. rewrite list_lookup_fmap, Hp. simpl.
    eexists. split; [reflexivity |].
    unfold excluir_linha.
    destruct (alvo (VInt pessoa_id) (igreja_id s) p); [| reflexivity].
    unfold marcar_inativa. split; [| split].
    - now rewrite lookup_insert_ne, lookup_insert_eq by discriminate.
    - now rewrite lookup_insert_eq.
    - intros k Hk1 Hk2. now rewrite !lookup_insert_ne by congruence. }
  do 9 (split; [reflexivity |]).
  unfold get_pessoa. simpl.
  rewrite find_map_preserva by (intros x; apply alvo_excluir_linha).
  apply existsb_exists in Hex as (p & Hin & Halvo).
  destruct (List.find _ (pessoas bd)) as [q |] eqn:Hfind.
  - apply find_some in Hfind as [_ Hq]. simpl.
    eexists. split; [reflexivity |].
    unfold excluir_linha. rewrite Hq. unfold marcar_inativa.
    split.
    + rewrite !coluna_insert_ne by discriminate.
      unfold alvo in Hq. apply andb_true_iff in Hq as [Hid _].
      unfold sql_eq in Hid. destruct (coluna q "id"); try discriminate.
      apply Z.eqb_eq in Hid. now subst.
    + rewrite !coluna_insert_ne by discriminate. apply coluna_insert_eq.
  - exfalso. eapply find_none in Hfind; [| exact Hin]. congruence.
Qed.

Lemma excluir_pessoa_quadro_witness :
  fst (excluir_pessoa Exemplo.sessao_admin Exemplo.relogio0 10 livre
         Exemplo.bd0) = Ok true
  /\ (exists p', get_pessoa Exemplo.sessao_admin 10
                   (snd (excluir_pessoa Exemplo.sessao_admin Exemplo.relogio0
                           10 livre Exemplo.bd0)) = Some p'
                 /\ coluna p' "id" = VInt 10 /\ coluna p' "ativo" = VInt 0)
  /\ excluir_pessoa Exemplo.sessao_admin Exemplo.relogio0 99 livre Exemplo.bd0
     = (Ok false, Exemplo.bd0).
Proof.
  destruct (excluir_pessoa_quadro Exemplo.sessao_admin Exemplo.relogio0 10
              Exemplo.bd0 Exemplo.admin (VInt 1) eq_refl eq_refl)
    as [Hsim _].
  destruct (excluir_pessoa_quadro Exemplo.sessao_admin Exemplo.relogio0 99
              Exemplo.bd0 Exemplo.admin (VInt 1) eq_refl eq_refl)
    as [_ Hnao].
  specialize (Hsim ltac:(vm_compute; reflexivity)).
  specialize (Hnao ltac:(vm_compute; reflexivity)).
  destruct Hsim as (Hres & _ & _ & _ & _ & _ & _ & _ & _ & _ & _ & _ & Hget).
  destruct Hnao as [Hres' Hbd].
  split; [exact Hres |]. split; [exact Hget |].
  destruct (excluir_pessoa Exemplo.sessao_admin Exemplo.relogio0 99 livre
              Exemplo.bd0) as [a b].
  simpl in Hres', Hbd. now subst.
Defined.

End SoftDelete.

(** ** The active listing *)

Section Listagem.
Import Pessoas.

(** A row of the listing is a row of [pessoas] of the caller's church whose
    [ativo] is NULL or 1, with the two joined columns added. *)
Lemma get_pessoas_origem s filtros bd l :
  In l (get_pessoas s filtros bd) ->
  exists p, In p (pessoas bd)
            /\ ativa_na_igreja (igreja_id s) p = true
            /\ coluna l "id" = coluna p "id"
            /\ coluna l "igreja_id" = coluna p "igreja_id"
            /\ coluna l "ativo" = coluna p "ativo".
Proof.
  unfold get_pessoas. rewrite in_map_iff. intros (p & <- & Hin).
  apply In_ordenar in Hin. apply filter_In in Hin as [Hin Hsel].
  apply andb_true_iff in Hsel as [Hativa _].
  exists p. rewrite !coluna_insert_ne by discriminate. auto.
Qed.

Lemma ativa_na_igreja_ativo ig p :
  ativa_na_igreja ig p = true ->
  coluna p "ativo" = VNull \/ coluna p "ativo" = VInt 1.
Proof.
  unfold ativa_na_igreja. intros H. apply andb_true_iff in H as [_ H].
  destruct (decide (coluna p "ativo" = VNull)) as [-> | _]; [now left |].
  right. unfold sql_eq in H. destruct (coluna p "ativo"); try discriminate.
  apply Z.eqb_eq in H. now subst.
Qed.

(** C8: after [excluir_pessoa] has soft-deleted a person, the listing
    [get_pessoas] of the same caller has no row for that person, whatever the
    status, search and tag filters; and no row of a listing ever has
    [ativo = 0]. *)
Theorem get_pessoas_sem_excluidas s r pessoa_id ocupado bd filtros l
    (Hexc : fst (excluir_pessoa s r pessoa_id ocupado bd) = Ok true) :
  (In l (get_pessoas s filtros (snd (excluir_pessoa s r pessoa_id ocupado bd))) ->
   coluna l "id" <> VInt pessoa_id)
  /\ (forall bd1, In l (get_pessoas s filtros bd1) -> coluna l "ativo" <> VInt 0).
Proof.
  split.
  - intros Hin Hid.
    apply get_pessoas_origem in Hin as (p & Hp & Hativa & Hlid & _ & _).
    rewrite excluir_pessoa_run in Hexc, Hp.
    destruct (existsb _ (pessoas bd)); [| discriminate].
    destruct ocupado; [discriminate |].
    destruct (usuario_item s "id"); [| discriminate].
    simpl in Hp. apply in_map_iff in Hp as (p0 & <- & Hp0).
    assert (Halvo : alvo (VInt pessoa_id) (igreja_id s)
                      (excluir_linha s r pessoa_id p0) = true).
    { unfold alvo. rewrite <- Hlid, Hid. simpl. rewrite Z.eqb_refl. simpl.
      unfold ativa_na_igreja in Hativa.
      now apply andb_true_iff in Hativa as [-> _]. }
    apply ativa_na_igreja_ativo in Hativa.
    rewrite alvo_excluir_linha in Halvo.
    unfold excluir_linha in Hativa. rewrite Halvo in Hativa.
    unfold marcar_inativa in Hativa.
    rewrite coluna_insert_ne, coluna_insert_eq in Hativa by discriminate.
    destruct Hativa; discriminate.
  - intros bd1 Hin Hzero.
    apply get_pessoas_origem in Hin as (p & _ & Hativa & _ & _ & Hat).
    apply ativa_na_igreja_ativo in Hativa. rewrite <- Hat, Hzero in Hativa.
    destruct Hativa; discriminate.
Qed.

Lemma get_pessoas_sem_excluidas_witness :
  fst (excluir_pessoa Exemplo.sessao_admin Exemplo.relogio0 10 livre
         Exemplo.bd0) = Ok true
  /\ Forall (fun l => coluna l "id" <> VInt 10)
        (get_pessoas Exemplo.sessao_admin None
           (snd (excluir_pessoa Exemplo.sessao_admin Exemplo.relogio0 10 livre
                   Exemplo.bd0))).
Proof.
  split; [vm_compute; reflexivity |].
  apply List.Forall_forall. intros l Hl.
  exact (proj1 (get_pessoas_sem_excluidas Exemplo.sessao_admin Exemplo.relogio0
                  10 livre Exemplo.bd0 None l ltac:(vm_compute; reflexivity))
           Hl).
Defined.

End Listagem.

(** ** How the visitor functions run *)

Section ExecucaoVisitantes.
Import Visitantes.

Lemma atualizar_followup_run s r id st res ocupado bd :
  atualizar_followup s r id st res ocupado bd =
    match usuario_get s "pessoa_id" with
    | Erro e => (Erro e, bd)
    | Ok resp =>
        if ocupado then (Erro OperationalError, bd)
        else
          match usuario_item s "id" with
          | Erro e => (Erro e, bd)
          | Ok uid =>
              (Ok tt,
               com_followup
                 (map (marcar_followup id st res (VText (agora r)) resp)) bd)
          end
    end.
Proof.
  unfold atualizar_followup, get_connection, bind, avaliar, executar, escrever,
    chamar, ret.
  destruct (usuario_get s "pessoa_id"); [| reflexivity].
  destruct ocupado; [reflexivity |]. cbn.
  destruct (usuario_item s "id"); reflexivity.
Qed.

Lemma agendar_followup_run r pessoa_id fl ocupado t :
  agendar_followup r pessoa_id fl ocupado t =
    match data_do_fluxo r fl with
    | Ok d =>
        executar (inserir_followup pessoa_id (fl_nome fl) d
                    (fl_template_mensagem fl)) ocupado t
    | Erro e => (Erro e, t)
    end.
Proof.
  unfold agendar_followup, data_do_fluxo, bind, avaliar.
  destruct (timedelta_days (fl_dias_apos_trigger fl)) as [dias | e];
    [| reflexivity].
  destruct (date_add (hoje r) dias); reflexivity.
Qed.

(** The loop once the connection holds the lock: it writes to the store the
    connection sees and leaves the committed one alone. *)
Lemma para_cada_suja r pessoa_id ocupado fls : forall v c,
  match inserir_todos r pessoa_id fls v with
  | Ok v' =>
      para_cada fls (agendar_followup r pessoa_id) ocupado (Suja v c)
      = (Ok tt, Suja v' c)
  | Erro e =>
      exists v',
        para_cada fls (agendar_followup r pessoa_id) ocupado (Suja v c)
        = (Erro e, Suja v' c)
  end.
Proof.
  induction fls as [| fl fls IH]; intros v c; simpl; [reflexivity |].
  unfold bind. rewrite agendar_followup_run.
  destruct (data_do_fluxo r fl) as [d | e]; [apply IH | eexists; reflexivity].
Qed.

Lemma para_cada_livre r pessoa_id fls bd :
  exists t,
    confirmado t = bd
    /\ match inserir_todos r pessoa_id fls bd with
       | Ok bd' =>
           para_cada fls (agendar_followup r pessoa_id) livre (Limpa bd)
           = (Ok tt, t) /\ visivel t = bd'
       | Erro e =>
           para_cada fls (agendar_followup r pessoa_id) livre (Limpa bd)
           = (Erro e, t)
       end.
Proof.
  destruct fls as [| fl fls]; simpl.
  - exists (Limpa bd). auto.
  - unfold bind. rewrite agendar_followup_run.
    destruct (data_do_fluxo r fl) as [d | e]; [| exists (Limpa bd); auto].
    cbn.
    pose proof (para_cada_suja r pessoa_id livre fls
                  (inserir_followup pessoa_id (fl_nome fl) d
                     (fl_template_mensagem fl) bd) bd) as Hresto.
    destruct (inserir_todos r pessoa_id fls _) as [bd' | e].
    + exists (Suja bd' bd). rewrite Hresto. auto.
    + destruct Hresto as (v' & ->). eexists (Suja v' bd). auto.
Qed.

(** Called with the lock free the function inserts a follow-up per flow;
    called while another connection holds it, the first INSERT raises. *)
Lemma criar_followups_automaticos_run s r pessoa_id ocupado bd :
  criar_followups_automaticos s r pessoa_id ocupado bd =
    let fluxos :=
      List.filter (fluxo_ativo (igreja_id s)) (fluxos_followup bd) in
    if ocupado then
      match fluxos with
      | [] => (Ok tt, bd)
      | fl :: _ =>
          match data_do_fluxo r fl with
          | Ok _ => (Erro OperationalError, bd)
          | Erro e => (Erro e, bd)
          end
      end
    else
      match inserir_todos r pessoa_id fluxos bd with
      | Ok bd' => (Ok tt, bd')
      | Erro e => (Erro e, bd)
      end.
Proof.
  unfold criar_followups_automaticos, get_connection.
  unfold bind at 1, consultar. cbn [visivel]. cbv zeta.
  destruct ocupado.
  - destruct (List.filter _ (fluxos_followup bd)) as [| fl fls];
      [reflexivity |].
    simpl. unfold bind. rewrite agendar_followup_run.
    destruct (data_do_fluxo r fl); reflexivity.
  - destruct (para_cada_livre r pessoa_id
                (List.filter (fluxo_ativo (igreja_id s)) (fluxos_followup bd))
                bd) as (t & Hc & Hrun).
    destruct (inserir_todos _ _ _ bd) as [bd' | e].
    + destruct Hrun as [-> Hv]. now rewrite Hv.
    + now rewrite Hrun, Hc.
Qed.

Lemma criar_followups_ocupado s r pessoa_id bd :
  snd (criar_followups_automaticos s r pessoa_id true bd) = bd.
Proof.
  rewrite criar_followups_automaticos_run. cbv zeta.
  destruct (List.filter _ (fluxos_followup bd)) as [| fl fls]; [reflexivity |].
  destruct (data_do_fluxo r fl); reflexivity.
Qed.

(** The visit is inserted first; the follow-ups are then asked of a second
    connection while that insert is pending. *)
Lemma registrar_visita_run s r pessoa_id ev tc cc ocupado bd :
  registrar_visita s r pessoa_id ev tc cc ocupado bd =
    match usuario_get s "pessoa_id" with
    | Erro e => (Erro e, bd)
    | Ok resp =>
        if ocupado then (Erro OperationalError, bd)
        else
          match fst (criar_followups_automaticos s r pessoa_id true bd) with
          | Erro e => (Erro e, bd)
          | Ok _ =>
              match usuario_item s "id" with
              | Erro e => (Erro e, bd)
              | Ok uid =>
                  (Ok tt,
                   inserir_visita pessoa_id ev (hoje r) tc cc resp bd)
              end
          end
    end.
Proof.
  unfold registrar_visita, get_connection, bind, avaliar, executar, escrever,
    chamar, ret.
  destruct (usuario_get s "pessoa_id"); [| reflexivity].
  destruct ocupado; [reflexivity |]. cbn.
  pose proof (criar_followups_ocupado s r pessoa_id bd) as Hbd.
  destruct (criar_followups_automaticos s r pessoa_id true bd)
    as [[[] | e] c']; simpl in Hbd; subst c'; cbn; [| reflexivity].
  destruct (usuario_item s "id"); reflexivity.
Qed.

End ExecucaoVisitantes.

(** ** Follow-ups created at visit registration *)

Section FollowupsAutomaticos.
Import Visitantes.

Lemma data_do_fluxo_Ok r fl d :
  data_do_fluxo r fl = Ok d ->
  exists dias, fl_dias_apos_trigger fl = VInt dias /\ d = hoje r + dias.
Proof.
  unfold data_do_fluxo, timedelta_days, date_add.
  destruct (fl_dias_apos_trigger fl) as [| dias |]; try discriminate.
  destruct (Z.abs dias <=? 999999999); [| discriminate].
  destruct ((0 <? hoje r + dias) && (hoje r + dias <=? Datas.MAXORDINAL));
    [| discriminate].
  intros [= <-]. eauto.
Qed.

Lemma data_do_fluxo_valida r fl dias :
  fl_dias_apos_trigger fl = VInt dias ->
  Z.abs dias <= 999999999 ->
  0 < hoje r + dias <= Datas.MAXORDINAL ->
  data_do_fluxo r fl = Ok (hoje r + dias).
Proof.
  intros Hd Habs [Hlo Hhi]. unfold data_do_fluxo, timedelta_days, date_add.
  rewrite Hd. apply Z.leb_le in Habs, Hhi. apply Z.ltb_lt in Hlo.
  now rewrite Habs, Hlo, Hhi.
Qed.

(** The loop appends one row per flow, in order, and touches nothing else. *)
Lemma inserir_todos_quadro r pessoa_id fls : forall bd bd',
  inserir_todos r pessoa_id fls bd = Ok bd' ->
  pessoas bd' = pessoas bd /\ visitas bd' = visitas bd
  /\ fluxos_followup bd' = fluxos_followup bd
  /\ logs_acesso bd' = logs_acesso bd
  /\ exists novos, followup bd' = (followup bd ++ novos)%list
                   /\ Forall2 (criado_para r pessoa_id) fls novos.
Proof.
  induction fls as [| fl fls IH]; intros bd bd'; simpl.
  - intros [= <-]. repeat split. exists []. split; [now rewrite app_nil_r |].
    constructor.
  - destruct (data_do_fluxo r fl) as [d |] eqn:Hd; [| discriminate].
    intros Hrest. apply IH in Hrest as (Hp & Hv & Hf & Hl & novos & Hfu & Hall).
    simpl in Hp, Hv, Hf, Hl, Hfu.
    repeat (split; [assumption |]).
    eexists (_ :: novos). split.
    + rewrite Hfu, <- app_assoc. reflexivity.
    + constructor; [| exact Hall].
      apply data_do_fluxo_Ok in Hd as (dias & Hdias & ->).
      unfold criado_para. simpl. eauto 10.
Qed.

Lemma inserir_todos_sucesso r pessoa_id fls : forall bd,
  List.Forall (fun fl => exists d, data_do_fluxo r fl = Ok d) fls ->
  exists bd', inserir_todos r pessoa_id fls bd = Ok bd'.
Proof.
  induction fls as [| fl fls IH]; intros bd Hall; simpl.
  - eauto.
  - inversion Hall as [| ? ? (d & Hd) Hresto]; subst. rewrite Hd. apply IH, Hresto.
Qed.

(** What the function is written to do, and does when nothing else holds the
    write lock: it appends, for each active flow of the caller's church
    triggered by 'primeira_visita', one pending follow-up with the flow's
    name as type, its template as [observacoes] and today plus its day
    offset as due date. *)
Lemma criar_followups_isolado s r pessoa_id bd :
  List.Forall
    (fun fl => exists dias, fl_dias_apos_trigger fl = VInt dias
                 /\ Z.abs dias <= 999999999
                 /\ 0 < hoje r + dias <= Datas.MAXORDINAL)
    (List.filter (fluxo_ativo (igreja_id s)) (fluxos_followup bd)) ->
  fst (criar_followups_automaticos s r pessoa_id livre bd) = Ok tt
  /\ exists novos,
       followup (snd (criar_followups_automaticos s r pessoa_id livre bd))
       = (followup bd ++ novos)%list
       /\ Forall2 (criado_para r pessoa_id)
            (List.filter (fluxo_ativo (igreja_id s)) (fluxos_followup bd))
            novos.
Proof.
  intros Hdatas. rewrite criar_followups_automaticos_run. cbv zeta.
  destruct (inserir_todos_sucesso r pessoa_id
              (List.filter (fluxo_ativo (igreja_id s)) (fluxos_followup bd)) bd)
    as (bd' & Hbd').
  { eapply List.Forall_impl; [| exact Hdatas].
    intros fl (dias & Hd & Habs & Hrange). exists (hoje r + dias).
    now apply data_do_fluxo_valida. }
  rewrite Hbd'. split; [reflexivity |].
  now apply inserir_todos_quadro in Hbd' as (_ & _ & _ & _ & Hnovos).
Qed.

(** C5 does not hold of the code: when the church has an active flow
    triggered by 'primeira_visita', [registrar_visita] inserts the visit and,
    with that insert pending, has [criar_followups_automaticos] open a second
    connection, whose INSERT cannot take the write lock; the exception ends
    the registration, the visit is rolled back, and the database is left as
    it was, without follow-ups. *)
Theorem registrar_visita_sem_followups s r pessoa_id ev tc cc bd fl resto
    (Hfl : List.filter (fluxo_ativo (igreja_id s)) (fluxos_followup bd)
           = fl :: resto) :
  exists e,
    registrar_visita s r pessoa_id ev tc cc livre bd = (Erro e, bd)
    /\ (usuario s <> None -> (exists d, data_do_fluxo r fl = Ok d) ->
        e = OperationalError).
Proof.
  rewrite registrar_visita_run.
  destruct (usuario_get s "pessoa_id") as [resp | e0] eqn:Hget.
  - rewrite criar_followups_automaticos_run. cbv zeta. rewrite Hfl.
    destruct (data_do_fluxo r fl) as [d | e1].
    + exists OperationalError. auto.
    + exists e1. split; [reflexivity |]. intros _ (d & Hd). discriminate.
  - exists e0. split; [reflexivity |]. intros Hu.
    unfold usuario_get in Hget. destruct (usuario s); [discriminate | congruence].
Qed.

Lemma registrar_visita_sem_followups_witness :
  registrar_visita Exemplo.sessao_admin Exemplo.relogio0 11 VNull
    (VText "Culto Dominical") VNull livre Exemplo.bd0
  = (Erro OperationalError, Exemplo.bd0).
Proof.
  destruct (registrar_visita_sem_followups Exemplo.sessao_admin
              Exemplo.relogio0 11 VNull (VText "Culto Dominical") VNull
              Exemplo.bd0 _ _ eq_refl) as (e & Hrun & He).
  rewrite Hrun, He; [reflexivity | discriminate |].
  eexists. vm_compute. reflexivity.
Defined.

(** C6, as stated, fails: with the flows of the demonstration church the
    follow-up creation fails during the registration, and with a flow whose
    day offset is empty it fails wherever it is called; in both cases the
    registration raises instead of completing and no visit row is
    recorded. *)
Lemma registrar_visita_falha_contra :
  (fst (criar_followups_automaticos Exemplo.sessao_admin Exemplo.relogio0 11
          true Exemplo.bd0) = Erro OperationalError
   /\ fst (registrar_visita Exemplo.sessao_admin Exemplo.relogio0 11 VNull
             (VText "Culto Dominical") VNull livre Exemplo.bd0)
      = Erro OperationalError
   /\ visitas (snd (registrar_visita Exemplo.sessao_admin Exemplo.relogio0 11
                      VNull (VText "Culto Dominical") VNull livre Exemplo.bd0))
      = [])
  /\ (fst (criar_followups_automaticos Exemplo.sessao_admin Exemplo.relogio0 11
             livre Exemplo.bd_fluxo_sem_dias) = Erro TypeError
      /\ fst (registrar_visita Exemplo.sessao_admin Exemplo.relogio0 11 VNull
                (VText "Culto Dominical") VNull livre Exemplo.bd_fluxo_sem_dias)
         = Erro TypeError
      /\ visitas (snd (registrar_visita Exemplo.sessao_admin Exemplo.relogio0
                         11 VNull (VText "Culto Dominical") VNull livre
                         Exemplo.bd_fluxo_sem_dias)) = []).
Proof. vm_compute. repeat split. Qed.

(** C6, amended: when the creation of the automatic follow-ups fails during
    a visit registration, nothing catches the exception: [registrar_visita]
    raises it, its connection rolls back, and the database is left as it was,
    without the visit row and without any follow-up. *)
Theorem registrar_visita_propaga_falha s r pessoa_id ev tc cc bd e
    (Hu : usuario s <> None)
    (Hfalha : fst (criar_followups_automaticos s r pessoa_id true bd) = Erro e) :
  registrar_visita s r pessoa_id ev tc cc livre bd = (Erro e, bd).
Proof.
  rewrite registrar_visita_run.
  destruct (usuario_get s "pessoa_id") as [resp | e0] eqn:Hget.
  - now rewrite Hfalha.
  - unfold usuario_get in Hget. destruct (usuario s); [discriminate | congruence].
Qed.

Lemma registrar_visita_propaga_falha_witness :
  registrar_visita Exemplo.sessao_admin Exemplo.relogio0 11 VNull
    (VText "Culto Dominical") VNull livre Exemplo.bd_fluxo_sem_dias
  = (Erro TypeError, Exemplo.bd_fluxo_sem_dias).
Proof.
  apply (registrar_visita_propaga_falha Exemplo.sessao_admin Exemplo.relogio0
           11 VNull (VText "Culto Dominical") VNull Exemplo.bd_fluxo_sem_dias
           TypeError).
  - discriminate.
  - vm_compute. reflexivity.
Defined.

End FollowupsAutomaticos.

(** ** How [salvar_pessoa] runs *)

Section ExecucaoSalvar.
Import Pessoas.

Lemma salvar_pessoa_run s r dados ocupado bd :
  salvar_pessoa s r dados ocupado bd =
    let pessoa_id := default VNull (dict_get dados "id") in
    if verdadeiro pessoa_id then
      let campos := List.filter (fun '(k, _) => negb (String.eqb k "id")) dados in
      match (match campos with
             | [] => Erro OperationalError
             | _ => resolver_colunas campos
             end) with
      | Erro e => (Erro e, bd)
      | Ok atrib =>
          let atrib' := (atrib ++ [("data_atualizacao", VText (agora r))])%list in
          if ocupado then (Erro OperationalError, bd)
          else if update_recusado pessoa_id (igreja_id s) atrib' (pessoas bd)
          then (Erro IntegrityError, bd)
          else
            match usuario_item s "id" with
            | Erro e => (Erro e, bd)
            | Ok uid =>
                (Ok pessoa_id,
                 com_pessoas
                   (atualizar_linhas pessoa_id (igreja_id s) atrib') bd)
            end
      end
    else
      match resolver_colunas
              (dict_set (dict_set dados "igreja_id" (igreja_id s))
                        "data_cadastro" (VText (agora r))) with
      | Erro e => (Erro e, bd)
      | Ok cols =>
          if ocupado then (Erro OperationalError, bd)
          else
            let '(n, nova) := linha_nova cols bd in
            if linha_recusada COLUNAS nova
               || existsb (Z.eqb n) (map id_da_linha (pessoas bd))
            then (Erro IntegrityError, bd)
            else
              match usuario_item s "id" with
              | Erro e => (Erro e, bd)
              | Ok uid => (Ok (VInt n), inserir_pessoa n nova bd)
              end
      end.
Proof.
  unfold salvar_pessoa, get_connection. cbv zeta.
  destruct (verdadeiro (default VNull (dict_get dados "id"))).
  - unfold bind, avaliar, update_pessoa, escrever, chamar, ret.
    destruct (match List.filter _ dados with
              | [] => Erro OperationalError
              | _ => resolver_colunas _ end) as [atrib | e]; [| reflexivity].
    destruct ocupado; [reflexivity |].
    destruct (update_recusado _ _ _ _); [reflexivity |].
    destruct (usuario_item s "id"); reflexivity.
  - unfold bind, avaliar, insert_pessoa, escrever, chamar, ret.
    destruct (resolver_colunas _) as [cols | e]; [| reflexivity].
    destruct ocupado; [reflexivity |].
    destruct (linha_nova cols bd) as [n nova].
    destruct (linha_recusada COLUNAS nova || _); [reflexivity |].
    destruct (usuario_item s "id"); reflexivity.
Qed.

(** The store [salvar_pessoa] leaves: it raised and the database is as it
    was, or the rows of the id and church given carry the assignments, or one
    row was appended; the follow-ups are not touched. *)
Lemma salvar_pessoa_efeito s r dados bd :
  let bd' := snd (salvar_pessoa s r dados livre bd) in
  followup bd' = followup bd
  /\ ((exists e, salvar_pessoa s r dados livre bd = (Erro e, bd))
      \/ (verdadeiro (default VNull (dict_get dados "id")) = true
          /\ exists atrib,
               resolver_colunas
                 (List.filter (fun '(k, _) => negb (String.eqb k "id")) dados)
               = Ok atrib
               /\ pessoas bd' =
                    atualizar_linhas (default VNull (dict_get dados "id"))
                      (igreja_id s)
                      (atrib ++ [("data_atualizacao", VText (agora r))])
                      (pessoas bd))
      \/ (verdadeiro (default VNull (dict_get dados "id")) = false
          /\ exists nova, pessoas bd' = (pessoas bd ++ [nova])%list)).
Proof.
  cbv zeta. rewrite salvar_pessoa_run. cbv zeta.
  destruct (verdadeiro (default VNull (dict_get dados "id"))) eqn:Hid.
  - set (campos := List.filter (fun '(k, _) => negb (String.eqb k "id")) dados).
    destruct (match campos with [] => Erro OperationalError
                            | _ => resolver_colunas campos end)
      as [atrib | e] eqn:Hres; [| simpl; eauto].
    assert (Hatrib : resolver_colunas campos = Ok atrib).
    { destruct campos; [discriminate | exact Hres]. }
    destruct (update_recusado _ _ _ _); [simpl; eauto |].
    destruct (usuario_item s "id"); simpl; [| eauto].
    split; [reflexivity |]. right; left. split; [reflexivity |].
    exists atrib. split; [exact Hatrib | reflexivity].
  - destruct (resolver_colunas _) as [cols | e]; [| simpl; eauto].
    destruct (linha_nova cols bd) as [n nova].
    destruct (linha_recusada COLUNAS nova || _); [simpl; eauto |].
    destruct (usuario_item s "id"); simpl; [| eauto].
    split; [reflexivity |]. right; right. split; [reflexivity |].
    eexists. reflexivity.
Qed.

Lemma atribuir_lookup atrib : forall (p : linha) c,
  atribuir atrib p !! c =
    match ultima c atrib with Some v => Some v | None => p !! c end.
Proof.
  unfold atribuir.
  induction atrib as [| [k v] atrib IH]; intros p c; simpl; [reflexivity |].
  rewrite IH. destruct (ultima c atrib); [reflexivity |].
  destruct (String.eqb_spec k c) as [-> | Hne].
  - apply lookup_insert_eq.
  - now apply lookup_insert_ne.
Qed.

Lemma ultima_app c a b :
  ultima c (a ++ b) =
    match ultima c b with Some v => Some v | None => ultima c a end.
Proof.
  induction a as [| [k v] a IH]; simpl.
  - now destruct (ultima c b).
  - rewrite IH. destruct (ultima c b); reflexivity.
Qed.

Lemma ultima_In c atrib v : ultima c atrib = Some v -> In (c, v) atrib.
Proof.
  induction atrib as [| [k w] atrib IH]; simpl; [discriminate |].
  destruct (ultima c atrib); [intros [= <-]; right; auto |].
  destruct (String.eqb_spec k c) as [-> | _]; [| discriminate].
  intros [= <-]. now left.
Qed.

Lemma resolver_colunas_In campos : forall atrib c v,
  resolver_colunas campos = Ok atrib -> In (c, v) atrib ->
  exists k, In (k, v) campos /\ resolver_coluna k = Some c.
Proof.
  induction campos as [| [k w] campos IH]; intros atrib c v; simpl.
  - intros [= <-] [].
  - destruct (resolver_coluna k) as [ck |] eqn:Hk; [| discriminate].
    destruct (resolver_colunas campos) as [rest | e]; [| discriminate].
    intros [= <-] [[= <- <-] | Hin].
    + exists k. split; [now left | exact Hk].
    + destruct (IH rest c v eq_refl Hin) as (k' & Hin' & Hk').
      exists k'. split; [now right | exact Hk'].
Qed.

End ExecucaoSalvar.

(** ** What each operation leaves in [pessoas] and [followup] *)

Section Efeitos.
Import Pessoas Visitantes.

Lemma pendentes_novos_refl l : pendentes_novos l l.
Proof. exists []. split; [now rewrite app_nil_r | constructor]. Qed.

Lemma criar_followups_efeito s r pessoa_id bd :
  let bd' := snd (criar_followups_automaticos s r pessoa_id livre bd) in
  pessoas bd' = pessoas bd /\ pendentes_novos (followup bd) (followup bd').
Proof.
  cbv zeta. rewrite criar_followups_automaticos_run. cbv zeta iota.
  destruct (inserir_todos r pessoa_id _ bd) as [bd' | e] eqn:Hrun; simpl.
  - apply inserir_todos_quadro in Hrun as (Hp & _ & _ & _ & novos & Hfu & Hall).
    split; [exact Hp |]. exists novos. split; [exact Hfu |].
    clear Hfu. induction Hall as [| fl fu fls novos Hc _ IH]; constructor.
    + now destruct Hc as (_ & _ & _ & Hst & _).
    + exact IH.
  - split; [reflexivity | apply pendentes_novos_refl].
Qed.

Lemma registrar_visita_efeito s r pessoa_id ev tc cc bd :
  let bd' := snd (registrar_visita s r pessoa_id ev tc cc livre bd) in
  pessoas bd' = pessoas bd /\ followup bd' = followup bd.
Proof.
  cbv zeta. rewrite registrar_visita_run.
  destruct (usuario_get s "pessoa_id") as [resp | e]; [| auto].
  destruct (fst (criar_followups_automaticos s r pessoa_id true bd)); [| auto].
  destruct (usuario_item s "id"); auto.
Qed.

Lemma excluir_pessoa_efeito s r pessoa_id bd :
  let bd' := snd (excluir_pessoa s r pessoa_id livre bd) in
  followup bd' = followup bd
  /\ (pessoas bd' = pessoas bd
      \/ pessoas bd' = map (excluir_linha s r pessoa_id) (pessoas bd)).
Proof.
  cbv zeta. rewrite excluir_pessoa_run.
  destruct (existsb _ (pessoas bd)); [| simpl; auto].
  destruct (usuario_item s "id"); simpl; auto.
Qed.

Lemma atualizar_followup_efeito s r id st res bd :
  let bd' := snd (atualizar_followup s r id st res livre bd) in
  pessoas bd' = pessoas bd
  /\ (followup bd' = followup bd
      \/ exists resp,
           followup bd' =
             map (marcar_followup id st res (VText (agora r)) resp) (followup bd)).
Proof.
  cbv zeta. rewrite atualizar_followup_run.
  destruct (usuario_get s "pessoa_id"); [| simpl; auto].
  destruct (usuario_item s "id"); simpl; eauto.
Qed.

Lemma get_followups_pendentes_origem s bd f :
  In f (get_followups_pendentes s bd) ->
  In (pe_followup f) (followup bd) /\ fu_status (pe_followup f) = "pendente".
Proof.
  unfold get_followups_pendentes. intros Hin. apply In_ordenar in Hin.
  apply in_flat_map in Hin as (fu & Hfu & Hin).
  apply in_flat_map in Hin as (p & _ & Hin).
  destruct (sql_eq (VInt (fu_pessoa_id fu)) (coluna p "id")
            && sql_eq (coluna p "igreja_id") (igreja_id s)
            && String.eqb (fu_status fu) "pendente") eqn:Hcond; [| destruct Hin].
  apply andb_true_iff in Hcond as [_ Hst]. apply String.eqb_eq in Hst.
  assert (Hpe : pe_followup f = fu).
  { destruct (List.filter _ (pessoas bd)) as [| q qs].
    - destruct Hin as [<- | []]. reflexivity.
    - apply in_map_iff in Hin as (q' & <- & _). reflexivity. }
  rewrite Hpe. auto.
Qed.

(** A run of the screen presses at most one button: the store is as it was,
    or as [atualizar_followup] leaves it for one of the cards shown, with
    'realizado' or 'cancelado'. *)
Lemma render_cards_efeito s r clique fs : forall bd,
  snd (render_cards s r clique fs livre bd) = bd
  \/ exists f st, In f fs /\ (st = "realizado" \/ st = "cancelado")
       /\ snd (render_cards s r clique fs livre bd)
          = snd (atualizar_followup s r (fu_id (pe_followup f)) st VNull livre
                   bd).
Proof.
  induction fs as [| f fs IH]; intros bd; simpl; [now left |].
  unfold bind at 1, render_followup_card.
  destruct (pressionado clique BotaoRealizado (fu_id (pe_followup f))).
  { right. exists f, "realizado". split; [now left |]. split; [now left |].
    unfold bind, ret.
    now destruct (atualizar_followup _ _ _ _ _ livre bd) as [[[] | e] bd']. }
  destruct (pressionado clique BotaoRemarcar (fu_id (pe_followup f))).
  { unfold ret at 1. destruct (IH bd) as [Hbd | (g & st & Hg & Hst & Hrun)];
      [now left |]. right. exists g, st. auto. }
  destruct (pressionado clique BotaoCancelar (fu_id (pe_followup f))).
  { right. exists f, "cancelado". split; [now left |]. split; [now right |].
    unfold bind, ret.
    now destruct (atualizar_followup _ _ _ _ _ livre bd) as [[[] | e] bd']. }
  unfold ret at 1. destruct (IH bd) as [Hbd | (g & st & Hg & Hst & Hrun)];
    [now left |]. right. exists g, st. auto.
Qed.

Lemma render_followups_efeito s r clique bd :
  snd (render_followups s r clique livre bd) = bd
  \/ exists f st, In f (get_followups_pendentes s bd)
       /\ (st = "realizado" \/ st = "cancelado")
       /\ snd (render_followups s r clique livre bd)
          = snd (atualizar_followup s r (fu_id (pe_followup f)) st VNull livre
                   bd).
Proof.
  unfold render_followups, bind, ler. cbv zeta.
  match goal with
  | |- context [render_cards s r clique ?cards livre bd] =>
      destruct (render_cards_efeito s r clique cards bd)
        as [Hbd | (f & st & Hf & Hst & Hrun)]; [now left |];
      right; exists f, st; split; [| split; [exact Hst | exact Hrun]]
  end.
  rewrite !in_app_iff in Hf.
  destruct Hf as [Hf | [Hf | Hf]].
  - now apply filter_In in Hf.
  - now apply filter_In in Hf.
  - apply In_firstn in Hf. now apply filter_In in Hf.
Qed.

End Efeitos.

(** ** The funnel status *)

Section Funil.
Import Pessoas Visitantes.

Lemma excluir_linha_status s r pessoa_id (p : linha) :
  excluir_linha s r pessoa_id p !! "status" = p !! "status".
Proof.
  unfold excluir_linha, marcar_inativa.
  destruct (alvo _ _ p); [| reflexivity].
  now rewrite !lookup_insert_ne by discriminate.
Qed.

Lemma render_followups_pessoas s r clique bd :
  pessoas (snd (render_followups s r clique livre bd)) = pessoas bd.
Proof.
  destruct (render_followups_efeito s r clique bd)
    as [-> | (f & st & _ & _ & ->)]; [reflexivity |].
  apply atualizar_followup_efeito.
Qed.




End Funil.

(** ** The follow-up status *)

Section EstadoFollowup.
Import Pessoas Visitantes.

Lemma ids_unicos {A} (chave : A -> Z) (l : list A) :
  ids_repetidos (map chave l) = false ->
  forall a b, In a l -> In b l -> chave a = chave b -> a = b.
Proof.
  induction l as [| x l IH]; simpl; [intros _ a b [] |].
  intros Hrep. apply orb_false_iff in Hrep as [Hx Hl].
  assert (Hfora : forall y, In y l -> chave x <> chave y).
  { intros y Hy Heq.
    assert (Hex : existsb (Z.eqb (chave x)) (map chave l) = true).
    { apply existsb_exists. exists (chave y).
      split; [now apply in_map | now apply Z.eqb_eq]. }
    congruence. }
  intros a b [<- | Ha] [<- | Hb] Heq; auto.
  - now apply Hfora in Heq.
  - symmetry in Heq. now apply Hfora in Heq.
Qed.

Lemma marcar_followup_id id st res quando resp f :
  fu_id (marcar_followup id st res quando resp f) = fu_id f.
Proof. unfold marcar_followup. now destruct (fu_id f =? id). Qed.

Lemma marcar_followup_status id st res quando resp f :
  fu_status (marcar_followup id st res quando resp f)
  = if fu_id f =? id then st else fu_status f.
Proof. unfold marcar_followup. now destruct (fu_id f =? id). Qed.

(** C4, as stated, fails: [atualizar_followup] called with 'pendente' on a
    follow-up that is 'realizado' puts it back to 'pendente'. *)
Lemma followup_reaberto_contra :
  let bd' := snd (atualizar_followup Exemplo.sessao_admin Exemplo.relogio0 1
                    "pendente" VNull livre Exemplo.bd0) in
  exists f f',
    followup Exemplo.bd0 !! 0%nat = Some f /\ followup bd' !! 0%nat = Some f'
    /\ fu_id f = 1 /\ fu_id f' = 1
    /\ fu_status f = "realizado" /\ fu_status f' = "pendente".
Proof.
  eexists _, _. split; [reflexivity |]. split; [vm_compute; reflexivity |].
  vm_compute. repeat split.
Qed.

(** C4, amended: a follow-up created by [criar_followups_automaticos]
    starts as 'pendente'.  Its status changes only through
    [atualizar_followup].  The follow-up screen calls it with 'realizado' or
    'cancelado' and only for a follow-up it lists as pending, so through the
    screen a follow-up goes from 'pendente' to 'realizado' or 'cancelado' and
    one that is 'realizado' or 'cancelado' is not changed.
    [atualizar_followup] itself does not look at the current status: it gives
    the follow-up of the id whatever status it is called with. *)
Theorem followup_transicoes s r op bd
    (Hpk : ids_repetidos (map fu_id (followup bd)) = false) :
  let bd' := efeito s r op bd in
  (forall (i : nat) f, followup bd !! i = Some f ->
     exists f', followup bd' !! i = Some f' /\ fu_id f' = fu_id f
       /\ (fu_status f' <> fu_status f ->
           (exists id st res, op = OpAtualizarFollowup id st res
                              /\ id = fu_id f /\ fu_status f' = st)
           \/ (exists clique, op = OpRenderFollowups clique
                 /\ fu_status f = "pendente"
                 /\ (fu_status f' = "realizado" \/ fu_status f' = "cancelado"))))
  /\ (forall (i : nat) f', followup bd !! i = None ->
        followup bd' !! i = Some f' ->
        fu_status f' = "pendente"
        /\ exists pessoa_id, op = OpCriarFollowups pessoa_id)
  /\ (forall id st res (u : linha) uid,
        op = OpAtualizarFollowup id st res ->
        usuario s = Some u -> u !! "id" = Some uid ->
        forall (i : nat) f, followup bd !! i = Some f -> fu_id f = id ->
          exists f', followup bd' !! i = Some f' /\ fu_status f' = st).
Proof.
  cbv zeta.
  assert (Hmesma : forall l' (i : nat) f, l' = followup bd ->
            followup bd !! i = Some f ->
            exists f', l' !! i = Some f' /\ fu_id f' = fu_id f
              /\ (fu_status f' <> fu_status f ->
                  (exists id st res, op = OpAtualizarFollowup id st res
                                     /\ id = fu_id f /\ fu_status f' = st)
                  \/ (exists clique, op = OpRenderFollowups clique
                        /\ fu_status f = "pendente"
                        /\ (fu_status f' = "realizado"
                            \/ fu_status f' = "cancelado")))).
  { intros l' i f -> Hf. exists f. split; [exact Hf |].
    split; [reflexivity | congruence]. }
  assert (Hcresce : forall l' (i : nat) f, pendentes_novos (followup bd) l' ->
            followup bd !! i = Some f ->
            exists f', l' !! i = Some f' /\ fu_id f' = fu_id f
              /\ (fu_status f' <> fu_status f ->
                  (exists id st res, op = OpAtualizarFollowup id st res
                                     /\ id = fu_id f /\ fu_status f' = st)
                  \/ (exists clique, op = OpRenderFollowups clique
                        /\ fu_status f = "pendente"
                        /\ (fu_status f' = "realizado"
                            \/ fu_status f' = "cancelado")))).
  { intros l' i f (novos & -> & _) Hf. exists f.
    split; [now apply lookup_app_l_Some |]. split; [reflexivity | congruence]. }
  assert (Hnovo : forall l' (i : nat) f', pendentes_novos (followup bd) l' ->
            followup bd !! i = None -> l' !! i = Some f' ->
            fu_status f' = "pendente").
  { intros l' i f' (novos & -> & Hall) Hnone Hsome.
    rewrite lookup_app_r in Hsome by now apply lookup_ge_None.
    rewrite List.Forall_forall in Hall. apply Hall.
    apply list_elem_of_In. eapply list_elem_of_lookup_2, Hsome. }
  assert (Hmarca : forall id st res resp (i : nat) f,
            followup bd !! i = Some f ->
            map (marcar_followup id st res (VText (agora r)) resp) (followup bd)
              !! i
            = Some (marcar_followup id st res (VText (agora r)) resp f)).
  { intros. now rewrite list_lookup_fmap, H. }
  split; [| split].
  - intros i f Hf.
    destruct op as [dados | pid | pid ev tc cc | pid | id st res | clique]; simpl.
    + apply Hmesma; [apply salvar_pessoa_efeito | exact Hf].
    + apply Hmesma; [apply excluir_pessoa_efeito | exact Hf].
    + apply Hmesma; [apply registrar_visita_efeito | exact Hf].
    + apply Hcresce; [apply criar_followups_efeito | exact Hf].
    + destruct (atualizar_followup_efeito s r id st res bd)
        as (_ & [Hfu | (resp & Hfu)]); [now apply Hmesma |].
      rewrite Hfu, (Hmarca _ _ _ _ _ _ Hf). eexists. split; [reflexivity |].
      split; [apply marcar_followup_id |].
      rewrite marcar_followup_status. intros Hmuda. left.
      destruct (Z.eqb_spec (fu_id f) id) as [<- | _]; [| congruence].
      eauto 10.
    + destruct (render_followups_efeito s r clique bd)
        as [-> | (card & st & Hcard & Hst & ->)]; [now apply Hmesma |].
      apply get_followups_pendentes_origem in Hcard as [Hin Hpend].
      destruct (atualizar_followup_efeito s r (fu_id (pe_followup card)) st
                  VNull bd) as (_ & [Hfu | (resp & Hfu)]); [now apply Hmesma |].
      rewrite Hfu, (Hmarca _ _ _ _ _ _ Hf). eexists. split; [reflexivity |].
      split; [apply marcar_followup_id |].
      rewrite marcar_followup_status. intros Hmuda. right. exists clique.
      destruct (Z.eqb_spec (fu_id f) (fu_id (pe_followup card))) as [Heq | _];
        [| congruence].
      assert (f = pe_followup card) as ->.
      { apply (ids_unicos fu_id (followup bd) Hpk); [| exact Hin | exact Heq].
        apply list_elem_of_In. eapply list_elem_of_lookup_2, Hf. }
      auto.
  - intros i f' Hnone Hsome.
    destruct op as [dados | pid | pid ev tc cc | pid | id st res | clique];
      simpl in Hsome.
    + destruct (salvar_pessoa_efeito s r dados bd) as (Hfu & _). congruence.
    + destruct (excluir_pessoa_efeito s r pid bd) as (Hfu & _). congruence.
    + destruct (registrar_visita_efeito s r pid ev tc cc bd) as (_ & Hfu).
      congruence.
    + split; [eapply Hnovo; [apply criar_followups_efeito | |]; eassumption |].
      now exists pid.
    + exfalso.
      destruct (atualizar_followup_efeito s r id st res bd)
        as (_ & [Hfu | (resp & Hfu)]); rewrite Hfu in Hsome; [congruence |].
      rewrite list_lookup_fmap, Hnone in Hsome. discriminate.
    + exfalso.
      destruct (render_followups_efeito s r clique bd)
        as [Hbd | (card & st & _ & _ & Hbd)]; rewrite Hbd in Hsome;
        [congruence |].
      destruct (atualizar_followup_efeito s r (fu_id (pe_followup card)) st
                  VNull bd) as (_ & [Hfu | (resp & Hfu)]);
        rewrite Hfu in Hsome; [congruence |].
      rewrite list_lookup_fmap, Hnone in Hsome. discriminate.
  - intros id st res u uid -> Hu Huid i f Hf Hid. simpl.
    rewrite atualizar_followup_run.
    unfold usuario_get, usuario_item. rewrite Hu, Huid. simpl.
    rewrite (Hmarca _ _ _ _ _ _ Hf). eexists. split; [reflexivity |].
    rewrite marcar_followup_status. apply Z.eqb_eq in Hid. now rewrite Hid.
Qed.

Lemma followup_transicoes_witness :
  exists f',
    followup (efeito Exemplo.sessao_admin Exemplo.relogio0
                (OpRenderFollowups (Some (BotaoRealizado, 2))) Exemplo.bd0)
      !! 1%nat = Some f'
    /\ fu_id f' = 2 /\ fu_status f' = "realizado".
Proof.
  destruct (proj1 (followup_transicoes Exemplo.sessao_admin Exemplo.relogio0
                     (OpRenderFollowups (Some (BotaoRealizado, 2))) Exemplo.bd0
                     eq_refl)
              1%nat
              (Followup 2 11 "mensagem" "pendente" (Some 739930) VNull VNull
                 (VText "Contato com Joao") VNull) eq_refl)
    as (f' & Hf' & Hid & _).
  exists f'. split; [exact Hf' |]. split; [exact Hid |].
  vm_compute in Hf'. now injection Hf' as <-.
Defined.

End EstadoFollowup.

(** ** The donation summary *)

Section ResumoFinanceiro.
Import Financeiro.
Context {V : Type} `{Numero V}.

(** The laws of exact addition. *)
Hypothesis soma_assoc : forall a b c : V, soma a (soma b c) = soma (soma a b) c.
Hypothesis soma_comm : forall a b : V, soma a b = soma b a.
Hypothesis soma_zero : forall a : V, soma zero a = a.

Lemma fold_left_soma (l : list V) : forall x,
  fold_left soma l x = soma x (somatorio l).
Proof.
  unfold somatorio. induction l as [| y l IH]; intros x; simpl.
  - now rewrite soma_comm, soma_zero.
  - now rewrite IH, soma_assoc.
Qed.

Lemma sql_sum_somatorio (l : list V) :
  sql_sum l = match l with [] => None | _ => Some (somatorio l) end.
Proof.
  destruct l as [| x l]; [reflexivity |]. simpl. now rewrite fold_left_soma.
Qed.

Lemma sql_sum_default (l : list V) : default zero (sql_sum l) = somatorio l.
Proof.
  rewrite sql_sum_somatorio. destruct l; reflexivity.
Qed.

Lemma somatorio_disjuntos (P Q : doacao V -> bool) (l : list (doacao V)) :
  (forall d, P d = true -> Q d = true -> False) ->
  soma (somatorio (map do_valor (List.filter P l)))
       (somatorio (map do_valor (List.filter Q l)))
  = somatorio (map do_valor (List.filter (fun d => P d || Q d) l)).
Proof.
  intros Hdisj. induction l as [| d l IH]; simpl; [apply soma_zero |].
  destruct (P d) eqn:HP, (Q d) eqn:HQ; simpl.
  - destruct (Hdisj d HP HQ).
  - unfold somatorio in *. simpl. now rewrite <- IH, soma_assoc.
  - unfold somatorio in *. simpl. rewrite <- IH.
    rewrite !soma_assoc. f_equal. apply soma_comm.
  - exact IH.
Qed.

Lemma somatorio_grupos (l : list (doacao V)) (ks : list string) :
  List.NoDup ks ->
  somatorio (map (fun t => somatorio (map do_valor
               (List.filter (fun d => String.eqb (do_tipo d) t) l))) ks)
  = somatorio (map do_valor (List.filter (fun d => contem (do_tipo d) ks) l)).
Proof.
  induction 1 as [| k ks Hk Hks IH]; simpl.
  - induction l as [| d l IHl]; [reflexivity | exact IHl].
  - change (somatorio (?x :: ?l)) with (soma x (somatorio l)).
    unfold somatorio at 1. simpl. fold (somatorio (map (fun t => somatorio (map do_valor
               (List.filter (fun d => String.eqb (do_tipo d) t) l))) ks)).
    rewrite IH. rewrite <- somatorio_disjuntos.
    + reflexivity.
    + intros d Heq Hin. apply String.eqb_eq in Heq. apply contem_In in Hin.
      congruence.
Qed.

Lemma In_distintos y l : In y (distintos l) <-> In y l.
Proof.
  induction l as [| x l IH]; simpl; [reflexivity |].
  rewrite filter_In, IH. destruct (String.eqb_spec x y) as [-> | Hne].
  - intuition congruence.
  - simpl. intuition congruence.
Qed.

Lemma NoDup_distintos l : List.NoDup (distintos l).
Proof.
  induction l as [| x l IH]; simpl; constructor.
  - rewrite filter_In. intros [_ Hx]. now rewrite String.eqb_refl in Hx.
  - now apply List.NoDup_filter.
Qed.

Lemma filter_todos {A} (P : A -> bool) (l : list A) :
  (forall x, In x l -> P x = true) -> List.filter P l = l.
Proof.
  induction l as [| x l IH]; simpl; [reflexivity |]. intros Hall.
  rewrite (Hall x) by now left. f_equal. apply IH. auto.
Qed.

Lemma filter_filter {A} (P Q : A -> bool) (l : list A) :
  List.filter Q (List.filter P l) = List.filter (fun x => P x && Q x) l.
Proof.
  induction l as [| x l IH]; simpl; [reflexivity |].
  destruct (P x); simpl; [destruct (Q x) |]; now rewrite IH.
Qed.

Lemma dict_get_map {A} (f : string -> A) (ks : list string) t :
  dict_get (map (fun k => (k, f k)) ks) t
  = if contem t ks then Some (f t) else None.
Proof.
  unfold contem. induction ks as [| k ks IH]; simpl; [reflexivity |].
  rewrite (String.eqb_sym t k).
  destruct (String.eqb_spec k t) as [-> | _]; [reflexivity | exact IH].
Qed.


End ResumoFinanceiro.


(** ** The counselling notes *)

Section NotasCifradas.
Import Cripto Aconselhamento.
Context `{Biblioteca} (SECRET_KEY : string).

(** What the code relies on from Fernet: decrypting a token under the key
    that made it gives the message back, and a token is never empty. *)
Hypothesis fernet_volta : forall k sorte m,
  fernet_decrypt k (fernet_encrypt k sorte m) = Some m.
Hypothesis fernet_token : forall k sorte m, fernet_encrypt k sorte m <> "".

Lemma decrypt_encrypt sorte x :
  decrypt_data SECRET_KEY (encrypt_data SECRET_KEY sorte x) = x.
Proof.
  unfold decrypt_data, encrypt_data.
  destruct (String.eqb_spec x "") as [-> | Hx]; [reflexivity |].
  destruct (String.eqb_spec (fernet_encrypt (get_encryption_key SECRET_KEY)
                               sorte x) "") as [He | _].
  - now apply fernet_token in He.
  - now rewrite fernet_volta.
Qed.

Lemma registrar_aconselhamento_run s sorte_r sorte_n dados ocupado bd :
  registrar_aconselhamento SECRET_KEY s sorte_r sorte_n dados ocupado bd =
    match cifrar_campo SECRET_KEY sorte_r (coluna dados "resumo") with
    | Erro e => (Erro e, bd)
    | Ok resumo_cripto =>
    match cifrar_campo SECRET_KEY sorte_n (coluna dados "notas") with
    | Erro e => (Erro e, bd)
    | Ok notas_cripto =>
    match item dados "pessoa_id" with
    | Erro e => (Erro e, bd)
    | Ok pessoa_id =>
    match item dados "conselheiro_id" with
    | Erro e => (Erro e, bd)
    | Ok conselheiro_id =>
    match item dados "data_atendimento" with
    | Erro e => (Erro e, bd)
    | Ok data_atendimento =>
        let n := proximo_id (map ac_id (aconselhamentos bd))
                   (seq_aconselhamentos (sqlite_sequence bd)) in
        let a := Aconselhamento n (igreja_id s) pessoa_id conselheiro_id
                   data_atendimento (coluna dados "tipo") resumo_cripto
                   notas_cripto
                   (default (VText "em_andamento") (dados !! "status"))
                   (coluna dados "proximo_encontro") in
        if ocupado then (Erro OperationalError, bd)
        else if aconselhamento_recusado a then (Erro IntegrityError, bd)
        else
          match usuario_item s "id" with
          | Erro e => (Erro e, bd)
          | Ok uid => (Ok n, inserir_aconselhamento a bd)
          end
    end end end end end.
Proof.
  unfold registrar_aconselhamento, get_connection, bind, avaliar,
    insert_aconselhamento, escrever, chamar, ret.
  destruct (cifrar_campo SECRET_KEY sorte_r _); [| reflexivity].
  destruct (cifrar_campo SECRET_KEY sorte_n _); [| reflexivity].
  destruct (item dados "pessoa_id"); [| reflexivity].
  destruct (item dados "conselheiro_id"); [| reflexivity].
  destruct (item dados "data_atendimento"); [| reflexivity].
  cbv zeta. destruct ocupado; [reflexivity |].
  destruct (aconselhamento_recusado _); [reflexivity |].
  destruct (usuario_item s "id"); reflexivity.
Qed.

Lemma proximo_id_maior ids seq x : In x ids -> x < proximo_id ids seq.
Proof.
  unfold proximo_id. induction ids as [| y ids IH]; simpl; [intros [] |].
  intros [-> | Hin]; [lia |]. specialize (IH Hin). lia.
Qed.

Lemma flat_map_vazio {A B} (f : A -> list B) (l : list A) :
  (forall x, In x l -> f x = []) -> flat_map f l = [].
Proof.
  induction l as [| x l IH]; simpl; [reflexivity |]. intros Hall.
  rewrite (Hall x) by now left. apply IH. auto.
Qed.

(** The record a read finds for a fresh id is the one just stored for it. *)
Lemma buscar_registro_novo s a bd a' p c :
  (forall x, In x (aconselhamentos bd) -> ac_id x <> ac_id a) ->
  buscar_registro s (ac_id a) (inserir_aconselhamento a bd) = Some (a', p, c) ->
  a' = a.
Proof.
  intros Hfresco. unfold buscar_registro. simpl.
  rewrite flat_map_app, flat_map_vazio.
  - simpl. rewrite app_nil_r.
    destruct ((ac_id a =? ac_id a) && sql_eq (ac_igreja_id a) (igreja_id s));
      [| discriminate].
    intros Hhead.
    assert (Hin : In (a', p, c)
              (flat_map (fun p0 =>
                 if sql_eq (ac_pessoa_id a) (coluna p0 "id")
                 then omap (fun c0 =>
                        if sql_eq (ac_conselheiro_id a) (coluna c0 "id")
                        then Some (a, p0, c0) else None) (pessoas bd)
                 else []) (pessoas bd))).
    { destruct (flat_map _ (pessoas bd)) as [| x l]; [discriminate |].
      injection Hhead as ->. now left. }
    apply in_flat_map in Hin as (p0 & _ & Hin).
    destruct (sql_eq (ac_pessoa_id a) (coluna p0 "id")); [| destruct Hin].
    apply list_elem_of_In, list_elem_of_omap in Hin as (c0 & _ & Hc0).
    destruct (sql_eq (ac_conselheiro_id a) (coluna c0 "id")); [| discriminate].
    now injection Hc0.
  - intros x Hx. destruct (Z.eqb_spec (ac_id x) (ac_id a)) as [Heq | _];
      [now apply Hfresco in Heq | reflexivity].
Qed.

Lemma buscar_registro_existe s a bd p c :
  sql_eq (ac_igreja_id a) (igreja_id s) = true ->
  In p (pessoas bd) -> sql_eq (ac_pessoa_id a) (coluna p "id") = true ->
  In c (pessoas bd) -> sql_eq (ac_conselheiro_id a) (coluna c "id") = true ->
  (forall x, In x (aconselhamentos bd) -> ac_id x <> ac_id a) ->
  exists p' c',
    buscar_registro s (ac_id a) (inserir_aconselhamento a bd) = Some (a, p', c').
Proof.
  intros Hig Hp Hpid Hc Hcid Hfresco.
  destruct (buscar_registro s (ac_id a) (inserir_aconselhamento a bd))
    as [[[a' p'] c'] |] eqn:Hb.
  - apply buscar_registro_novo in Hb as Ha; [| exact Hfresco]. subst. eauto.
  - exfalso. unfold buscar_registro in Hb. simpl in Hb.
    rewrite flat_map_app, flat_map_vazio in Hb.
    + simpl in Hb. rewrite app_nil_r, Z.eqb_refl, Hig in Hb. simpl in Hb.
      assert (Hin : In (a, p, c)
                (flat_map (fun p0 =>
                   if sql_eq (ac_pessoa_id a) (coluna p0 "id")
                   then omap (fun c0 =>
                          if sql_eq (ac_conselheiro_id a) (coluna c0 "id")
                          then Some (a, p0, c0) else None) (pessoas bd)
                   else []) (pessoas bd))).
      { apply in_flat_map. exists p. split; [exact Hp |]. rewrite Hpid.
        apply list_elem_of_In, list_elem_of_omap. exists c.
        split; [now apply list_elem_of_In | now rewrite Hcid]. }
      destruct (flat_map _ (pessoas bd)); [destruct Hin | discriminate].
    + intros x Hx. destruct (Z.eqb_spec (ac_id x) (ac_id a)) as [Heq | _];
        [now apply Hfresco in Heq | reflexivity].
Qed.

Lemma get_aconselhamento_detalhes_run s id ocupado bd :
  get_aconselhamento_detalhes SECRET_KEY s id ocupado bd =
    match buscar_registro s id bd with
    | None => (Ok None, bd)
    | Some (a, p, c) =>
        match usuario_item s "perfil" with
        | Erro e => (Erro e, bd)
        | Ok perfil =>
            match usuario_get s "pessoa_id" with
            | Erro e => (Erro e, bd)
            | Ok pessoa_do_usuario =>
                if bool_decide (perfil = VText "LIDER")
                   && negb (bool_decide (ac_conselheiro_id a = pessoa_do_usuario))
                then (Ok None, bd)
                else
                  match usuario_item s "id" with
                  | Erro e => (Erro e, bd)
                  | Ok uid =>
                      (Ok (Some (Detalhes a (coluna p "nome") (coluna c "nome")
                                   (decifrar_campo SECRET_KEY
                                      (ac_resumo_criptografado a))
                                   (decifrar_campo SECRET_KEY
                                      (ac_notas_criptografadas a)))),
                       if ocupado then bd
                       else inserir_log uid (igreja_id s)
                              "aconselhamento.visualizar"
                              ("Acesso ao aconselhamento " ++ pretty id) bd)
                  end
            end
        end
    end.
Proof.
  unfold get_aconselhamento_detalhes, get_connection, bind, consultar, avaliar,
    chamar, ret. cbn [visivel].
  destruct (buscar_registro s id bd) as [[[a p] c] |]; [| reflexivity].
  destruct (usuario_item s "perfil"); [| reflexivity].
  destruct (usuario_get s "pessoa_id"); [| reflexivity].
  destruct (bool_decide _ && _); [reflexivity |].
  destruct (usuario_item s "id"); [| reflexivity].
  rewrite registrar_log_run. reflexivity.
Qed.

Lemma cifrar_campo_texto sorte t :
  t <> "" ->
  cifrar_campo SECRET_KEY sorte (VText t)
  = Ok (VText (encrypt_data SECRET_KEY sorte t)).
Proof.
  intros Ht. unfold cifrar_campo, verdadeiro.
  now destruct (String.eqb_spec t "").
Qed.

Lemma cifrar_campo_forma sorte v w :
  cifrar_campo SECRET_KEY sorte v = Ok w -> cifrado_ou_nulo SECRET_KEY w.
Proof.
  unfold cifrar_campo, cifrado_ou_nulo.
  destruct (verdadeiro v) eqn:Hv; [| intros [= <-]; now left].
  destruct v as [| n | t]; try discriminate. intros [= <-]. right.
  exists sorte, t. split; [| reflexivity].
  intros ->. discriminate.
Qed.

Lemma decifrar_campo_cifrado sorte t :
  t <> "" ->
  decifrar_campo SECRET_KEY (VText (encrypt_data SECRET_KEY sorte t))
  = Some (VText t).
Proof.
  intros Ht. unfold decifrar_campo, verdadeiro.
  destruct (String.eqb_spec (encrypt_data SECRET_KEY sorte t) "") as [He | _].
  - exfalso. unfold encrypt_data in He.
    destruct (String.eqb_spec t ""); [contradiction |].
    now apply fernet_token in He.
  - simpl. now rewrite decrypt_encrypt.
Qed.


End NotasCifradas.


(** * Further properties *)

(** ** Lists, sorting and SQL comparison *)

Lemma sql_eq_refl v : v <> VNull -> sql_eq v v = true.
Proof.
  destruct v; [contradiction | intros _; apply Z.eqb_refl
               | intros _; apply String.eqb_refl].
Qed.

Lemma sql_eq_igual a b : sql_eq a b = true -> a = b /\ a <> VNull.
Proof.
  destruct a, b; simpl; try discriminate.
  - intros Heq%Z.eqb_eq. now subst.
  - intros Heq%String.eqb_eq. now subst.
Qed.

Lemma existsb_filter {A} (f g : A -> bool) (l : list A) :
  existsb f (List.filter g l) = existsb (fun x => g x && f x) l.
Proof.
  induction l as [| x l IH]; simpl; [reflexivity |].
  destruct (g x); simpl; now rewrite IH.
Qed.

Lemma existsb_map {A B} (f : B -> bool) (g : A -> B) (l : list A) :
  existsb f (map g l) = existsb (fun x => f (g x)) l.
Proof. induction l as [| x l IH]; simpl; [reflexivity | now rewrite IH]. Qed.

Lemma existsb_ext_in {A} (f g : A -> bool) (l : list A) :
  (forall x, In x l -> f x = g x) -> existsb f l = existsb g l.
Proof.
  induction l as [| x l IH]; simpl; [reflexivity |]. intros Hfg.
  rewrite (Hfg x) by now left. f_equal. apply IH. auto.
Qed.

Lemma filter_nenhum {A} (P : A -> bool) (l : list A) :
  (forall x, In x l -> P x = false) -> List.filter P l = [].
Proof.
  induction l as [| x l IH]; simpl; [reflexivity |]. intros Hall.
  rewrite (Hall x) by now left. apply IH. auto.
Qed.

Lemma filter_map_comuta {A} (P : A -> bool) (g : A -> A) (l : list A) :
  (forall x, P (g x) = P x) ->
  List.filter P (map g l) = map g (List.filter P l).
Proof.
  intros HP. induction l as [| x l IH]; simpl; [reflexivity |].
  rewrite HP. destruct (P x); simpl; now rewrite IH.
Qed.

Lemma find_app_novo {A} (t : A -> bool) (l : list A) (x : A) :
  (forall y, In y l -> t y = false) -> t x = true ->
  List.find t (l ++ [x]) = Some x.
Proof.
  intros Hl Hx. induction l as [| y l IH]; simpl; [now rewrite Hx |].
  rewrite (Hl y) by now left. apply IH. intros z Hz. apply Hl. now right.
Qed.

Lemma head_In {A} (l : list A) x : head l = Some x -> In x l.
Proof. destruct l; [discriminate | intros [= ->]; now left]. Qed.

Lemma In_head {A} (l : list A) x : In x l -> exists y, head l = Some y.
Proof. destruct l; [intros [] | eauto]. Qed.

Section OrdenarMais.
Context {A : Type} (leb : A -> A -> bool).

Lemma inserir_ordenado_perm x l : Permutation (inserir_ordenado leb x l) (x :: l).
Proof.
  induction l as [| y l IH]; simpl; [reflexivity |].
  destruct (leb x y); [reflexivity |].
  rewrite IH. apply perm_swap.
Qed.

Lemma ordenar_perm l : Permutation (ordenar leb l) l.
Proof.
  induction l as [| x l IH]; [reflexivity |].
  unfold ordenar in *. simpl. rewrite inserir_ordenado_perm. now constructor.
Qed.

Hypothesis leb_total : forall a b, leb a b = true \/ leb b a = true.
Hypothesis leb_trans :
  forall a b c, leb a b = true -> leb b c = true -> leb a c = true.

Lemma inserir_ordenado_ordenada x l :
  StronglySorted (fun a b => leb a b = true) l ->
  StronglySorted (fun a b => leb a b = true) (inserir_ordenado leb x l).
Proof.
  induction 1 as [| y l Hl IH Hy]; simpl.
  - repeat constructor.
  - destruct (leb x y) eqn:Hxy.
    + constructor; [now constructor |].
      constructor; [exact Hxy |].
      eapply List.Forall_impl; [| exact Hy]. intros z Hz. eauto.
    + constructor; [exact IH |].
      apply List.Forall_forall. intros z Hz.
      apply In_inserir_ordenado in Hz as [-> | Hz].
      * destruct (leb_total x y); congruence.
      * rewrite List.Forall_forall in Hy. auto.
Qed.

Lemma ordenar_ordenada l :
  StronglySorted (fun a b => leb a b = true) (ordenar leb l).
Proof.
  induction l as [| x l IH]; [constructor |].
  apply inserir_ordenado_ordenada, IH.
Qed.
End OrdenarMais.

Lemma StronglySorted_map {A B} (R : B -> B -> Prop) (f : A -> B) (l : list A) :
  StronglySorted (fun a b => R (f a) (f b)) l -> StronglySorted R (map f l).
Proof.
  induction 1 as [| x l Hl IH Hx]; simpl; constructor; [exact IH |].
  apply List.Forall_forall. intros y Hy.
  apply in_map_iff in Hy as (z & <- & Hz).
  rewrite List.Forall_forall in Hx. auto.
Qed.

Lemma StronglySorted_mono {A} (R S : A -> A -> Prop) (l : list A) :
  (forall a b, R a b -> S a b) -> StronglySorted R l -> StronglySorted S l.
Proof.
  intros HRS. induction 1 as [| x l Hl IH Hx]; constructor; [exact IH |].
  eapply List.Forall_impl; [| exact Hx]. auto.
Qed.

Lemma valor_leb_total a b : valor_leb a b = true \/ valor_leb b a = true.
Proof.
  destruct a as [| x | x], b as [| y | y]; simpl; auto.
  - destruct (Z.leb_spec x y); [now left | right; apply Z.leb_le; lia].
  - apply String.leb_total.
Qed.

Lemma string_leb_trans x y z :
  String.leb x y = true -> String.leb y z = true -> String.leb x z = true.
Proof.
  intros Hxy Hyz. apply Is_true_true.
  apply Is_true_true in Hxy, Hyz.
  exact (PreOrder_Transitive (R := String.le) x y z Hxy Hyz).
Qed.

Lemma valor_leb_trans a b c :
  valor_leb a b = true -> valor_leb b c = true -> valor_leb a c = true.
Proof.
  destruct a as [| x | x], b as [| y | y], c as [| z | z]; simpl;
    try congruence.
  - rewrite !Z.leb_le. lia.
  - apply string_leb_trans.
Qed.

Lemma texto_app_assoc (a b c : string) : (a ++ b) ++ c = a ++ (b ++ c).
Proof.
  induction a as [| x a IH]; [reflexivity |].
  change (String x ((a ++ b) ++ c) = String x (a ++ (b ++ c))). now rewrite IH.
Qed.

Lemma texto_app_inv_l (a b c : string) : a ++ b = a ++ c -> b = c.
Proof.
  induction a as [| x a IH]; [auto |].
  change (String x (a ++ b) = String x (a ++ c) -> b = c).
  intros [= Heq]. auto.
Qed.

(** ** More on the permission check *)

Section PermissoesMais.
Import Settings Auth Exemplo.

Lemma contem_startswith p perms :
  contem p perms = true ->
  existsb (fun e => startswith e (primeiro_segmento p)) perms = true.
Proof.
  intros Hin. apply contem_In in Hin. apply existsb_exists.
  exists p. split; [exact Hin | apply primeiro_segmento_prefixo].
Qed.

(** The three tests together look at the first dot-segment only. *)
Lemma testes_por_segmento p perms :
  (if contem "*" perms then true
   else if contem p perms then true
   else existsb (fun e => startswith e (primeiro_segmento p)) perms)
  = contem "*" perms
    || existsb (fun e => startswith e (primeiro_segmento p)) perms.
Proof.
  destruct (contem "*" perms); [reflexivity |].
  destruct (contem p perms) eqn:Hp; [| reflexivity].
  now rewrite contem_startswith.
Qed.

(** X1: [tem_permissao] decides by the first dot-segment of the permission
    asked for: two permissions with the same first segment get the same
    answer for every user, so the action after the dot is never checked. *)
Theorem tem_permissao_so_primeiro_segmento u p q
    (Hseg : primeiro_segmento p = primeiro_segmento q) :
  tem_permissao u p = tem_permissao u q.
Proof.
  unfold tem_permissao. destruct u as [m |]; [| reflexivity].
  destruct (decide (m = ∅)); [reflexivity |].
  destruct (perfil_de _) as [pf |]; [| reflexivity].
  cbv zeta. now rewrite !testes_por_segmento, Hseg.
Qed.

Lemma tem_permissao_so_primeiro_segmento_witness :
  tem_permissao (Some financeiro) "doacoes.ver" = true
  /\ tem_permissao (Some financeiro) "doacoes.estornar" = true.
Proof.
  rewrite <- (tem_permissao_so_primeiro_segmento (Some financeiro)
                "doacoes.ver" "doacoes.estornar" eq_refl).
  split; reflexivity.
Defined.

(** X2: access is granted only to a user whose dict has, under 'perfil', one
    of the five profile names as a text, in this exact spelling; no user,
    an empty dict, a missing, non-text or unknown profile is denied every
    permission. *)
Theorem tem_permissao_exige_perfil u p
    (Hsim : tem_permissao u p = true) :
  exists (m : linha) n,
    u = Some m /\ m !! "perfil" = Some (VText n)
    /\ In n ["ADMIN"; "PASTOR"; "LIDER"; "SECRETARIA"; "FINANCEIRO"].
Proof.
  unfold tem_permissao in Hsim. destruct u as [m |]; [| discriminate].
  destruct (decide (m = ∅)) as [_ | _]; [discriminate |].
  destruct (m !! "perfil") as [v |] eqn:Hv; [| discriminate].
  simpl in Hsim. destruct v as [| z | n]; try discriminate.
  exists m, n. split; [reflexivity |]. split; [exact Hv |].
  unfold perfil_de in Hsim.
  destruct (dict_get PERFIS n) as [pf |] eqn:Hpf; [| discriminate].
  clear Hsim. unfold PERFIS in Hpf. cbn [dict_get] in Hpf.
  repeat match type of Hpf with
         | (if String.eqb ?a n then _ else _) = _ =>
             destruct (String.eqb_spec a n) as [<- | _]; [simpl; tauto |]
         end.
  discriminate.
Qed.

Lemma tem_permissao_exige_perfil_witness :
  exists (m : linha) n,
    Some lider = Some m /\ m !! "perfil" = Some (VText n)
    /\ In n ["ADMIN"; "PASTOR"; "LIDER"; "SECRETARIA"; "FINANCEIRO"].
Proof.
  apply (tem_permissao_exige_perfil (Some lider) "pessoas.ver").
  reflexivity.
Defined.

Lemma perfis_com_permissoes n pf :
  dict_get PERFIS n = Some pf -> permissoes pf <> [].
Proof.
  unfold PERFIS. cbn [dict_get].
  repeat match goal with
         | |- (if String.eqb ?a n then _ else _) = _ -> _ =>
             destruct (String.eqb a n); [intros [= <-]; discriminate |]
         end.
  discriminate.
Qed.

(** X3: a permission whose first dot-segment is empty -- the empty text, or
    any text that starts with a dot -- is granted to every user with a
    profile of the table, since every entry starts with the empty text. *)
Theorem tem_permissao_segmento_vazio (m : linha) n pf resto
    (Hm : m !! "perfil" = Some (VText n))
    (Hpf : dict_get PERFIS n = Some pf) :
  tem_permissao (Some m) "" = true
  /\ tem_permissao (Some m) ("." ++ resto) = true.
Proof.
  assert (Hex : existsb (fun e => startswith e "") (permissoes pf) = true).
  { pose proof (perfis_com_permissoes n pf Hpf) as Hne.
    destruct (permissoes pf) as [| e l]; [contradiction |].
    simpl. unfold startswith. now destruct e. }
  split; rewrite (tem_permissao_perfil m n pf _ Hm Hpf); simpl;
    rewrite Hex; now rewrite !orb_true_r.
Qed.

Lemma tem_permissao_segmento_vazio_witness :
  tem_permissao (Some lider) "" = true
  /\ tem_permissao (Some lider) ".configuracoes.usuarios" = true.
Proof.
  exact (tem_permissao_segmento_vazio lider "LIDER" _ "configuracoes.usuarios"
           eq_refl eq_refl).
Defined.

End PermissoesMais.

(** ** Exceptions, rollback and the access log *)

Section Atomicidade.
Import Pessoas Visitantes Cripto Aconselhamento.
Context `{Biblioteca} (SECRET_KEY : string).

Lemma atualizar_aconselhamento_run s sr sn id dados ocupado bd :
  atualizar_aconselhamento SECRET_KEY s sr sn id dados ocupado bd =
    match cifrar_campo SECRET_KEY sr (coluna dados "resumo") with
    | Erro e => (Erro e, bd)
    | Ok resumo_cripto =>
    match cifrar_campo SECRET_KEY sn (coluna dados "notas") with
    | Erro e => (Erro e, bd)
    | Ok notas_cripto =>
        if ocupado then (Erro OperationalError, bd)
        else
          match usuario_item s "id" with
          | Erro e => (Erro e, bd)
          | Ok uid =>
              (Ok tt,
               MkBD (pessoas bd) (familias bd) (tags bd) (pessoa_tags bd)
                 (visitas bd) (followup bd) (fluxos_followup bd)
                 (map (fun a =>
                         if (ac_id a =? id)
                            && sql_eq (ac_igreja_id a) (igreja_id s)
                         then Aconselhamento (ac_id a) (ac_igreja_id a)
                                (ac_pessoa_id a) (ac_conselheiro_id a)
                                (ac_data_atendimento a) (coluna dados "tipo")
                                resumo_cripto notas_cripto
                                (coluna dados "status")
                                (coluna dados "proximo_encontro")
                         else a) (aconselhamentos bd))
                 (logs_acesso bd) (sqlite_sequence bd))
          end
    end end.
Proof.
  unfold atualizar_aconselhamento, get_connection, bind, avaliar, executar,
    escrever, chamar, ret.
  destruct (cifrar_campo SECRET_KEY sr _); [| reflexivity].
  destruct (cifrar_campo SECRET_KEY sn _); [| reflexivity].
  destruct ocupado; [reflexivity |]. cbn.
  destruct (usuario_item s "id"); reflexivity.
Qed.

(** X4: when [salvar_pessoa], [registrar_visita],
    [criar_followups_automaticos], [atualizar_followup],
    [registrar_aconselhamento] or [atualizar_aconselhamento] raises, the
    database is left exactly as it was before the call: the connection rolls
    back and no nested call has committed anything. *)
Theorem excecao_desfaz_tudo s r ocupado bd e :
  (forall dados,
     fst (salvar_pessoa s r dados ocupado bd) = Erro e ->
     snd (salvar_pessoa s r dados ocupado bd) = bd)
  /\ (forall pid ev tc cc,
        fst (registrar_visita s r pid ev tc cc ocupado bd) = Erro e ->
        snd (registrar_visita s r pid ev tc cc ocupado bd) = bd)
  /\ (forall pid,
        fst (criar_followups_automaticos s r pid ocupado bd) = Erro e ->
        snd (criar_followups_automaticos s r pid ocupado bd) = bd)
  /\ (forall id st res,
        fst (atualizar_followup s r id st res ocupado bd) = Erro e ->
        snd (atualizar_followup s r id st res ocupado bd) = bd)
  /\ (forall sr sn dados,
        fst (registrar_aconselhamento SECRET_KEY s sr sn dados ocupado bd)
        = Erro e ->
        snd (registrar_aconselhamento SECRET_KEY s sr sn dados ocupado bd) = bd)
  /\ (forall sr sn id dados,
        fst (atualizar_aconselhamento SECRET_KEY s sr sn id dados ocupado bd)
        = Erro e ->
        snd (atualizar_aconselhamento SECRET_KEY s sr sn id dados ocupado bd)
        = bd).
Proof.
  repeat split.
  - intros dados. rewrite salvar_pessoa_run. cbv zeta.
    destruct (verdadeiro _).
    + destruct (match List.filter _ dados with
                | [] => Erro OperationalError
                | _ => resolver_colunas _ end); [| reflexivity].
      destruct ocupado; [reflexivity |].
      destruct (update_recusado _ _ _ _); [reflexivity |].
      destruct (usuario_item s "id"); [discriminate | reflexivity].
    + destruct (resolver_colunas _) as [cols |]; [| reflexivity].
      destruct ocupado; [reflexivity |].
      destruct (linha_nova cols bd) as [n nova].
      destruct (linha_recusada COLUNAS nova || _); [reflexivity |].
      destruct (usuario_item s "id"); [discriminate | reflexivity].
  - intros pid ev tc cc. rewrite registrar_visita_run.
    destruct (usuario_get s "pessoa_id"); [| reflexivity].
    destruct ocupado; [reflexivity |].
    destruct (fst (criar_followups_automaticos s r pid true bd));
      [| reflexivity].
    destruct (usuario_item s "id"); [discriminate | reflexivity].
  - intros pid. rewrite criar_followups_automaticos_run. cbv zeta.
    destruct ocupado.
    + destruct (List.filter _ (fluxos_followup bd)) as [| fl fls];
        [reflexivity |].
      destruct (data_do_fluxo r fl); reflexivity.
    + destruct (inserir_todos r pid _ bd); [discriminate | reflexivity].
  - intros id st res. rewrite atualizar_followup_run.
    destruct (usuario_get s "pessoa_id"); [| reflexivity].
    destruct ocupado; [reflexivity |].
    destruct (usuario_item s "id"); [discriminate | reflexivity].
  - intros sr sn dados. rewrite registrar_aconselhamento_run.
    destruct (cifrar_campo SECRET_KEY sr _); [| reflexivity].
    destruct (cifrar_campo SECRET_KEY sn _); [| reflexivity].
    destruct (item dados "pessoa_id"); [| reflexivity].
    destruct (item dados "conselheiro_id"); [| reflexivity].
    destruct (item dados "data_atendimento"); [| reflexivity].
    cbv zeta. destruct ocupado; [reflexivity |].
    destruct (aconselhamento_recusado _); [reflexivity |].
    destruct (usuario_item s "id"); [discriminate | reflexivity].
  - intros sr sn id dados. rewrite atualizar_aconselhamento_run.
    destruct (cifrar_campo SECRET_KEY sr _); [| reflexivity].
    destruct (cifrar_campo SECRET_KEY sn _); [| reflexivity].
    destruct ocupado; [reflexivity |].
    destruct (usuario_item s "id"); [discriminate | reflexivity].
Qed.

(** X5: [salvar_pessoa], [excluir_pessoa], [registrar_visita],
    [atualizar_followup], [registrar_aconselhamento] and
    [atualizar_aconselhamento] never add a row to [logs_acesso], though each
    calls [registrar_log] after its write: the log's own connection cannot
    take the write lock while that write is pending, and [registrar_log]
    drops the failure. *)
Theorem escritas_sem_registro s r ocupado bd :
  (forall dados,
     logs_acesso (snd (salvar_pessoa s r dados ocupado bd)) = logs_acesso bd)
  /\ (forall pid,
        logs_acesso (snd (excluir_pessoa s r pid ocupado bd)) = logs_acesso bd)
  /\ (forall pid ev tc cc,
        logs_acesso (snd (registrar_visita s r pid ev tc cc ocupado bd))
        = logs_acesso bd)
  /\ (forall id st res,
        logs_acesso (snd (atualizar_followup s r id st res ocupado bd))
        = logs_acesso bd)
  /\ (forall sr sn dados,
        logs_acesso
          (snd (registrar_aconselhamento SECRET_KEY s sr sn dados ocupado bd))
        = logs_acesso bd)
  /\ (forall sr sn id dados,
        logs_acesso
          (snd (atualizar_aconselhamento SECRET_KEY s sr sn id dados ocupado bd))
        = logs_acesso bd).
Proof.
  repeat split.
  - intros dados. rewrite salvar_pessoa_run. cbv zeta.
    destruct (verdadeiro _).
    + destruct (match List.filter _ dados with
                | [] => Erro OperationalError
                | _ => resolver_colunas _ end); [| reflexivity].
      destruct ocupado; [reflexivity |].
      destruct (update_recusado _ _ _ _); [reflexivity |].
      destruct (usuario_item s "id"); reflexivity.
    + destruct (resolver_colunas _) as [cols |]; [| reflexivity].
      destruct ocupado; [reflexivity |].
      destruct (linha_nova cols bd) as [n nova].
      destruct (linha_recusada COLUNAS nova || _); [reflexivity |].
      destruct (usuario_item s "id"); reflexivity.
  - intros pid. rewrite excluir_pessoa_run.
    destruct (existsb _ (pessoas bd)); [| reflexivity].
    destruct ocupado; [reflexivity |].
    destruct (usuario_item s "id"); reflexivity.
  - intros pid ev tc cc. rewrite registrar_visita_run.
    destruct (usuario_get s "pessoa_id"); [| reflexivity].
    destruct ocupado; [reflexivity |].
    destruct (fst (criar_followups_automaticos s r pid true bd));
      [| reflexivity].
    destruct (usuario_item s "id"); reflexivity.
  - intros id st res. rewrite atualizar_followup_run.
    destruct (usuario_get s "pessoa_id"); [| reflexivity].
    destruct ocupado; [reflexivity |].
    destruct (usuario_item s "id"); reflexivity.
  - intros sr sn dados. rewrite registrar_aconselhamento_run.
    destruct (cifrar_campo SECRET_KEY sr _); [| reflexivity].
    destruct (cifrar_campo SECRET_KEY sn _); [| reflexivity].
    destruct (item dados "pessoa_id"); [| reflexivity].
    destruct (item dados "conselheiro_id"); [| reflexivity].
    destruct (item dados "data_atendimento"); [| reflexivity].
    cbv zeta. destruct ocupado; [reflexivity |].
    destruct (aconselhamento_recusado _); [reflexivity |].
    destruct (usuario_item s "id"); reflexivity.
  - intros sr sn id dados. rewrite atualizar_aconselhamento_run.
    destruct (cifrar_campo SECRET_KEY sr _); [| reflexivity].
    destruct (cifrar_campo SECRET_KEY sn _); [| reflexivity].
    destruct ocupado; [reflexivity |].
    destruct (usuario_item s "id"); reflexivity.
Qed.

End Atomicidade.

(** ** More on the people register *)

Section PessoasMais.
Import Pessoas Exemplo ExemploMais.

(** X6: [excluir_pessoa] never raises.  When it returns [False] the
    database is as it was; it returns [True] only when the write lock is
    free, a user is logged in and [pessoas] has a row of that id in the
    caller's church. *)
Theorem excluir_pessoa_nao_levanta s r pid ocupado bd :
  exists b,
    fst (excluir_pessoa s r pid ocupado bd) = Ok b
    /\ (b = false -> snd (excluir_pessoa s r pid ocupado bd) = bd)
    /\ (b = true ->
        ocupado = false /\ usuario s <> None
        /\ exists p, In p (pessoas bd)
                     /\ coluna p "id" = VInt pid
                     /\ sql_eq (coluna p "igreja_id") (igreja_id s) = true).
Proof.
  rewrite excluir_pessoa_run.
  destruct (existsb _ (pessoas bd)) eqn:Hex;
    [| exists false; repeat split; discriminate].
  destruct ocupado; [exists false; repeat split; discriminate |].
  destruct (usuario_item s "id") eqn:Hu;
    [| exists false; repeat split; discriminate].
  exists true. split; [reflexivity |]. split; [discriminate |].
  intros _. split; [reflexivity |]. split.
  - unfold usuario_item in Hu. now destruct (usuario s).
  - apply existsb_exists in Hex as (p & Hin & Halvo).
    exists p. split; [exact Hin |].
    unfold alvo in Halvo. apply andb_true_iff in Halvo as [Hid Hig].
    split; [| exact Hig].
    unfold sql_eq in Hid. destruct (coluna p "id"); try discriminate.
    apply Z.eqb_eq in Hid. now subst.
Qed.

Lemma alvo_outra_igreja pid ig p :
  sql_eq (coluna p "igreja_id") ig = false -> alvo pid ig p = false.
Proof. intros Hig. unfold alvo. rewrite Hig. apply andb_false_r. Qed.



Lemma resolver_coluna_COLUNAS k : In k COLUNAS -> resolver_coluna k = Some k.
Proof.
  revert k. apply List.Forall_forall. unfold COLUNAS.
  repeat (constructor; [vm_compute; reflexivity |]). constructor.
Qed.

Lemma resolver_colunas_COLUNAS (d : list (string * valor)) :
  List.Forall (fun '(k, _) => In k COLUNAS) d -> resolver_colunas d = Ok d.
Proof.
  induction 1 as [| [k v] d Hk _ IH]; simpl; [reflexivity |].
  now rewrite (resolver_coluna_COLUNAS k Hk), IH.
Qed.

Lemma dict_set_chaves {A} (P : string -> Prop) (d : list (string * A)) k v :
  P k -> List.Forall (fun '(k, _) => P k) d ->
  List.Forall (fun '(k, _) => P k) (dict_set d k v).
Proof.
  intros Hk. induction 1 as [| [k' v'] d Hk' Hd IH]; simpl.
  - repeat constructor. exact Hk.
  - destruct (String.eqb k' k); constructor; auto.
Qed.

Lemma dict_get_dict_set {A} (d : list (string * A)) k v k' :
  dict_get (dict_set d k v) k' = if String.eqb k k' then Some v else dict_get d k'.
Proof.
  induction d as [| [k0 v0] d IH]; simpl.
  - reflexivity.
  - destruct (String.eqb_spec k0 k) as [-> | Hne]; simpl.
    + now destruct (String.eqb k k').
    + rewrite IH. destruct (String.eqb_spec k0 k') as [-> | _]; [| reflexivity].
      destruct (String.eqb_spec k k'); [congruence | reflexivity].
Qed.

Lemma linha_de_colunas (P : linha) (cols : list (string * valor)) c :
  fold_right (fun '(k, x) r => <[k := x]> r) P cols !! c
  = match dict_get cols c with Some v => Some v | None => P !! c end.
Proof.
  induction cols as [| [k v] cols IH]; simpl; [reflexivity |].
  destruct (String.eqb_spec k c) as [-> | Hne].
  - apply lookup_insert_eq.
  - now rewrite lookup_insert_ne.
Qed.

(** An insert through [salvar_pessoa] whose keys are column names: the row
    it appends, with an id no earlier row has. *)
Lemma salvar_pessoa_linha_inserida s r dados bd n bd'
    (Hcols : List.Forall (fun '(k, _) => In k COLUNAS) dados)
    (Hnovo : verdadeiro (default VNull (dict_get dados "id")) = false)
    (Hrun : salvar_pessoa s r dados livre bd = (Ok (VInt n), bd')) :
  exists p : linha,
    bd' = inserir_pessoa n p bd
    /\ existsb (Z.eqb n) (map id_da_linha (pessoas bd)) = false
    /\ igreja_id s <> VNull
    /\ p !! "id" = Some (VInt n)
    /\ forall c, c <> "id" ->
         p !! c = match dict_get
                          (dict_set (dict_set dados "igreja_id" (igreja_id s))
                                    "data_cadastro" (VText (agora r))) c with
                  | Some v => Some v
                  | None => PADROES !! c
                  end.
Proof.
  rewrite salvar_pessoa_run in Hrun. cbv zeta in Hrun. rewrite Hnovo in Hrun.
  set (d2 := dict_set (dict_set dados "igreja_id" (igreja_id s))
                      "data_cadastro" (VText (agora r))) in *.
  assert (Hd2 : List.Forall (fun '(k, _) => In k COLUNAS) d2).
  { apply dict_set_chaves; [simpl; tauto |].
    apply dict_set_chaves; [simpl; tauto | exact Hcols]. }
  rewrite (resolver_colunas_COLUNAS d2 Hd2) in Hrun.
  destruct (linha_nova d2 bd) as [m nova] eqn:Hnova.
  destruct (linha_recusada COLUNAS nova) eqn:Hrec; [discriminate |].
  destruct (existsb (Z.eqb m) (map id_da_linha (pessoas bd))) eqn:Hfresh;
    [discriminate |].
  simpl in Hrun.
  destruct (usuario_item s "id") as [uid |]; [| discriminate].
  injection Hrun as Hm Hbd'. subst m.
  assert (Hget : forall c, c <> "id" ->
            nova !! c = match dict_get d2 c with
                        | Some v => Some v
                        | None => PADROES !! c
                        end).
  { intros c Hc. unfold linha_nova in Hnova.
    destruct (coluna _ "id"); injection Hnova as _ <-;
      rewrite ?lookup_insert_ne by congruence; apply linha_de_colunas. }
  assert (Hid : nova !! "id" = Some (VInt n)).
  { unfold linha_nova in Hnova.
    destruct (coluna _ "id") as [| z | t] eqn:Hc.
    - injection Hnova as <- <-. apply lookup_insert_eq.
    - injection Hnova as Hn <-. unfold id_da_linha in Hn. rewrite Hc in Hn.
      subst z. unfold coluna in Hc.
      destruct (fold_right _ PADROES d2 !! "id") as [w |]; [| discriminate].
      simpl in Hc. now subst w.
    - injection Hnova as _ <-.
      unfold linha_recusada in Hrec.
      assert (Hx : existsb
                (fun c => (String.eqb c "nome" || String.eqb c "igreja_id")
                          && bool_decide (coluna (fold_right
                               (fun '(k, x) r0 => <[k := x]> r0) PADROES d2) c
                             = VNull)
                          || String.eqb c "id"
                             && match coluna (fold_right
                                  (fun '(k, x) r0 => <[k := x]> r0) PADROES d2)
                                  "id" with
                                | VInt _ => false
                                | _ => true
                                end) COLUNAS = true); [| congruence].
      apply existsb_exists. exists "id". split; [simpl; tauto |].
      rewrite Hc. reflexivity. }
  assert (Hig : nova !! "igreja_id" = Some (igreja_id s)).
  { rewrite Hget by discriminate. unfold d2.
    rewrite !dict_get_dict_set. reflexivity. }
  exists nova. split; [now subst bd' |]. split; [exact Hfresh |].
  split; [| split; [exact Hid | exact Hget]].
  intros Hnull. unfold linha_recusada in Hrec.
  assert (Hx : existsb
            (fun c => (String.eqb c "nome" || String.eqb c "igreja_id")
                      && bool_decide (coluna nova c = VNull)
                      || String.eqb c "id"
                         && match coluna nova "id" with
                            | VInt _ => false
                            | _ => true
                            end) COLUNAS = true); [| congruence].
  apply existsb_exists. exists "igreja_id". split; [simpl; tauto |].
  assert (Hc : coluna nova "igreja_id" = VNull)
    by (unfold coluna; now rewrite Hig, Hnull).
  rewrite (bool_decide_eq_true_2 _ Hc). reflexivity.
Qed.

Lemma linha_antiga_outro_id n (q : linha) (l : list linha) :
  existsb (Z.eqb n) (map id_da_linha l) = false -> In q l ->
  sql_eq (coluna q "id") (VInt n) = false.
Proof.
  intros Hfresh Hq.
  destruct (sql_eq (coluna q "id") (VInt n)) eqn:Heq; [| reflexivity].
  exfalso. unfold sql_eq in Heq.
  destruct (coluna q "id") as [| z |] eqn:Hqid; try discriminate.
  apply Z.eqb_eq in Heq. subst z.
  assert (existsb (Z.eqb n) (map id_da_linha l) = true); [| congruence].
  apply existsb_exists. exists n. split; [| apply Z.eqb_refl].
  apply in_map_iff. exists q. split; [| exact Hq].
  unfold id_da_linha. now rewrite Hqid.
Qed.

(** X8: a person inserted through [salvar_pessoa] (keys that are column
    names, no id given) is found again by [get_pessoa] under the id
    returned: the row has that id, the caller's church whatever the data
    said, the registration time, every other value as it was given, and the
    defaults 'visitante' and active for a status and a flag not given. *)
Theorem salvar_pessoa_insere_e_encontra s r dados bd n bd'
    (Hcols : List.Forall (fun '(k, _) => In k COLUNAS) dados)
    (Hnovo : verdadeiro (default VNull (dict_get dados "id")) = false)
    (Hrun : salvar_pessoa s r dados livre bd = (Ok (VInt n), bd')) :
  exists p : linha,
    pessoas bd' = (pessoas bd ++ [p])%list
    /\ get_pessoa s n bd' = Some (<["familia_nome" := familia_nome bd' p]> p)
    /\ p !! "id" = Some (VInt n)
    /\ p !! "igreja_id" = Some (igreja_id s)
    /\ p !! "data_cadastro" = Some (VText (agora r))
    /\ (forall k v, dict_get dados k = Some v ->
          k <> "id" -> k <> "igreja_id" -> k <> "data_cadastro" ->
          p !! k = Some v)
    /\ (dict_get dados "status" = None -> p !! "status" = Some (VText "visitante"))
    /\ (dict_get dados "ativo" = None -> p !! "ativo" = Some (VInt 1)).
Proof.
  destruct (salvar_pessoa_linha_inserida s r dados bd n bd' Hcols Hnovo Hrun)
    as (p & -> & Hfresh & Hnn & Hid & Hget).
  assert (Hig : p !! "igreja_id" = Some (igreja_id s)).
  { rewrite Hget by discriminate. rewrite !dict_get_dict_set. reflexivity. }
  exists p. simpl. split; [reflexivity |]. split.
  { unfold get_pessoa. simpl. rewrite find_app_novo; [reflexivity | |].
    - intros q Hq. unfold alvo.
      now rewrite (linha_antiga_outro_id n q (pessoas bd) Hfresh Hq).
    - unfold alvo, coluna. rewrite Hid, Hig. simpl. rewrite Z.eqb_refl. simpl.
      now apply sql_eq_refl. }
  split; [exact Hid |]. split; [exact Hig |]. split.
  { rewrite Hget by discriminate. rewrite !dict_get_dict_set. reflexivity. }
  split.
  { intros k v Hk H1 H2 H3. rewrite (Hget k H1).
    rewrite !dict_get_dict_set.
    destruct (String.eqb_spec "data_cadastro" k); [congruence |].
    destruct (String.eqb_spec "igreja_id" k); [congruence |].
    now rewrite Hk. }
  split.
  - intros Hst. rewrite Hget by discriminate.
    rewrite !dict_get_dict_set. simpl. now rewrite Hst.
  - intros Hat. rewrite Hget by discriminate.
    rewrite !dict_get_dict_set. simpl. now rewrite Hat.
Qed.

Lemma salvar_pessoa_insere_e_encontra_witness :
  exists p : linha,
    get_pessoa sessao_admin 12
      (snd (salvar_pessoa sessao_admin relogio0
              [("nome", VText "Ana"); ("celular", VText "11988887777")]
              livre bd0))
    = Some p
    /\ coluna p "nome" = VText "Ana" /\ coluna p "status" = VText "visitante"
    /\ coluna p "igreja_id" = VInt 1.
Proof.
  destruct (salvar_pessoa sessao_admin relogio0
              [("nome", VText "Ana"); ("celular", VText "11988887777")]
              livre bd0) as [res bd'] eqn:Hrun.
  assert (Hres : res = Ok (VInt 12)).
  { pose proof (f_equal fst Hrun) as Hf. vm_compute in Hf. now symmetry. }
  subst res.
  destruct (salvar_pessoa_insere_e_encontra sessao_admin relogio0
              [("nome", VText "Ana"); ("celular", VText "11988887777")]
              bd0 12 bd')
    as (p & _ & Hget & _ & Hig & _ & Hdados & Hst & _).
  - repeat constructor; simpl; tauto.
  - reflexivity.
  - exact Hrun.
  - eexists. split; [exact Hget |]. unfold coluna.
    rewrite !lookup_insert_ne by discriminate.
    rewrite (Hdados "nome" (VText "Ana") eq_refl) by discriminate.
    rewrite (Hst eq_refl), Hig. auto.
Defined.

(** X12: [get_pessoas] lists its rows by name in ascending order (a missing
    name first, text byte by byte), whatever the filters; and without
    filters it has exactly one row for each person of the caller's church
    whose [ativo] is NULL or 1, however many tags the person has. *)
Theorem get_pessoas_uma_linha_por_pessoa s filtros bd :
  StronglySorted
    (fun a b => valor_leb (coluna a "nome") (coluna b "nome") = true)
    (get_pessoas s filtros bd)
  /\ Permutation
       (map (fun l => coluna l "id") (get_pessoas s None bd))
       (map (fun p => coluna p "id")
            (List.filter (ativa_na_igreja (igreja_id s)) (pessoas bd))).
Proof.
  split.
  - unfold get_pessoas. apply StronglySorted_map.
    eapply StronglySorted_mono;
      [| apply ordenar_ordenada;
         [intros a b; apply valor_leb_total
         | intros a b c; apply valor_leb_trans]].
    intros a b Hab. cbv beta in Hab |- *.
    now rewrite !coluna_insert_ne by discriminate.
  - unfold get_pessoas. rewrite map_map.
    erewrite map_ext;
      [| intros p; rewrite !coluna_insert_ne by discriminate; reflexivity].
    apply Permutation_map. rewrite ordenar_perm.
    erewrite filter_ext; [reflexivity |].
    intros p. cbv beta.
    assert (Hn : negb (Nat.eqb (length
                (List.filter (fun '(pt, _) => passa_filtros None p pt)
                             (juncao_tags bd p))) 0) = true).
    { unfold juncao_tags.
      destruct (List.filter _ (pessoa_tags bd)) as [| pt pts]; reflexivity. }
    now rewrite Hn, andb_true_r.
Qed.

End PessoasMais.

(** ** More on visits and follow-ups *)

Section VisitantesMais.
Import Pessoas Visitantes Exemplo ExemploMais.

(** X9: in a church with no active flow triggered by 'primeira_visita', a
    logged-in user's [registrar_visita] returns and appends exactly one row
    to [visitas]: the person id given (no check that such a person exists),
    today's date, the user's person as receptionist and a fresh id; people,
    follow-ups, counselling records and the access log are unchanged. *)
Theorem registrar_visita_sem_fluxos s r pid ev tc cc bd (u : linha) uid
    (Hu : usuario s = Some u) (Huid : u !! "id" = Some uid)
    (Hsem : List.filter (fluxo_ativo (igreja_id s)) (fluxos_followup bd) = []) :
  let bd' := snd (registrar_visita s r pid ev tc cc livre bd) in
  fst (registrar_visita s r pid ev tc cc livre bd) = Ok tt
  /\ (exists n,
        visitas bd' = (visitas bd ++
                       [Visita n pid ev (hoje r) tc cc (coluna u "pessoa_id")])%list
        /\ forall v, In v (visitas bd) -> vi_id v < n)
  /\ pessoas bd' = pessoas bd /\ followup bd' = followup bd
  /\ aconselhamentos bd' = aconselhamentos bd
  /\ logs_acesso bd' = logs_acesso bd.
Proof.
  cbv zeta. rewrite registrar_visita_run.
  unfold usuario_get, usuario_item. rewrite Hu, Huid.
  rewrite criar_followups_automaticos_run. cbv zeta. rewrite Hsem.
  cbn [fst snd]. split; [reflexivity |]. split; [| repeat split].
  eexists. split; [reflexivity |].
  intros v Hv. apply proximo_id_maior. now apply in_map.
Qed.

Lemma registrar_visita_sem_fluxos_witness :
  exists n,
    visitas (snd (registrar_visita sessao_admin relogio0 11 VNull
                    (VText "Culto Dominical") VNull livre bd_sem_fluxos))
    = [Visita n 11 VNull 739924 (VText "Culto Dominical") VNull (VInt 10)].
Proof.
  destruct (registrar_visita_sem_fluxos sessao_admin relogio0 11 VNull
              (VText "Culto Dominical") VNull bd_sem_fluxos admin (VInt 1)
              eq_refl eq_refl eq_refl) as (_ & (n & Hv & _) & _).
  exists n. rewrite Hv. reflexivity.
Defined.

(** X10: called with no write pending, [criar_followups_automaticos] is all
    or nothing: when every active flow has a usable day offset it appends
    one pending follow-up per flow, in order; when one flow has none (an
    empty or out-of-range offset) it raises and no follow-up is left, not
    even for the flows before it. *)
Theorem criar_followups_tudo_ou_nada s r pid bd :
  let fluxos := List.filter (fluxo_ativo (igreja_id s)) (fluxos_followup bd) in
  let res := fst (criar_followups_automaticos s r pid livre bd) in
  let bd' := snd (criar_followups_automaticos s r pid livre bd) in
  (List.Forall (fun fl => exists d, data_do_fluxo r fl = Ok d) fluxos ->
     res = Ok tt
     /\ exists novos, followup bd' = (followup bd ++ novos)%list
                      /\ Forall2 (criado_para r pid) fluxos novos)
  /\ (List.Exists (fun fl => exists e, data_do_fluxo r fl = Erro e) fluxos ->
        (exists e, res = Erro e) /\ bd' = bd).
Proof.
  cbv zeta. rewrite criar_followups_automaticos_run. cbv zeta.
  set (fluxos := List.filter (fluxo_ativo (igreja_id s)) (fluxos_followup bd)).
  split.
  - intros Hall.
    destruct (inserir_todos_sucesso r pid fluxos bd Hall) as (bd' & Hbd').
    rewrite Hbd'. split; [reflexivity |].
    now apply inserir_todos_quadro in Hbd' as (_ & _ & _ & _ & Hnovos).
  - intros Hex.
    assert (Hfalha : forall fls b,
              List.Exists (fun fl => exists e, data_do_fluxo r fl = Erro e) fls ->
              exists e, inserir_todos r pid fls b = Erro e).
    { clear. induction fls as [| fl fls IH]; intros b Hex.
      - inversion Hex.
      - simpl. destruct (data_do_fluxo r fl) as [d | e] eqn:Hd; [| eauto].
        apply IH. inversion Hex as [? ? (e & He) | ? ? Hresto]; subst;
          [congruence | exact Hresto]. }
    destruct (Hfalha fluxos bd Hex) as (e & ->). split; [eauto | reflexivity].
Qed.

Lemma criar_followups_tudo_ou_nada_witness :
  (exists novos,
     followup (snd (criar_followups_automaticos sessao_admin relogio0 11 livre
                      bd0))
     = (followup bd0 ++ novos)%list /\ length novos = 3%nat)
  /\ snd (criar_followups_automaticos sessao_admin relogio0 11 livre
            bd_fluxo_invalido) = bd_fluxo_invalido.
Proof.
  split.
  - destruct (proj1 (criar_followups_tudo_ou_nada sessao_admin relogio0 11 bd0))
      as (_ & novos & Hn & Hf).
    + repeat constructor; eexists; vm_compute; reflexivity.
    + exists novos. split; [exact Hn |].
      apply Forall2_length in Hf. now rewrite <- Hf.
  - apply (proj2 (criar_followups_tudo_ou_nada sessao_admin relogio0 11
                    bd_fluxo_invalido)).
    apply Exists_cons_tl, Exists_cons_hd. eexists. vm_compute. reflexivity.
Defined.

Lemma data_leb_total a b : data_leb a b = true \/ data_leb b a = true.
Proof.
  destruct a as [x |], b as [y |]; simpl; auto.
  destruct (Z.leb_spec x y); [now left | right; apply Z.leb_le; lia].
Qed.

Lemma data_leb_trans a b c :
  data_leb a b = true -> data_leb b c = true -> data_leb a c = true.
Proof.
  destruct a as [x |], b as [y |], c as [z |]; simpl; try congruence.
  rewrite !Z.leb_le. lia.
Qed.

(** X11: [get_followups_pendentes] lists exactly the follow-ups whose status
    is 'pendente' and whose person is a row of the caller's church, each
    with that person's name, mobile number and e-mail, in ascending order of
    due date, those without a date first. *)
Theorem get_followups_pendentes_lista s bd :
  (forall row, In row (get_followups_pendentes s bd) ->
     In (pe_followup row) (followup bd)
     /\ fu_status (pe_followup row) = "pendente"
     /\ exists p, In p (pessoas bd)
          /\ coluna p "id" = VInt (fu_pessoa_id (pe_followup row))
          /\ sql_eq (coluna p "igreja_id") (igreja_id s) = true
          /\ pe_pessoa_nome row = coluna p "nome"
          /\ pe_celular row = coluna p "celular"
          /\ pe_email row = coluna p "email")
  /\ (forall f p, In f (followup bd) -> fu_status f = "pendente" ->
        In p (pessoas bd) -> coluna p "id" = VInt (fu_pessoa_id f) ->
        sql_eq (coluna p "igreja_id") (igreja_id s) = true ->
        exists row, In row (get_followups_pendentes s bd)
                    /\ pe_followup row = f)
  /\ StronglySorted
       (fun a b => data_leb (fu_data_prevista (pe_followup a))
                            (fu_data_prevista (pe_followup b)) = true)
       (get_followups_pendentes s bd).
Proof.
  split; [| split].
  - intros row Hin. unfold get_followups_pendentes in Hin.
    apply In_ordenar in Hin.
    apply in_flat_map in Hin as (f & Hf & Hin).
    apply in_flat_map in Hin as (p & Hp & Hin).
    destruct (sql_eq (VInt (fu_pessoa_id f)) (coluna p "id")
              && sql_eq (coluna p "igreja_id") (igreja_id s)
              && String.eqb (fu_status f) "pendente") eqn:Hcond;
      [| destruct Hin].
    apply andb_true_iff in Hcond as [Hcond Hst].
    apply andb_true_iff in Hcond as [Hid Hig].
    apply String.eqb_eq in Hst.
    assert (Hrow : pe_followup row = f /\ pe_pessoa_nome row = coluna p "nome"
                   /\ pe_celular row = coluna p "celular"
                   /\ pe_email row = coluna p "email").
    { destruct (List.filter _ (pessoas bd)) as [| q qs].
      - destruct Hin as [<- | []]. auto.
      - apply in_map_iff in Hin as (q' & <- & _). auto. }
    destruct Hrow as (-> & Hn & Hc & He).
    split; [exact Hf |]. split; [exact Hst |].
    exists p. split; [exact Hp |]. split; [| auto].
    unfold sql_eq in Hid. destruct (coluna p "id"); try discriminate.
    apply Z.eqb_eq in Hid. now subst.
  - intros f p Hf Hst Hp Hid Hig.
    assert (Hex : exists row,
              In row (flat_map (fun p0 =>
                 if sql_eq (VInt (fu_pessoa_id f)) (coluna p0 "id")
                    && sql_eq (coluna p0 "igreja_id") (igreja_id s)
                    && String.eqb (fu_status f) "pendente"
                 then
                   match List.filter
                           (fun q => sql_eq (fu_responsavel_id f) (coluna q "id"))
                           (pessoas bd) with
                   | [] => [Pendente f (coluna p0 "nome") (coluna p0 "celular")
                                     (coluna p0 "email") VNull]
                   | qs => map (fun q => Pendente f (coluna p0 "nome")
                                           (coluna p0 "celular")
                                           (coluna p0 "email") (coluna q "nome"))
                               qs
                   end
                 else []) (pessoas bd))
              /\ pe_followup row = f).
    { assert (Hcond : sql_eq (VInt (fu_pessoa_id f)) (coluna p "id")
                      && sql_eq (coluna p "igreja_id") (igreja_id s)
                      && String.eqb (fu_status f) "pendente" = true).
      { rewrite Hid, Hig, Hst. simpl. now rewrite Z.eqb_refl. }
      destruct (List.filter
                  (fun q => sql_eq (fu_responsavel_id f) (coluna q "id"))
                  (pessoas bd)) as [| q qs] eqn:Hqs.
      - exists (Pendente f (coluna p "nome") (coluna p "celular")
                         (coluna p "email") VNull).
        split; [| reflexivity].
        apply in_flat_map. exists p. split; [exact Hp |].
        rewrite Hcond. now left.
      - exists (Pendente f (coluna p "nome") (coluna p "celular")
                         (coluna p "email") (coluna q "nome")).
        split; [| reflexivity].
        apply in_flat_map. exists p. split; [exact Hp |].
        rewrite Hcond. now left. }
    destruct Hex as (row & Hrow & Hpe).
    exists row. split; [| exact Hpe].
    unfold get_followups_pendentes. apply In_ordenar.
    apply in_flat_map. exists f. split; [exact Hf | exact Hrow].
  - unfold get_followups_pendentes. apply ordenar_ordenada.
    + intros a b. apply data_leb_total.
    + intros a b c. apply data_leb_trans.
Qed.

End VisitantesMais.

(** ** The date format *)

Section FormatoMais.
Import Formato.

Lemma split_sem sep s : ocorre sep s = false -> split sep s = [s].
Proof.
  induction s as [| c s IH]; simpl; [reflexivity |].
  intros Hoc. apply orb_false_iff in Hoc as [Hc Hs].
  rewrite Hc, (IH Hs). reflexivity.
Qed.

Lemma split_app sep a b :
  ocorre sep a = false ->
  split sep (a ++ String sep b) = a :: split sep b.
Proof.
  induction a as [| c a IH]; simpl.
  - intros _. now rewrite Ascii.eqb_refl.
  - intros Hoc. apply orb_false_iff in Hoc as [Hc Ha].
    rewrite Hc, (IH Ha). reflexivity.
Qed.

Lemma ocorre_app c a b : ocorre c (a ++ b) = ocorre c a || ocorre c b.
Proof.
  induction a as [| d a IH]; simpl; [reflexivity |].
  now rewrite IH, orb_assoc.
Qed.

Lemma split_partes sep s p :
  In p (split sep s) -> ocorre sep p = false.
Proof.
  revert p. induction s as [| c s IH]; simpl; intros p.
  - intros [<- | []]. reflexivity.
  - destruct (Ascii.eqb c sep) eqn:Hc.
    + intros [<- | Hin]; [reflexivity | auto].
    + destruct (split sep s) as [| q qs] eqn:Hq.
      * intros [<- | []]. simpl. now rewrite Hc.
      * intros [<- | Hin].
        -- simpl. rewrite Hc. apply IH. now left.
        -- apply IH. now right.
Qed.

(** X13: a text made of three parts joined by hyphens, none of them with a
    hyphen or a space, comes out as the third, the second and the first
    joined by slashes -- a date 'yyyy-mm-dd' as 'dd/mm/yyyy' -- and what
    follows a space after the third part (a time of day) is dropped. *)
Theorem formatar_data_br_iso a m d resto
    (Ha : ocorre "-" a = false /\ ocorre " " a = false)
    (Hm : ocorre "-" m = false /\ ocorre " " m = false)
    (Hd : ocorre "-" d = false /\ ocorre " " d = false) :
  formatar_data_br (VText (a ++ "-" ++ m ++ "-" ++ d))
  = d ++ "/" ++ m ++ "/" ++ a
  /\ formatar_data_br (VText (a ++ "-" ++ m ++ "-" ++ d ++ " " ++ resto))
     = d ++ "/" ++ m ++ "/" ++ a.
Proof.
  destruct Ha as [Ha1 Ha2], Hm as [Hm1 Hm2], Hd as [Hd1 Hd2].
  assert (Hpartes : split "-" (a ++ "-" ++ m ++ "-" ++ d) = [a; m; d]).
  { change ("-" ++ m ++ "-" ++ d) with (String "-" (m ++ String "-" d)).
    rewrite (split_app "-" a _ Ha1), (split_app "-" m _ Hm1).
    now rewrite (split_sem "-" d Hd1). }
  assert (Hesp : ocorre " " (a ++ "-" ++ m ++ "-" ++ d) = false).
  { rewrite !ocorre_app, Ha2, Hm2, Hd2. reflexivity. }
  assert (Hhif : forall x, ocorre "-" (a ++ "-" ++ x) = true).
  { intros x. rewrite ocorre_app. simpl. apply orb_true_r. }
  assert (Hne : forall x, String.eqb (a ++ "-" ++ x) "" = false).
  { intros x. destruct a; reflexivity. }
  split; unfold formatar_data_br.
  - rewrite Hne, Hhif, (split_sem " " _ Hesp). simpl hd. now rewrite Hpartes.
  - rewrite Hne, Hhif.
    replace (a ++ "-" ++ m ++ "-" ++ d ++ " " ++ resto)
      with ((a ++ "-" ++ m ++ "-" ++ d) ++ String " " resto).
    + rewrite (split_app " " _ _ Hesp). simpl hd. now rewrite Hpartes.
    + now rewrite !texto_app_assoc.
Qed.

Lemma formatar_data_br_iso_witness :
  formatar_data_br (VText "2026-11-04") = "04/11/2026"
  /\ formatar_data_br (VText "2026-11-04 10:00:00") = "04/11/2026".
Proof.
  exact (formatar_data_br_iso "2026" "11" "04" "10:00:00"
           (conj eq_refl eq_refl) (conj eq_refl eq_refl)
           (conj eq_refl eq_refl)).
Defined.

(** The result is the text given, or a text without a hyphen. *)
Lemma formatar_data_br_forma s :
  formatar_data_br (VText s) = s
  \/ ocorre "-" (formatar_data_br (VText s)) = false.
Proof.
  unfold formatar_data_br.
  destruct (String.eqb s "") eqn:Hs; [now right |].
  destruct (ocorre "-" s) eqn:Hoc; [| now left].
  destruct (split "-" (hd "" (split " " s))) as [| a [| m [| d [| x l]]]] eqn:Hp;
    try now left.
  right.
  assert (Hsem : forall p, In p [a; m; d] -> ocorre "-" p = false).
  { intros p Hin. apply (split_partes "-" (hd "" (split " " s))).
    now rewrite Hp. }
  rewrite !ocorre_app. simpl.
  rewrite (Hsem a), (Hsem m), (Hsem d) by (simpl; tauto). reflexivity.
Qed.

(** X14: formatting is idempotent on texts: a text that [formatar_data_br]
    has already formatted comes back unchanged when it is formatted again. *)
Theorem formatar_data_br_idempotente s :
  formatar_data_br (VText (formatar_data_br (VText s)))
  = formatar_data_br (VText s).
Proof.
  destruct (formatar_data_br_forma s) as [Heq | Hsem];
    [now rewrite !Heq |].
  generalize dependent (formatar_data_br (VText s)). intros f Hsem.
  unfold formatar_data_br. rewrite Hsem.
  destruct (String.eqb_spec f ""); congruence.
Qed.

End FormatoMais.

(** ** The duplicate check *)

Section DuplicadosMais.
Import Pessoas Duplicados Exemplo ExemploMais.

(** X15: the answer of [verificar_pessoa_duplicada] depends only on the
    rows of the caller's church whose [ativo] is NULL or 1: people of other
    churches and soft-deleted people never count as duplicates. *)
Theorem verificar_so_ativas_da_igreja s nome email celular pessoa_id bd :
  verificar_pessoa_duplicada s nome email celular pessoa_id bd
  = verificar_pessoa_duplicada s nome email celular pessoa_id
      (com_pessoas (List.filter (ativa_na_igreja (igreja_id s))) bd).
Proof.
  assert (Hex : forall crit,
            existe_outra (igreja_id s) pessoa_id crit
              (com_pessoas (List.filter (ativa_na_igreja (igreja_id s))) bd)
            = existe_outra (igreja_id s) pessoa_id crit bd).
  { intros crit. unfold existe_outra. simpl. rewrite existsb_filter.
    apply existsb_ext_in. intros p _.
    destruct (ativa_na_igreja (igreja_id s) p); reflexivity. }
  unfold verificar_pessoa_duplicada. now rewrite !Hex.
Qed.

Lemma ativa_marcar_inativa ig r p :
  ativa_na_igreja ig (marcar_inativa r p) = false.
Proof.
  unfold ativa_na_igreja, marcar_inativa.
  rewrite (coluna_insert_ne _ "data_atualizacao" "ativo") by discriminate.
  rewrite coluna_insert_eq. simpl. apply andb_false_r.
Qed.

Lemma existe_outra_excluida s r pid crit bd
    (Hcrit : forall p, crit (marcar_inativa r p) = crit p) :
  pid <> 0 ->
  List.Forall (fun p => coluna p "id" <> VNull) (pessoas bd) ->
  existe_outra (igreja_id s) None crit
    (com_pessoas (map (excluir_linha s r pid)) bd)
  = existe_outra (igreja_id s) (Some pid) crit bd.
Proof.
  intros Hpid Hids. unfold existe_outra. simpl. rewrite existsb_map.
  apply existsb_ext_in. intros p Hp.
  rewrite List.Forall_forall in Hids. specialize (Hids p Hp).
  apply Z.eqb_neq in Hpid. rewrite Hpid.
  unfold excluir_linha.
  destruct (alvo (VInt pid) (igreja_id s) p) eqn:Halvo.
  - rewrite ativa_marcar_inativa. simpl.
    unfold alvo in Halvo. apply andb_true_iff in Halvo as [Hid _].
    unfold sql_ne. destruct (coluna p "id"); try discriminate.
    rewrite Hid. simpl. now rewrite !andb_false_r.
  - rewrite andb_true_r.
    destruct (ativa_na_igreja (igreja_id s) p) eqn:Hat; [| reflexivity].
    simpl. unfold alvo in Halvo. unfold ativa_na_igreja in Hat.
    apply andb_true_iff in Hat as [Hig _]. rewrite Hig, andb_true_r in Halvo.
    unfold sql_ne. destruct (coluna p "id") eqn:Hc; [contradiction | |];
      rewrite Halvo; simpl; now rewrite andb_true_r.
Qed.

(** X16: a soft delete frees the person's name, e-mail and mobile number:
    after [excluir_pessoa] has succeeded for an id, the duplicate check for
    a new person answers as the check that set that id aside answered
    before the delete. *)
Theorem exclusao_libera_dados s r pid bd nome email celular
    (Hpid : pid <> 0)
    (Hids : List.Forall (fun p => coluna p "id" <> VNull) (pessoas bd))
    (Hexc : fst (excluir_pessoa s r pid livre bd) = Ok true) :
  verificar_pessoa_duplicada s nome email celular None
    (snd (excluir_pessoa s r pid livre bd))
  = verificar_pessoa_duplicada s nome email celular (Some pid) bd.
Proof.
  rewrite excluir_pessoa_run in Hexc |- *.
  destruct (existsb _ (pessoas bd)); [| discriminate].
  destruct (usuario_item s "id"); [| discriminate].
  cbn [snd]. unfold verificar_pessoa_duplicada.
  rewrite !(existe_outra_excluida s r pid _ bd); try assumption;
    try reflexivity;
    intros p; unfold marcar_inativa;
    now rewrite !coluna_insert_ne by discriminate.
Qed.

Lemma exclusao_libera_dados_witness :
  verificar_pessoa_duplicada sessao_admin "maria" None None None bd0 = true
  /\ verificar_pessoa_duplicada sessao_admin "maria" None None None
       (snd (excluir_pessoa sessao_admin relogio0 10 livre bd0)) = false.
Proof.
  split; [reflexivity |].
  rewrite (exclusao_libera_dados sessao_admin relogio0 10 bd0 "maria" None None).
  - reflexivity.
  - discriminate.
  - repeat constructor; discriminate.
  - reflexivity.
Defined.

Lemma esquerda_espacos n s :
  sem_espacos_a_esquerda (espacos n ++ s) = sem_espacos_a_esquerda s.
Proof. induction n as [| n IH]; [reflexivity | exact IH]. Qed.

Lemma direita_espacos_vazio n : sem_espacos_a_direita (espacos n) = "".
Proof.
  induction n as [| n IH]; [reflexivity |].
  simpl. now rewrite IH.
Qed.

Lemma direita_espacos s n :
  sem_espacos_a_direita (s ++ espacos n) = sem_espacos_a_direita s.
Proof.
  induction s as [| c s IH].
  - apply direita_espacos_vazio.
  - change (String c s ++ espacos n) with (String c (s ++ espacos n)).
    simpl. now rewrite IH.
Qed.

Lemma esquerda_app s t :
  sem_espacos_a_esquerda (s ++ t)
  = if String.eqb (sem_espacos_a_esquerda s) ""
    then sem_espacos_a_esquerda t
    else sem_espacos_a_esquerda s ++ t.
Proof.
  induction s as [| c s IH]; [reflexivity |].
  change (String c s ++ t) with (String c (s ++ t)). simpl.
  destruct (Ascii.eqb c " "); [exact IH | reflexivity].
Qed.

Lemma trim_espacos a s b : trim (espacos a ++ s ++ espacos b) = trim s.
Proof.
  unfold trim. rewrite esquerda_espacos, esquerda_app.
  destruct (String.eqb_spec (sem_espacos_a_esquerda s) "") as [He | _].
  - rewrite He. replace (espacos b) with (espacos b ++ "").
    + now rewrite esquerda_espacos.
    + clear. induction b as [| b IH]; [reflexivity |].
      change (String " " (espacos b ++ "") = String " " (espacos b)).
      now rewrite IH.
  - apply direita_espacos.
Qed.

Lemma minuscula_espaco c : Ascii.eqb (minuscula c) " " = Ascii.eqb c " ".
Proof.
  destruct c as [[] [] [] [] [] [] [] []]; reflexivity.
Qed.

Lemma minuscula_minuscula c : minuscula (minuscula c) = minuscula c.
Proof.
  destruct c as [[] [] [] [] [] [] [] []]; reflexivity.
Qed.

Lemma minusculas_minusculas s : minusculas (minusculas s) = minusculas s.
Proof.
  induction s as [| c s IH]; simpl; [reflexivity |].
  now rewrite minuscula_minuscula, IH.
Qed.

Lemma esquerda_minusculas s :
  sem_espacos_a_esquerda (minusculas s) = minusculas (sem_espacos_a_esquerda s).
Proof.
  induction s as [| c s IH]; simpl; [reflexivity |].
  rewrite minuscula_espaco. destruct (Ascii.eqb c " "); [exact IH | reflexivity].
Qed.

Lemma direita_minusculas s :
  sem_espacos_a_direita (minusculas s) = minusculas (sem_espacos_a_direita s).
Proof.
  induction s as [| c s IH]; simpl; [reflexivity |].
  rewrite IH, minuscula_espaco.
  destruct (sem_espacos_a_direita s); simpl; [| reflexivity].
  destruct (Ascii.eqb c " "); reflexivity.
Qed.

Lemma trim_minusculas s : trim (minusculas s) = minusculas (trim s).
Proof. unfold trim. now rewrite esquerda_minusculas, direita_minusculas. Qed.

(** X17: the name is compared without regard to the spaces around it and to
    the case of ASCII letters: spaces added before or after the name asked
    for, or its letters put in lower case, do not change the answer. *)
Theorem verificar_nome_normalizado s nome a b email celular pessoa_id bd :
  verificar_pessoa_duplicada s (espacos a ++ nome ++ espacos b) email celular
    pessoa_id bd
  = verificar_pessoa_duplicada s nome email celular pessoa_id bd
  /\ verificar_pessoa_duplicada s (minusculas nome) email celular pessoa_id bd
     = verificar_pessoa_duplicada s nome email celular pessoa_id bd.
Proof.
  unfold verificar_pessoa_duplicada, sql_lower, sql_trim. cbn [texto_de].
  now rewrite trim_espacos, trim_minusculas, minusculas_minusculas.
Qed.

(** X18: once [salvar_pessoa] has inserted a person with a name (and no
    [ativo] given), the duplicate check finds that name taken; and the check
    that sets the new id aside answers as the check for a new person
    answered before the insert, so the new row is all the insert added. *)
Theorem cadastro_passa_a_duplicado s r dados bd n bd' nome
    (Hcols : List.Forall (fun '(k, _) => In k COLUNAS) dados)
    (Hnovo : verdadeiro (default VNull (dict_get dados "id")) = false)
    (Hrun : salvar_pessoa s r dados livre bd = (Ok (VInt n), bd'))
    (Hnome : dict_get dados "nome" = Some (VText nome))
    (Hativo : dict_get dados "ativo" = None) :
  verificar_pessoa_duplicada s nome None None None bd' = true
  /\ (n <> 0 ->
      List.Forall (fun p => coluna p "id" <> VNull) (pessoas bd) ->
      forall outro email celular,
        verificar_pessoa_duplicada s outro email celular (Some n) bd'
        = verificar_pessoa_duplicada s outro email celular None bd).
Proof.
  destruct (salvar_pessoa_linha_inserida s r dados bd n bd' Hcols Hnovo Hrun)
    as (p & -> & Hfresh & Hnn & Hid & Hget).
  assert (Hig : coluna p "igreja_id" = igreja_id s).
  { unfold coluna. rewrite Hget by discriminate.
    rewrite !dict_get_dict_set. reflexivity. }
  assert (Hat : coluna p "ativo" = VInt 1).
  { unfold coluna. rewrite Hget by discriminate.
    rewrite !dict_get_dict_set. simpl. now rewrite Hativo. }
  assert (Hnm : coluna p "nome" = VText nome).
  { unfold coluna. rewrite Hget by discriminate.
    rewrite !dict_get_dict_set. simpl. now rewrite Hnome. }
  assert (Hativa : ativa_na_igreja (igreja_id s) p = true).
  { unfold ativa_na_igreja. rewrite Hig, Hat, (sql_eq_refl _ Hnn).
    reflexivity. }
  split.
  - unfold verificar_pessoa_duplicada.
    assert (Hex : existe_outra (igreja_id s) None
              (fun q => sql_eq (sql_lower (sql_trim (coluna q "nome")))
                               (sql_lower (sql_trim (VText nome))))
              (inserir_pessoa n p bd) = true); [| now rewrite Hex].
    unfold existe_outra. simpl. rewrite existsb_app. simpl.
    rewrite Hativa, Hnm. simpl. rewrite String.eqb_refl. simpl.
    apply orb_true_r.
  - intros Hn0 Hids outro email celular.
    assert (Hex : forall crit,
              existe_outra (igreja_id s) (Some n) crit (inserir_pessoa n p bd)
              = existe_outra (igreja_id s) None crit bd).
    { intros crit. unfold existe_outra. simpl. rewrite existsb_app. simpl.
      apply Z.eqb_neq in Hn0. rewrite Hn0.
      assert (Hnovo' : sql_ne (coluna p "id") (VInt n) = false).
      { unfold coluna. rewrite Hid. simpl. now rewrite Z.eqb_refl. }
      rewrite Hnovo', andb_false_r, !orb_false_r.
      apply existsb_ext_in. intros q Hq. rewrite andb_true_r.
      rewrite List.Forall_forall in Hids. specialize (Hids q Hq).
      pose proof (linha_antiga_outro_id n q (pessoas bd) Hfresh Hq) as Hne.
      unfold sql_ne. destruct (coluna q "id"); [contradiction | |];
        rewrite Hne; simpl; now rewrite andb_true_r. }
    unfold verificar_pessoa_duplicada. now rewrite !Hex.
Qed.

Lemma cadastro_passa_a_duplicado_witness :
  verificar_pessoa_duplicada sessao_admin "Ana" None None None bd0 = false
  /\ verificar_pessoa_duplicada sessao_admin "Ana" None None None
       (snd (salvar_pessoa sessao_admin relogio0
               [("nome", VText "Ana"); ("celular", VText "11988887777")]
               livre bd0)) = true.
Proof.
  split; [reflexivity |].
  destruct (salvar_pessoa sessao_admin relogio0
              [("nome", VText "Ana"); ("celular", VText "11988887777")]
              livre bd0) as [res bd'] eqn:Hrun.
  assert (Hres : res = Ok (VInt 12)).
  { pose proof (f_equal fst Hrun) as Hf. vm_compute in Hf. now symmetry. }
  subst res.
  apply (cadastro_passa_a_duplicado sessao_admin relogio0
           [("nome", VText "Ana"); ("celular", VText "11988887777")]
           bd0 12 bd' "Ana").
  - repeat constructor; simpl; tauto.
  - reflexivity.
  - exact Hrun.
  - reflexivity.
  - reflexivity.
Defined.

End DuplicadosMais.

(** ** The counselling lists *)

Section AtendimentosMais.
Import Pessoas Cripto Aconselhamento Atendimentos.
Context `{Biblioteca} (SECRET_KEY : string).

Lemma buscar_registro_In s id bd a p c :
  In (a, p, c)
     (flat_map (fun a =>
        if (ac_id a =? id) && sql_eq (ac_igreja_id a) (igreja_id s)
        then flat_map (fun p =>
               if sql_eq (ac_pessoa_id a) (coluna p "id")
               then omap (fun c =>
                      if sql_eq (ac_conselheiro_id a) (coluna c "id")
                      then Some (a, p, c) else None) (pessoas bd)
               else []) (pessoas bd)
        else []) (aconselhamentos bd))
  <-> In a (aconselhamentos bd) /\ ac_id a = id
      /\ sql_eq (ac_igreja_id a) (igreja_id s) = true
      /\ In p (pessoas bd) /\ sql_eq (ac_pessoa_id a) (coluna p "id") = true
      /\ In c (pessoas bd)
      /\ sql_eq (ac_conselheiro_id a) (coluna c "id") = true.
Proof.
  rewrite in_flat_map. split.
  - intros (a0 & Ha0 & Hin).
    destruct ((ac_id a0 =? id) && sql_eq (ac_igreja_id a0) (igreja_id s))
      eqn:Hcond; [| destruct Hin].
    apply andb_true_iff in Hcond as [Hid Hig]. apply Z.eqb_eq in Hid.
    apply in_flat_map in Hin as (p0 & Hp0 & Hin).
    destruct (sql_eq (ac_pessoa_id a0) (coluna p0 "id")) eqn:Hp; [| destruct Hin].
    apply list_elem_of_In, list_elem_of_omap in Hin as (c0 & Hc0 & Hsome).
    destruct (sql_eq (ac_conselheiro_id a0) (coluna c0 "id")) eqn:Hc;
      [| discriminate].
    injection Hsome as <- <- <-. apply list_elem_of_In in Hc0. auto 10.
  - intros (Ha & Hid & Hig & Hp & Hpe & Hc & Hce).
    exists a. split; [exact Ha |].
    apply Z.eqb_eq in Hid. rewrite Hid, Hig. simpl.
    apply in_flat_map. exists p. split; [exact Hp |]. rewrite Hpe.
    apply list_elem_of_In, list_elem_of_omap. exists c.
    split; [now apply list_elem_of_In | now rewrite Hce].
Qed.

Lemma linha_da_lista_id a p c :
  linha_da_lista a p c !! "id" = Some (VInt (ac_id a)).
Proof. reflexivity. Qed.

Lemma juncao_In bd a row :
  In row (juncao bd a) <->
  exists p c, In p (pessoas bd) /\ sql_eq (ac_pessoa_id a) (coluna p "id") = true
              /\ In c (pessoas bd)
              /\ sql_eq (ac_conselheiro_id a) (coluna c "id") = true
              /\ row = linha_da_lista a p c.
Proof.
  unfold juncao. rewrite in_flat_map. split.
  - intros (p & Hp & Hin).
    destruct (sql_eq (ac_pessoa_id a) (coluna p "id")) eqn:Hpe; [| destruct Hin].
    apply list_elem_of_In, list_elem_of_omap in Hin as (c & Hc & Hsome).
    destruct (sql_eq (ac_conselheiro_id a) (coluna c "id")) eqn:Hce;
      [| discriminate].
    injection Hsome as <-. apply list_elem_of_In in Hc. eauto 10.
  - intros (p & c & Hp & Hpe & Hc & Hce & ->).
    exists p. split; [exact Hp |]. rewrite Hpe.
    apply list_elem_of_In, list_elem_of_omap. exists c.
    split; [now apply list_elem_of_In | now rewrite Hce].
Qed.

(** X19: the list and the detail view agree on who may see a record: for a
    logged-in user and a table without repeated ids,
    [get_aconselhamento_detalhes] returns the record of an id exactly when
    the unfiltered [get_aconselhamentos] of the same user has a row of that
    id -- a LIDER gets the records they counsel, the other profiles those
    of the church. *)
Theorem lista_e_detalhes_concordam s (u : linha) perfil uid id ocupado bd
    (Hu : usuario s = Some u)
    (Hperfil : u !! "perfil" = Some perfil)
    (Huid : u !! "id" = Some uid)
    (Hpk : Pessoas.ids_repetidos (map ac_id (aconselhamentos bd)) = false) :
  (exists d bd2,
     get_aconselhamento_detalhes SECRET_KEY s id ocupado bd = (Ok (Some d), bd2))
  <-> (exists rows row,
         get_aconselhamentos s None bd = Ok rows
         /\ In row rows /\ row !! "id" = Some (VInt id)).
Proof.
  rewrite get_aconselhamento_detalhes_run.
  unfold get_aconselhamentos, usuario_item, usuario_get.
  rewrite Hu, Hperfil, Huid. cbn [from_option].
  set (do_lider := if bool_decide (perfil = VText "LIDER")
                   then Some (coluna u "pessoa_id") else None).
  assert (Hdl : (if bool_decide (perfil = VText "LIDER")
                 then Ok (Some (coluna u "pessoa_id")) else Ok None)
                = Ok do_lider).
  { unfold do_lider. now destruct (bool_decide _). }
  rewrite Hdl. clear Hdl.
  assert (Hacesso : forall a c,
            sql_eq (ac_conselheiro_id a) (coluna c "id") = true ->
            (bool_decide (perfil = VText "LIDER")
             && negb (bool_decide (ac_conselheiro_id a = coluna u "pessoa_id")))
            = negb (match do_lider with
                    | Some pid => sql_eq (ac_conselheiro_id a) pid
                    | None => true
                    end)).
  { intros a c Hce. unfold do_lider.
    destruct (bool_decide (perfil = VText "LIDER")); [| reflexivity].
    simpl. f_equal. apply sql_eq_igual in Hce as [_ Hnn].
    destruct (decide (ac_conselheiro_id a = coluna u "pessoa_id")) as [Heq | Hne].
    - rewrite (bool_decide_eq_true_2 _ Heq), <- Heq.
      symmetry. now apply sql_eq_refl.
    - rewrite (bool_decide_eq_false_2 _ Hne).
      destruct (sql_eq (ac_conselheiro_id a) (coluna u "pessoa_id")) eqn:Hs;
        [| reflexivity].
      apply sql_eq_igual in Hs as [Heq _]. contradiction. }
  split.
  - intros (d & bd2 & Hrun).
    destruct (buscar_registro s id bd) as [[[a p] c] |] eqn:Hb; [| discriminate].
    unfold buscar_registro in Hb. apply head_In in Hb.
    apply buscar_registro_In in Hb as (Ha & Hid & Hig & Hp & Hpe & Hc & Hce).
    rewrite (Hacesso a c Hce) in Hrun.
    destruct (match do_lider with
              | Some pid => sql_eq (ac_conselheiro_id a) pid
              | None => true
              end) eqn:Hl; [| discriminate].
    eexists _, (linha_da_lista a p c). split; [reflexivity |].
    split; [| now rewrite linha_da_lista_id, Hid].
    apply In_ordenar, in_flat_map. exists a. split; [exact Ha |].
    unfold condicao, filtro. cbn [verdadeiro]. rewrite Hig, Hl. simpl.
    apply juncao_In. eauto 10.
  - intros (rows & row & Hrows & Hin & Hrid). injection Hrows as <-.
    apply In_ordenar, in_flat_map in Hin as (a & Ha & Hin).
    destruct (condicao (igreja_id s) do_lider None a) eqn:Hcond;
      [| destruct Hin].
    apply juncao_In in Hin as (p & c & Hp & Hpe & Hc & Hce & ->).
    rewrite linha_da_lista_id in Hrid. injection Hrid as Hid.
    unfold condicao, filtro in Hcond. cbn [verdadeiro] in Hcond.
    rewrite !andb_true_r in Hcond. apply andb_true_iff in Hcond as [Hig Hl].
    assert (Hin : In (a, p, c)
              (flat_map (fun a =>
                 if (ac_id a =? id) && sql_eq (ac_igreja_id a) (igreja_id s)
                 then flat_map (fun p =>
                        if sql_eq (ac_pessoa_id a) (coluna p "id")
                        then omap (fun c =>
                               if sql_eq (ac_conselheiro_id a) (coluna c "id")
                               then Some (a, p, c) else None) (pessoas bd)
                        else []) (pessoas bd)
                 else []) (aconselhamentos bd)))
      by (apply buscar_registro_In; auto 10).
    apply In_head in Hin as ([[a' p'] c'] & Hb).
    pose proof (head_In _ _ Hb) as Hb'.
    apply buscar_registro_In in Hb' as (Ha' & Hid' & _ & _ & _ & _ & Hce').
    assert (a' = a) as ->.
    { apply (ids_unicos ac_id (aconselhamentos bd) Hpk); auto. congruence. }
    unfold buscar_registro. rewrite Hb.
    rewrite (Hacesso a c' Hce'), Hl. simpl. eauto.
Qed.

(** X22: [atualizar_aconselhamento] overwrites every editable column from
    the dict it is given: when it succeeds on a record of the caller's
    church, a summary or notes that are missing or empty in the dict leave
    the stored column NULL, so the text kept before is lost; the type, the
    status and the next meeting are always those of the dict, and the id,
    the person, the counsellor and the date are kept. *)
Theorem atualizar_sem_resumo_apaga s sr sn id dados bd (i : nat) a
    (Hok : fst (atualizar_aconselhamento SECRET_KEY s sr sn id dados livre bd)
           = Ok tt)
    (Ha : aconselhamentos bd !! i = Some a)
    (Hid : ac_id a = id)
    (Hig : sql_eq (ac_igreja_id a) (igreja_id s) = true) :
  exists a',
    aconselhamentos
      (snd (atualizar_aconselhamento SECRET_KEY s sr sn id dados livre bd)) !! i
    = Some a'
    /\ (verdadeiro (coluna dados "resumo") = false ->
        ac_resumo_criptografado a' = VNull)
    /\ (verdadeiro (coluna dados "notas") = false ->
        ac_notas_criptografadas a' = VNull)
    /\ ac_tipo a' = coluna dados "tipo"
    /\ ac_status a' = coluna dados "status"
    /\ ac_proximo_encontro a' = coluna dados "proximo_encontro"
    /\ ac_id a' = ac_id a /\ ac_pessoa_id a' = ac_pessoa_id a
    /\ ac_conselheiro_id a' = ac_conselheiro_id a
    /\ ac_data_atendimento a' = ac_data_atendimento a.
Proof.
  rewrite atualizar_aconselhamento_run in Hok |- *.
  destruct (cifrar_campo SECRET_KEY sr _) as [rc |] eqn:Hrc; [| discriminate].
  destruct (cifrar_campo SECRET_KEY sn _) as [nc |] eqn:Hnc; [| discriminate].
  destruct (usuario_item s "id"); [| discriminate].
  cbn [snd aconselhamentos].
  rewrite list_lookup_fmap, Ha. cbn [fmap option_fmap option_map].
  apply Z.eqb_eq in Hid. rewrite Hid, Hig. cbn [andb].
  eexists. split; [reflexivity |]. cbn.
  split; [| split; [| repeat split]].
  - intros Hv. unfold cifrar_campo in Hrc. rewrite Hv in Hrc. congruence.
  - intros Hv. unfold cifrar_campo in Hnc. rewrite Hv in Hnc. congruence.
Qed.

(** X23: a record that [get_aconselhamento_detalhes] hands out leaves a
    trace: when the call, made with no write pending, returns a record, the
    access log has gained exactly one row, with the user, the church, the
    action 'aconselhamento.visualizar' and the id read, and the records and
    the people are untouched; when it returns nothing or raises, the
    database is as before. *)
Theorem leitura_fica_registrada s id bd :
  match get_aconselhamento_detalhes SECRET_KEY s id livre bd with
  | (Ok (Some d), bd') =>
      exists uid n,
        usuario_item s "id" = Ok uid
        /\ logs_acesso bd'
           = (logs_acesso bd ++
              [LogAcesso n uid (igreja_id s) "aconselhamento.visualizar"
                 ("Acesso ao aconselhamento " ++ pretty id)])%list
        /\ (forall l, In l (logs_acesso bd) -> lg_id l < n)
        /\ aconselhamentos bd' = aconselhamentos bd
        /\ pessoas bd' = pessoas bd
  | (_, bd') => bd' = bd
  end.
Proof.
  rewrite get_aconselhamento_detalhes_run.
  destruct (buscar_registro s id bd) as [[[a p] c] |]; [| reflexivity].
  destruct (usuario_item s "perfil"); [| reflexivity].
  destruct (usuario_get s "pessoa_id"); [| reflexivity].
  destruct (bool_decide _ && _); [reflexivity |].
  destruct (usuario_item s "id") as [uid |]; [| reflexivity].
  eexists uid, _. split; [reflexivity |]. split; [reflexivity |].
  split; [| split; reflexivity].
  intros l Hl. apply proximo_id_maior. now apply in_map.
Qed.

End AtendimentosMais.

Section ListasDeAtendimento.
Import Pessoas Aconselhamento Atendimentos Exemplo ExemploMais.

Lemma lista_e_detalhes_concordam_witness :
  exists d bd2,
    get_aconselhamento_detalhes (H := biblioteca_de_teste) "segredo"
      sessao_lider 1 livre bd_atendimentos = (Ok (Some d), bd2).
Proof.
  apply (proj2 (@lista_e_detalhes_concordam biblioteca_de_teste "segredo"
                  sessao_lider (<["pessoa_id" := VInt 10]> lider)
                  (VText "LIDER") (VInt 2) 1 livre bd_atendimentos
                  eq_refl eq_refl eq_refl eq_refl)).
  exists [linha_da_lista atendimento_de_maria joao maria],
         (linha_da_lista atendimento_de_maria joao maria).
  split; [vm_compute; reflexivity |].
  split; [now left | reflexivity].
Defined.

Lemma atualizar_sem_resumo_apaga_witness :
  exists a',
    aconselhamentos
      (snd (atualizar_aconselhamento (H := biblioteca_de_teste) "segredo"
              sessao_admin "" "" 1
              {[ "tipo" := VText "Pastoral"; "status" := VText "concluido" ]}
              livre bd_atendimentos)) !! 0%nat = Some a'
    /\ ac_resumo_criptografado a' = VNull
    /\ ac_status a' = VText "concluido".
Proof.
  destruct (@atualizar_sem_resumo_apaga biblioteca_de_teste "segredo"
              sessao_admin "" "" 1
              {[ "tipo" := VText "Pastoral"; "status" := VText "concluido" ]}
              bd_atendimentos 0%nat atendimento_de_maria)
    as (a' & Ha' & Hres & _ & _ & Hst & _).
  - vm_compute. reflexivity.
  - reflexivity.
  - reflexivity.
  - reflexivity.
  - exists a'. split; [exact Ha' |]. split; [now apply Hres | exact Hst].
Defined.

(** X20: the list of [get_aconselhamentos] carries none of the content: it
    is the same whatever the stored summaries and notes are, and no row has
    a key for them, encrypted or not. *)
Theorem lista_sem_conteudo s filtros bd :
  get_aconselhamentos s filtros bd
  = get_aconselhamentos s filtros (sem_conteudo bd)
  /\ forall rows row, get_aconselhamentos s filtros bd = Ok rows ->
       In row rows ->
       row !! "resumo_criptografado" = None
       /\ row !! "notas_criptografadas" = None
       /\ row !! "resumo" = None /\ row !! "notas" = None.
Proof.
  split.
  - unfold get_aconselhamentos.
    destruct (usuario_item s "perfil") as [perfil |]; [| reflexivity].
    destruct (if bool_decide (perfil = VText "LIDER")
              then match usuario_get s "pessoa_id" with
                   | Ok v => Ok (Some v)
                   | Erro e => Erro e
                   end
              else Ok None) as [do_lider |]; [| reflexivity].
    f_equal. f_equal. unfold sem_conteudo. cbn [aconselhamentos].
    rewrite flat_map_concat_map, flat_map_concat_map, map_map. reflexivity.
  - intros rows row Hrows Hin. unfold get_aconselhamentos in Hrows.
    destruct (usuario_item s "perfil") as [perfil |]; [| discriminate].
    destruct (if bool_decide (perfil = VText "LIDER")
              then match usuario_get s "pessoa_id" with
                   | Ok v => Ok (Some v)
                   | Erro e => Erro e
                   end
              else Ok None) as [do_lider |]; [| discriminate].
    injection Hrows as <-.
    apply In_ordenar, in_flat_map in Hin as (a & _ & Hin).
    destruct (condicao _ _ _ a); [| destruct Hin].
    apply juncao_In in Hin as (p & c & _ & _ & _ & _ & ->).
    repeat split; reflexivity.
Qed.

(** X21: every person [get_pessoas_para_aconselhamento] offers is a row of
    the caller's church whose [ativo] is 1, given with its id and name, and
    is also a row of the unfiltered [get_pessoas] with the same id and
    name. *)
Theorem pessoas_para_aconselhamento_na_lista s bd row
    (Hin : In row (get_pessoas_para_aconselhamento s bd)) :
  exists p l,
    In p (pessoas bd) /\ coluna p "ativo" = VInt 1
    /\ sql_eq (coluna p "igreja_id") (igreja_id s) = true
    /\ row = ({[ "id" := coluna p "id"; "nome" := coluna p "nome" ]} : linha)
    /\ In l (get_pessoas s None bd)
    /\ coluna l "id" = coluna p "id" /\ coluna l "nome" = coluna p "nome".
Proof.
  unfold get_pessoas_para_aconselhamento in Hin.
  apply in_map_iff in Hin as (p & <- & Hin).
  apply In_ordenar, filter_In in Hin as [Hp Hcond].
  apply andb_true_iff in Hcond as [Hig Hat].
  assert (Hativo : coluna p "ativo" = VInt 1).
  { unfold sql_eq in Hat. destruct (coluna p "ativo"); try discriminate.
    apply Z.eqb_eq in Hat. now subst. }
  exists p.
  exists (<["tags" := group_concat_tags
                        (List.filter (fun '(pt, _) => passa_filtros None p pt)
                                     (juncao_tags bd p))]>
            (<["familia_nome" := familia_nome bd p]> p)).
  split; [exact Hp |]. split; [exact Hativo |]. split; [exact Hig |].
  split; [reflexivity |]. split.
  - unfold get_pessoas. apply in_map_iff. exists p. split; [reflexivity |].
    apply In_ordenar, filter_In. split; [exact Hp |].
    unfold ativa_na_igreja. rewrite Hig, Hativo. simpl.
    unfold juncao_tags.
    destruct (List.filter _ (pessoa_tags bd)); reflexivity.
  - now rewrite !coluna_insert_ne by discriminate.
Qed.

Lemma pessoas_para_aconselhamento_na_lista_witness :
  exists p l,
    In p (pessoas bd0) /\ coluna p "ativo" = VInt 1
    /\ sql_eq (coluna p "igreja_id") (VInt 1) = true
    /\ ({[ "id" := VInt 10; "nome" := VText "Maria" ]} : linha)
       = {[ "id" := coluna p "id"; "nome" := coluna p "nome" ]}
    /\ In l (get_pessoas sessao_admin None bd0)
    /\ coluna l "id" = coluna p "id" /\ coluna l "nome" = coluna p "nome".
Proof.
  apply (pessoas_para_aconselhamento_na_lista sessao_admin bd0
           {[ "id" := VInt 10; "nome" := VText "Maria" ]}).
  vm_compute. right. left. reflexivity.
Defined.

End ListasDeAtendimento.

(** ** The WhatsApp links *)

Section WhatsAppMais.
Import WhatsApp ExemploMais.

Lemma todos_app t a b : todos t (a ++ b) = todos t a && todos t b.
Proof.
  induction a as [| c a IH]; [reflexivity |].
  change (String c a ++ b) with (String c (a ++ b)). simpl.
  now rewrite IH, andb_assoc.
Qed.

Lemma todos_impl (t u : ascii -> bool) s :
  (forall c, t c = true -> u c = true) -> todos t s = true -> todos u s = true.
Proof.
  intros Htu. induction s as [| c s IH]; simpl; [reflexivity |].
  intros Hs. apply andb_true_iff in Hs as [Hc Hs].
  now rewrite (Htu c Hc), IH.
Qed.

Lemma hexa_de_url c :
  de_url (hexa (nat_of_ascii c / 16)) = true
  /\ de_url (hexa (nat_of_ascii c mod 16)) = true.
Proof. destruct c as [[] [] [] [] [] [] [] []]; split; reflexivity. Qed.

Lemma quote_de_url m : todos de_url (quote m) = true.
Proof.
  induction m as [| c m IH]; [reflexivity |]. cbn [quote].
  destruct (seguro c) eqn:Hc; cbv zeta; cbn [todos].
  - rewrite IH, andb_true_r. unfold de_url. now rewrite Hc.
  - destruct (hexa_de_url c) as [-> ->]. now rewrite IH.
Qed.

Lemma continuacao_ascii c :
  (nat_of_ascii c <? 128)%nat = true -> continuacao c = false.
Proof.
  unfold continuacao. intros Hc. apply Nat.ltb_lt in Hc.
  destruct (Nat.leb_spec 128 (nat_of_ascii c)); [lia | reflexivity].
Qed.

(** A text of ASCII has one character per byte, and the digits kept are
    those of ASCII. *)
Lemma digitos_ascii d s :
  ascii_puro s = true ->
  todos (fun c => (48 <=? nat_of_ascii c)%nat && (nat_of_ascii c <=? 57)%nat)
        (juntar (List.filter (isdigit d) (caracteres s))) = true.
Proof.
  induction s as [| c s IH]; [reflexivity |].
  intros Hs. unfold ascii_puro in Hs. cbn [todos] in Hs.
  apply andb_true_iff in Hs as [Hc Hs]. specialize (IH Hs).
  assert (Hcar : caracteres (String c s) = String c "" :: caracteres s).
  { cbn [caracteres]. cbv zeta. destruct s as [| e s']; [reflexivity |].
    cbn [todos] in Hs. apply andb_true_iff in Hs as [He _].
    now rewrite (continuacao_ascii e He). }
  rewrite Hcar. cbn [List.filter]. unfold isdigit at 1. cbv zeta.
  rewrite Hc.
  destruct ((48 <=? nat_of_ascii c)%nat && (nat_of_ascii c <=? 57)%nat)
    eqn:Hd; [| exact IH].
  unfold juntar. cbn [fold_right].
  change (String c "" ++ ?x) with (String c x). cbn [todos].
  now rewrite Hd.
Qed.

Lemma digito_de_url c :
  (48 <=? nat_of_ascii c)%nat && (nat_of_ascii c <=? 57)%nat = true ->
  de_url c = true.
Proof.
  intros Hd. unfold de_url, seguro, sempre_seguro. cbv zeta. rewrite Hd.
  now rewrite !orb_true_r.
Qed.

(** X24: for a phone number written in ASCII, the links of
    [gerar_link_whatsapp] and [enviar_whatsapp] are made only of ASCII
    letters and digits and the characters [_.-~/%:?=], whatever bytes the
    message and the name hold: nothing of the message reaches the link
    unescaped. *)
Theorem links_so_com_caracteres_de_url d telefone mensagem nome
    (Htel : ascii_puro telefone = true) :
  todos de_url (gerar_link_whatsapp d telefone mensagem) = true
  /\ todos de_url (enviar_whatsapp d telefone mensagem nome) = true.
Proof.
  assert (Hlink : forall m, todos de_url (gerar_link_whatsapp d telefone m) = true).
  { intros m. unfold gerar_link_whatsapp. cbv zeta.
    pose proof (todos_impl _ de_url _ digito_de_url (digitos_ascii d telefone Htel))
      as Hdig.
    rewrite !todos_app, quote_de_url.
    destruct (length _ <=? 11)%nat; rewrite ?todos_app, Hdig; reflexivity. }
  split; [apply Hlink |]. unfold enviar_whatsapp. apply Hlink.
Qed.

Lemma links_so_com_caracteres_de_url_witness :
  todos de_url
    (enviar_whatsapp sem_digitos_unicode "(11) 98888-7777"
       "Oi {nome}! <a href=x>" "Zé & Cia") = true.
Proof.
  exact (proj2 (links_so_com_caracteres_de_url sem_digitos_unicode
                  "(11) 98888-7777" "Oi {nome}! <a href=x>" "Zé & Cia"
                  eq_refl)).
Defined.

Lemma valor_hexa_hexa c :
  valor_hexa (hexa (nat_of_ascii c / 16)) = (nat_of_ascii c / 16)%nat
  /\ valor_hexa (hexa (nat_of_ascii c mod 16)) = (nat_of_ascii c mod 16)%nat.
Proof. destruct c as [[] [] [] [] [] [] [] []]; split; reflexivity. Qed.

Lemma quote_injetiva : forall m1 m2, quote m1 = quote m2 -> m1 = m2.
Proof.
  induction m1 as [| c1 m1 IH]; intros [| c2 m2]; cbn [quote]; cbv zeta.
  - reflexivity.
  - destruct (seguro c2); discriminate.
  - destruct (seguro c1); discriminate.
  - destruct (seguro c1) eqn:H1, (seguro c2) eqn:H2.
    + intros [= -> Hq]. f_equal. auto.
    + intros [= -> _]. discriminate.
    + intros [= <- _]. discriminate.
    + intros [= Hh Hl Hq]. f_equal; [| auto].
      destruct (valor_hexa_hexa c1) as [Hh1 Hl1].
      destruct (valor_hexa_hexa c2) as [Hh2 Hl2].
      assert (Hh' : valor_hexa (hexa (nat_of_ascii c1 / 16))
                    = valor_hexa (hexa (nat_of_ascii c2 / 16)))
        by (f_equal; exact Hh).
      assert (Hl' : valor_hexa (hexa (nat_of_ascii c1 mod 16))
                    = valor_hexa (hexa (nat_of_ascii c2 mod 16)))
        by (f_equal; exact Hl).
      rewrite Hh1, Hh2 in Hh'. rewrite Hl1, Hl2 in Hl'.
      rewrite <- (ascii_nat_embedding c1), <- (ascii_nat_embedding c2).
      f_equal.
      rewrite (Nat.div_mod_eq (nat_of_ascii c1) 16),
              (Nat.div_mod_eq (nat_of_ascii c2) 16). lia.
Qed.

(** X25: for one phone number, two different messages never give the same
    link: the escaping of [gerar_link_whatsapp] loses nothing of the
    message. *)
Theorem gerar_link_whatsapp_distingue_mensagens d telefone m1 m2
    (Hdif : m1 <> m2) :
  gerar_link_whatsapp d telefone m1 <> gerar_link_whatsapp d telefone m2.
Proof.
  unfold gerar_link_whatsapp. cbv zeta. intros Heq. apply Hdif.
  apply texto_app_inv_l, texto_app_inv_l, texto_app_inv_l in Heq.
  now apply quote_injetiva.
Qed.

Lemma gerar_link_whatsapp_distingue_mensagens_witness :
  gerar_link_whatsapp sem_digitos_unicode "11988887777" "a b"
  <> gerar_link_whatsapp sem_digitos_unicode "11988887777" "a%20b".
Proof.
  apply (gerar_link_whatsapp_distingue_mensagens sem_digitos_unicode
           "11988887777" "a b" "a%20b").
  discriminate.
Defined.

End WhatsAppMais.

(** ** Donations and anonymisation *)

Section FinanceiroMais.
Import Pessoas Financeiro Doacoes.
Context {V : Type} `{Numero V}.

(** X26: with 'semana' the period of [get_resumo_financeiro] starts on the
    Monday of the current week, today or up to six days back; with any
    period name other than 'mes', 'ano' and 'semana' it starts thirty days
    before today, and no name is refused. *)
Theorem get_resumo_financeiro_periodos s r (doacoes : list (doacao V)) periodo
    res
    (Hres : get_resumo_financeiro s r periodo doacoes = Ok res) :
  (periodo = "semana" ->
     Datas.weekday (data_inicio res) = 0
     /\ data_inicio res <= hoje r < data_inicio res + 7)
  /\ (periodo <> "mes" -> periodo <> "ano" -> periodo <> "semana" ->
      data_inicio res = hoje r - 30).
Proof.
  unfold get_resumo_financeiro in Hres.
  destruct (inicio_do_periodo (hoje r) periodo) as [ini |] eqn:Hini;
    [| discriminate].
  destruct (date_add ini _); [| discriminate].
  injection Hres as <-. cbn [data_inicio].
  unfold inicio_do_periodo in Hini. split.
  - intros ->. simpl in Hini. unfold date_add in Hini.
    destruct ((0 <? _) && _); [| discriminate]. injection Hini as <-.
    unfold Datas.weekday.
    pose proof (Z.mod_pos_bound (hoje r + 6) 7 ltac:(lia)) as Hb.
    pose proof (Z.div_mod (hoje r + 6) 7 ltac:(lia)) as Hd.
    split; [| lia].
    replace (hoje r + - ((hoje r + 6) mod 7) + 6)
      with (((hoje r + 6) / 7) * 7) by lia.
    apply Z.mod_mul. lia.
  - intros H1 H2 H3.
    apply String.eqb_neq in H1, H2, H3. rewrite H1, H2, H3 in Hini.
    unfold date_add in Hini.
    destruct ((0 <? _) && _); [| discriminate]. injection Hini as <-. lia.
Qed.

(** X27: the summary of [get_resumo_financeiro] is computed from the
    donations of the caller's church alone: the donations of other churches
    change neither the totals, the counts, the groups by type nor the
    variation. *)
Theorem get_resumo_financeiro_so_da_igreja s r periodo
    (doacoes : list (doacao V)) :
  get_resumo_financeiro s r periodo doacoes
  = get_resumo_financeiro s r periodo
      (List.filter (fun d => sql_eq (VInt (do_igreja_id d)) (igreja_id s))
                   doacoes).
Proof.
  unfold get_resumo_financeiro.
  destruct (inicio_do_periodo (hoje r) periodo) as [ini |]; [| reflexivity].
  destruct (date_add ini _) as [ant |]; [| reflexivity].
  rewrite !filter_filter.
  assert (H1 : List.filter
                 (fun x => sql_eq (VInt (do_igreja_id x)) (igreja_id s)
                           && no_periodo (igreja_id s) ini x) doacoes
               = List.filter (no_periodo (igreja_id s) ini) doacoes).
  { apply filter_ext. intros d. unfold no_periodo.
    now destruct (sql_eq _ _). }
  assert (H2 : List.filter
                 (fun x => sql_eq (VInt (do_igreja_id x)) (igreja_id s)
                           && (no_periodo (igreja_id s) ant x
                               && (do_data x <? ini))) doacoes
               = List.filter
                   (fun d => no_periodo (igreja_id s) ant d && (do_data d <? ini))
                   doacoes).
  { apply filter_ext. intros d. unfold no_periodo.
    now destruct (sql_eq _ _). }
  now rewrite H1, H2.
Qed.

Lemma anonimizar_pessoa_run s pid ocupado bd (doacoes : list (doacao V)) :
  anonimizar_pessoa s pid ocupado (bd, doacoes) =
    if verdadeiro (igreja_id s) then
      if ocupado then (Erro OperationalError, (bd, doacoes))
      else (Ok true,
            (com_pessoas
               (atualizar_linhas (VInt pid) (igreja_id s) ANONIMO) bd,
             map (anonimizar_doacao pid) doacoes))
    else (Ok false, (bd, doacoes)).
Proof.
  unfold anonimizar_pessoa.
  destruct (verdadeiro (igreja_id s)); [| reflexivity].
  now destruct ocupado.
Qed.

(** The summary reads the church, the date, the type and the amount of a
    donation, nothing else. *)
Lemma get_resumo_financeiro_map s r periodo (g : doacao V -> doacao V) doacoes :
  (forall d, do_igreja_id (g d) = do_igreja_id d /\ do_data (g d) = do_data d
             /\ do_tipo (g d) = do_tipo d /\ do_valor (g d) = do_valor d) ->
  get_resumo_financeiro s r periodo (map g doacoes)
  = get_resumo_financeiro s r periodo doacoes.
Proof.
  intros Hg.
  assert (Hper : forall ini d, no_periodo (igreja_id s) ini (g d)
                               = no_periodo (igreja_id s) ini d).
  { intros ini d. unfold no_periodo. destruct (Hg d) as (-> & -> & _).
    reflexivity. }
  assert (Hval : forall l, map do_valor (map g l) = map do_valor l).
  { intros l. rewrite map_map. apply map_ext. intros d. apply Hg. }
  unfold get_resumo_financeiro.
  destruct (inicio_do_periodo (hoje r) periodo) as [ini |]; [| reflexivity].
  destruct (date_add ini _) as [ant |]; [| reflexivity].
  rewrite !filter_map_comuta, !Hval, !length_map.
  - f_equal. f_equal. unfold totais_por_tipo.
    rewrite map_map.
    erewrite (map_ext (fun x => do_tipo (g x)) do_tipo) by (intros d; apply Hg).
    apply map_ext. intros t.
    rewrite filter_map_comuta, Hval, length_map; [reflexivity |].
    intros d. now destruct (Hg d) as (_ & _ & -> & _).
  - intros d. rewrite Hper. now destruct (Hg d) as (_ & -> & _).
  - apply Hper.
Qed.

Lemma atribuir_ANONIMO (p : linha) k :
  atribuir ANONIMO p !! k
  = match dict_get ANONIMO k with Some v => Some v | None => p !! k end.
Proof.
  rewrite atribuir_lookup.
  unfold ANONIMO. cbn [ultima dict_get].
  repeat match goal with
         | |- context [String.eqb ?a k] =>
             destruct (String.eqb_spec a k) as [<- | ?]; [reflexivity |]
         end.
  reflexivity.
Qed.



Hypothesis soma_assoc : forall a b c : V, soma a (soma b c) = soma (soma a b) c.
Hypothesis soma_comm : forall a b : V, soma a b = soma b a.
Hypothesis soma_zero : forall a : V, soma zero a = a.

Lemma somatorio_perm (l l' : list V) :
  Permutation l l' -> somatorio l = somatorio l'.
Proof.
  unfold somatorio.
  induction 1 as [| x l l' _ IH | x y l | l l' l'' _ IH1 _ IH2]; simpl.
  - reflexivity.
  - now rewrite IH.
  - rewrite !soma_assoc. f_equal. apply soma_comm.
  - now rewrite IH1.
Qed.

Lemma com_nome_uma_linha bd (d : doacao V) :
  List.NoDup (map (fun p => coluna p "id") (pessoas bd)) ->
  exists x, com_nome bd d = [(d, x)].
Proof.
  unfold com_nome. generalize (pessoas bd) as ps.
  induction ps as [| p ps IH]; intros Hnd; [simpl; eauto |].
  inversion Hnd as [| ? ? Hnotin Hnd']; subst. simpl.
  destruct (sql_eq (do_pessoa_id d) (coluna p "id")) eqn:Hp.
  - assert (Hvazio : List.filter
              (fun q => sql_eq (do_pessoa_id d) (coluna q "id")) ps = []).
    { apply filter_nenhum. intros q Hq.
      destruct (sql_eq (do_pessoa_id d) (coluna q "id")) eqn:Heq;
        [| reflexivity].
      exfalso. apply Hnotin. apply in_map_iff. exists q. split; [| exact Hq].
      apply sql_eq_igual in Hp as [Hp _], Heq as [Heq _]. congruence. }
    rewrite Hvazio. simpl. eauto.
  - apply IH, Hnd'.
Qed.


End FinanceiroMais.

Section FinanceiroExemplos.
Import Pessoas Financeiro Doacoes Exemplo ExemploMais.

Lemma get_resumo_financeiro_periodos_witness :
  exists res,
    get_resumo_financeiro sessao_admin relogio0 "semana" doacoes_demo = Ok res
    /\ data_inicio res = 739922
    /\ Datas.weekday (data_inicio res) = 0.
Proof.
  eexists. split; [vm_compute; reflexivity |]. split; [reflexivity |].
  apply (proj1 (get_resumo_financeiro_periodos sessao_admin relogio0
                  doacoes_demo "semana" _ eq_refl) eq_refl).
Defined.




End FinanceiroExemplos.
